(** * Hierarchy synchronisation and cascading membership (teap backend)

    A shallow embedding of
      - [src/web/backend/ldap/utils.py]  ([merge_divisions],
        [check_consistency], [get_edap] and the reset tokens),
      - [src/web/backend/ldap/models.py] ([LdapUser], [Franchise],
        [LdapFranchise], [Division], [LdapTeam]) and
      - [src/web/backend/nextcloud/api.py] (the views),
    together with the properties the specification states about them and
    further properties of the code.

    Python values are modelled as follows.
      - A [str] is a [string] holding the UTF-8 encoding of the text, so
        [bytes.decode('utf-8')] is a validity check and [str.encode('UTF-8')]
        only changes the type.
      - [bytes] is [list byte].
      - A [dict] with string keys is a [gmap string _].
      - An exception is the [Raise] outcome of [result]. *)

From Stdlib.Strings Require Import Byte.
From Stdlib Require Import NArith.
From stdpp Require Import gmap strings list fin_maps.
From Stdlib Require DecimalString DecimalN DecimalPos.

(** ** Python values and exceptions *)

Inductive exn : Type :=
| ObjectDoesNotExist
| TypeError
| KeyError
| IndexError
| UnicodeDecodeError
| GatewayError (tag : string).

Inductive result (A : Type) : Type :=
| Ok (a : A)
| Raise (e : exn).
Arguments Ok {A} a.
Arguments Raise {A} e.

Abbreviation bytes := (list byte).

(** The values stored in the per-division report and in display-name fields. *)
Inductive pyval : Type :=
| PyNone
| PyBool (b : bool)
| PyStr (s : string)
| PyBytes (b : bytes).

(** ** [bytes.decode('utf-8')] and [str.encode('UTF-8')] *)

Module Utf8.

Definition between (lo hi : N) (b : byte) : bool :=
    (lo <=? Byte.to_N b)%N && (Byte.to_N b <=? hi)%N.

Definition cont : byte -> bool := between 128 191.

  (** Strict UTF-8: no overlong forms, no surrogates, nothing above U+10FFFF. *)
Fixpoint valid (bs : bytes) : bool :=
    match bs with
    | [] => true
    | b0 :: r0 =>
        if between 0 127 b0 then valid r0
        else if between 194 223 b0 then
          match r0 with
          | b1 :: r1 => cont b1 && valid r1
          | _ => false
          end
        else if between 224 239 b0 then
          match r0 with
          | b1 :: b2 :: r2 =>
              (if between 224 224 b0 then between 160 191 b1
               else if between 237 237 b0 then between 128 159 b1
               else cont b1)
              && cont b2 && valid r2
          | _ => false
          end
        else if between 240 244 b0 then
          match r0 with
          | b1 :: b2 :: b3 :: r3 =>
              (if between 240 240 b0 then between 144 191 b1
               else if between 244 244 b0 then between 128 143 b1
               else cont b1)
              && cont b2 && cont b3 && valid r3
          | _ => false
          end
        else false
    end.

Definition decode (bs : bytes) : result string :=
    if valid bs then Ok (String.string_of_list_byte bs) else Raise UnicodeDecodeError.

Definition encode (s : string) : bytes := String.list_byte_of_string s.

End Utf8.

(** ** The [result] monad (exceptions without state), used by the pure code *)

Definition rbind {A B} (r : result A) (k : A -> result B) : result B :=
  match r with
  | Ok a => k a
  | Raise e => Raise e
  end.

(** ** ConsistencyReconciler: [utils.merge_divisions] *)

Module Utils.

  (** One directory entry as the gateway returns it: attribute name to the
      list of raw values. *)
Abbreviation ldap_entry := (gmap string (list bytes)).
  (** The report kept for one machine name. *)
Abbreviation info := (gmap string pyval).
Abbreviation report := (gmap string (gmap string pyval)).

  (** [d[key]] *)
Definition getitem {V} (key : string) (d : gmap string V) : result V :=
    match d !! key with
    | Some v => Ok v
    | None => Raise KeyError
    end.

  (** [l[0]] *)
Definition first {V} (l : list V) : result V :=
    match l with
    | v :: _ => Ok v
    | [] => Raise IndexError
    end.

  (** The entry written by the first loop (lines 46-50). *)
Definition config_info (display_name : string) : info :=
    <["config_display_name" := PyStr display_name]>
      (<["exists_in_config" := PyBool true]>
         (<["exists_in_ldap" := PyBool false]> ∅)).

  (** The entry written by the [else] branch of the second loop (lines 62-66). *)
Definition ldap_info (div_display_name : pyval) : info :=
    <["ldap_display_name" := div_display_name]>
      (<["exists_in_ldap" := PyBool true]>
         (<["exists_in_config" := PyBool false]> ∅)).

  (** [dict.update] of lines 57-60. *)
Definition ldap_update (div_display_name : pyval) (d : info) : info :=
    <["ldap_display_name" := div_display_name]>
      (<["exists_in_ldap" := PyBool true]> d).

  (** Line 53: [ldap_division['cn'][0].decode('utf-8')]. *)
Definition div_machine_name (ldap_division : ldap_entry) : result string :=
    rbind (getitem "cn" ldap_division) (fun cn =>
    rbind (first cn) Utf8.decode).

  (** Line 54: the decoded first description, or [None] when
      [ldap_division.get('description')] is falsy (missing or empty). *)
Definition div_display_name (ldap_division : ldap_entry) : result pyval :=
    match ldap_division !! "description" with
    | Some (d0 :: _) => rbind (Utf8.decode d0) (fun s => Ok (PyStr s))
    | _ => Ok PyNone
    end.

  (** The body of the second loop (lines 53-66). *)
Definition merge_ldap_division (divisions : report) (ldap_division : ldap_entry)
    : result report :=
    rbind (div_machine_name ldap_division) (fun name =>
    rbind (div_display_name ldap_division) (fun display =>
    match divisions !! name with
    | Some d => Ok (<[name := ldap_update display d]> divisions)
    | None => Ok (<[name := ldap_info display]> divisions)
    end)).

Fixpoint merge_ldap_divisions (ldap_divisions : list ldap_entry) (divisions : report)
    : result report :=
    match ldap_divisions with
    | [] => Ok divisions
    | ldap_division :: rest =>
        rbind (merge_ldap_division divisions ldap_division)
              (merge_ldap_divisions rest)
    end.

  (** The first loop (lines 45-50), over [config_divisions.items()]. *)
Definition merge_config (config_divisions : gmap string string) : report :=
    map_fold (fun machine_name display_name divisions =>
                <[machine_name := config_info display_name]> divisions)
             ∅ config_divisions.

Definition merge_divisions (config_divisions : gmap string string)
             (ldap_divisions : list ldap_entry) : result report :=
    merge_ldap_divisions ldap_divisions (merge_config config_divisions).

End Utils.

(** ** State and exceptions: the monad of the gateway-driven code *)

Definition M (S A : Type) : Type := S -> result A * S.

#[export] Instance M_ret {S} : MRet (M S) := fun A a s => (Ok a, s).

#[export] Instance M_bind {S} : MBind (M S) := fun A B k m s =>
  match m s with
  | (Ok a, s') => k a s'
  | (Raise e, s') => (Raise e, s')
  end.

Definition raise {S A} (e : exn) : M S A := fun s => (Raise e, s).

#[export] Instance exn_eq_dec : EqDecision exn.
Proof. solve_decision. Defined.

(** [try: body / except e: handler] *)
Definition try_except {S A} (body : M S A) (e : exn) (handler : M S A) : M S A :=
  fun s =>
    match body s with
    | (Raise e', s') => if decide (e' = e) then handler s' else (Raise e', s')
    | r => r
    end.

(** [for x in l: body x] *)
Fixpoint for_each {S A} (l : list A) (body : A -> M S unit) : M S unit :=
  match l with
  | [] => mret tt
  | x :: rest => body x ;; for_each rest body
  end.

(** Iterating [None] raises [TypeError]. *)
Definition iter {S A} (o : option (list A)) : M S (list A) :=
  match o with
  | Some l => mret l
  | None => raise TypeError
  end.

(** [a, b = v] raises [TypeError] when [v] is [None]. *)
Definition unpack {S A B} (o : option (A * B)) : M S (A * B) :=
  match o with
  | Some p => mret p
  | None => raise TypeError
  end.

(** ** HierarchyModel: the entities of [models.py] *)

(** [User] with the [fqdn] of [LdapUser]; [groups] defaults to [None]. *)
Record LdapUser : Type := {
  user_fqdn : option string;
  uid : string;
  given_name : string;
  mail : option string;
  surname : option string;
  groups : option (list string)
}.

(** [Franchise], [Division] and [Team] and their [Ldap*] subclasses carry the
    same attributes; the class of an object is fixed by the method or the
    serializer that handles it. A display name is a [str], [None], or (after
    [LdapFranchise.create]) [bytes]; machine names and user ids are the
    strings the callers build the objects with. *)
Record entity : Type := {
  fqdn : option string;
  machine_name : string;
  display_name : pyval
}.

Definition set_display_name (v : pyval) (self : entity) : entity :=
  {| fqdn := fqdn self; machine_name := machine_name self; display_name := v |}.

(** ** DirectoryGateway: the [edap] client as a capability record *)

Section Directory.

(** The state of the directory service. *)
Context {D : Type}.

Record Edap : Type := {
  add_user : string -> string -> option string -> string -> D -> result unit * D;
  make_uid_member_of : string -> string -> D -> result unit * D;
  make_user_member_of_team : string -> string -> D -> result unit * D;
  make_user_member_of_franchise : string -> string -> D -> result unit * D;
  make_uid_member_of_division : string -> string -> D -> result unit * D;
  get_team_component_units :
    string -> D -> result (option (Utils.ldap_entry * Utils.ldap_entry)) * D;
  create_franchise : string -> D -> result unit * D;
  label_franchise : string -> D -> result string * D;
  create_division : string -> pyval -> D -> result unit * D;
  get_divisions : D -> result (list Utils.ldap_entry) * D;
  get_franchises : D -> result (list Utils.ldap_entry) * D;
  create_team : string -> pyval -> D -> result unit * D;
  get_team : string -> D -> result Utils.ldap_entry * D;
  make_team_machine_name : string -> string -> string;
  make_team_display_name : pyval -> pyval -> pyval
}.

(** The serializers of [backend/ldap/serializers.py] (not part of the
    sources at hand): each [load(...).data] turns a directory entry into
    an object; the [many=True] schemas map over the list. *)
Record Serializers : Type := {
  edap_team_schema : Utils.ldap_entry -> entity;
  edap_franchise_schema : Utils.ldap_entry -> entity;
  edap_division_schema : Utils.ldap_entry -> entity
}.

Definition edap_franchises_schema (ser : Serializers)
  : list Utils.ldap_entry -> list entity := map (edap_franchise_schema ser).
Definition edap_divisions_schema (ser : Serializers)
  : list Utils.ldap_entry -> list entity := map (edap_division_schema ser).

(** The calls issued to the gateway, in order. *)
Inductive call : Type :=
| AddUser (uid given_name : string) (surname : option string) (password : string)
| MakeUidMemberOf (uid group : string)
| MakeUserMemberOfTeam (uid team : string)
| MakeUserMemberOfFranchise (uid franchise : string)
| MakeUidMemberOfDivision (uid division : string)
| GetTeamComponentUnits (team : string)
| CreateFranchise (name : string)
| LabelFranchise (name : string)
| CreateDivision (name : string) (display : pyval)
| GetDivisions
| GetFranchises
| CreateTeam (name : string) (display : pyval)
| GetTeam (name : string).

Record world : Type := World { dir : D; log : list call }.

(** One gateway call: it is logged when issued, whatever its outcome. *)
Definition invoke {A} (c : call) (op : D -> result A * D) : M world A :=
  fun w =>
    let '(r, d) := op (dir w) in
    (r, {| dir := d; log := log w ++ [c] |}).

End Directory.

Arguments Edap D : clear implicits.
Arguments world D : clear implicits.

Definition EVERYBODY_MACHINE_NAME : string := "everybody".
Definition EVERYBODY_DISPLAY_NAME : string := "Everybody".

Module LdapTeam.
Section Methods.
Context {D : Type} (edap : Edap D) (ser : Serializers).

(** Lines 192-202. *)
Definition get_everybody_team : M (world D) entity :=
  everybody_team ←
    try_except
      (invoke (GetTeam EVERYBODY_MACHINE_NAME)
              (get_team edap EVERYBODY_MACHINE_NAME))
      ObjectDoesNotExist
      (invoke (CreateTeam EVERYBODY_MACHINE_NAME (PyStr EVERYBODY_DISPLAY_NAME))
              (create_team edap EVERYBODY_MACHINE_NAME (PyStr EVERYBODY_DISPLAY_NAME)) ;;
       invoke (GetTeam EVERYBODY_MACHINE_NAME)
              (get_team edap EVERYBODY_MACHINE_NAME));
  mret (edap_team_schema ser everybody_team).

End Methods.
End LdapTeam.

Module LdapUser.
Section Methods.
Context {D : Type} (edap : Edap D) (ser : Serializers).

(** Lines 35-44. *)
Definition create (self : LdapUser) (password : string) : M (world D) unit :=
  invoke (AddUser (uid self) (given_name self) (surname self) password)
         (add_user edap (uid self) (given_name self) (surname self) password) ;;
  gs ← iter (groups self);
  for_each gs (fun group =>
    invoke (MakeUidMemberOf (uid self) group)
           (make_uid_member_of edap (uid self) group)) ;;
  everybody_team ← LdapTeam.get_everybody_team edap ser;
  invoke (MakeUserMemberOfTeam (uid self) (machine_name everybody_team))
         (make_user_member_of_team edap (uid self) (machine_name everybody_team)).

(** Lines 53-63. *)
Definition add_to_team (self : LdapUser) (team_machine_name : string)
  : M (world D) unit :=
  invoke (MakeUserMemberOfTeam (uid self) team_machine_name)
         (make_user_member_of_team edap (uid self) team_machine_name) ;;
  units ← invoke (GetTeamComponentUnits team_machine_name)
                 (get_team_component_units edap team_machine_name);
  '(franchise, division) ← unpack units;
  let franchise := edap_franchise_schema ser franchise in
  let division := edap_division_schema ser division in
  invoke (MakeUserMemberOfFranchise (uid self) (machine_name franchise))
         (make_user_member_of_franchise edap (uid self) (machine_name franchise)) ;;
  invoke (MakeUidMemberOfDivision (uid self) (machine_name division))
         (make_uid_member_of_division edap (uid self) (machine_name division)).

End Methods.
End LdapUser.

Module LdapFranchise.
Section Methods.
Context {D : Type} (edap : Edap D) (ser : Serializers).

(** Lines 121-134. *)
Definition create_teams (self : entity) : M (world D) unit :=
  raw ← invoke GetDivisions (get_divisions edap);
  let divisions := edap_divisions_schema ser raw in
  for_each divisions (fun division =>
    let machine_name' :=
      make_team_machine_name edap (machine_name self) (machine_name division) in
    let display_name' :=
      make_team_display_name edap (display_name self) (display_name division) in
    invoke (CreateTeam machine_name' display_name')
           (create_team edap machine_name' display_name')).

(** Lines 113-119. [self] is mutated before the teams are created, so the
    object is part of the state that is threaded through. *)
Definition create (self : entity) : M (world D) entity :=
  invoke (CreateFranchise (machine_name self))
         (create_franchise edap (machine_name self)) ;;
  label ← invoke (LabelFranchise (machine_name self))
                 (label_franchise edap (machine_name self));
  let self := set_display_name (PyBytes (Utf8.encode label)) self in
  create_teams self ;;
  mret self.

End Methods.
End LdapFranchise.

Module Division.
Section Methods.
Context {D : Type} (edap : Edap D) (ser : Serializers).

(** Lines 149-162. *)
Definition create_teams (self : entity) : M (world D) unit :=
  raw ← invoke GetFranchises (get_franchises edap);
  let franchises := edap_franchises_schema ser raw in
  for_each franchises (fun franchise =>
    let machine_name' :=
      make_team_machine_name edap (machine_name franchise) (machine_name self) in
    let display_name' :=
      make_team_display_name edap (display_name franchise) (display_name self) in
    invoke (CreateTeam machine_name' display_name')
           (create_team edap machine_name' display_name')).

(** Lines 142-147. *)
Definition create (self : entity) : M (world D) unit :=
  invoke (CreateDivision (machine_name self) (display_name self))
         (create_division edap (machine_name self) (display_name self)) ;;
  create_teams self.

End Methods.
End Division.

(** ** FolderGateway: the [nextcloud] client, and FolderProvisioner *)

(** What the code reads of a gateway response: [is_ok] and [data]. *)
Record response : Type := {
  is_ok : bool;
  data : option (gmap string Z)
}.

(** [res.data['id']] *)
Definition data_id (res : response) : result Z :=
  match data res with
  | Some d => Utils.getitem "id" d
  | None => Raise TypeError
  end.

Section Folders.

(** The state of the groupware service. *)
Context {N : Type}.

Record Nextcloud : Type := {
  create_group_folder : string -> N -> result response * N;
  grant_access_to_group_folder : Z -> string -> N -> result response * N;
  set_permissions_to_group_folder : Z -> string -> string -> N -> result response * N;
  (** [str(NxcPermission.READ.value)], a constant of the client library. *)
  READ_value : string;
  (** Modelled from the spec: [get_group_folder] of
      [backend/nextcloud/utils.py] is not part of the sources at hand. It
      looks the named top-level folder up and returns it (here: its id), or
      a falsy value when there is none. *)
  get_group_folder : string -> N -> result (option Z) * N
}.

Inductive nxc_call : Type :=
| GetGroupFolder (name : string)
| CreateGroupFolder (path : string)
| GrantAccess (folder_id : Z) (group_id : string)
| SetPermissions (folder_id : Z) (group_id : string) (permission : string).

(** A logged call with what came back: [Some b] for a reply that is truthy
    ([is_ok], or a folder that was found), [None] for an exception. *)
Definition nxc_event : Type := nxc_call * option bool.

Record nworld : Type := NWorld { nxc : N; nlog : list nxc_event }.

Definition ninvoke {A} (c : nxc_call) (truthy : A -> bool)
           (op : N -> result A * N) : M nworld A :=
  fun w =>
    let '(r, n) := op (nxc w) in
    (r, {| nxc := n;
           nlog := nlog w ++ [(c, match r with Ok a => Some (truthy a) | Raise _ => None end)] |}).

(** Lift a pure computation that may raise. *)
Definition lift {S A} (r : result A) : M S A := fun s => (r, s).

End Folders.

Arguments Nextcloud N : clear implicits.
Arguments nworld N : clear implicits.

Module Franchise.

Definition GROUP_FOLDER : string := "Franchises".

(** ["/".join([a, b])] *)
Definition join_path (a b : string) : string := a +:+ "/" +:+ b.

Section Methods.
Context {N : Type} (nxcl : Nextcloud N).

(** Lines 92-101. *)
Definition create_main_folder : M (nworld N) unit :=
  create_main_folder_res ←
    ninvoke (CreateGroupFolder GROUP_FOLDER) is_ok
            (create_group_folder nxcl GROUP_FOLDER);
  main_folder_id ← lift (data_id create_main_folder_res);
  ninvoke (GrantAccess main_folder_id EVERYBODY_MACHINE_NAME) is_ok
          (grant_access_to_group_folder nxcl main_folder_id EVERYBODY_MACHINE_NAME) ;;
  ninvoke (SetPermissions main_folder_id EVERYBODY_MACHINE_NAME (READ_value nxcl)) is_ok
          (set_permissions_to_group_folder nxcl main_folder_id EVERYBODY_MACHINE_NAME
                                           (READ_value nxcl)) ;;
  mret tt.

(** Lines 74-90. *)
Definition create_folder (folder_name : string) : M (nworld N) bool :=
  main_franchises_folder ←
    ninvoke (GetGroupFolder GROUP_FOLDER) (fun o : option Z => bool_decide (is_Some o))
            (get_group_folder nxcl GROUP_FOLDER);
  (if decide (main_franchises_folder = None) then create_main_folder else mret tt) ;;
  create_folder_res ←
    ninvoke (CreateGroupFolder (join_path GROUP_FOLDER folder_name)) is_ok
            (create_group_folder nxcl (join_path GROUP_FOLDER folder_name));
  folder_id ← lift (data_id create_folder_res);
  grant_access_res ←
    ninvoke (GrantAccess folder_id folder_name) is_ok
            (grant_access_to_group_folder nxcl folder_id folder_name);
  folder_id' ← lift (data_id create_folder_res);
  grant_everybody_access ←
    ninvoke (GrantAccess folder_id' EVERYBODY_MACHINE_NAME) is_ok
            (grant_access_to_group_folder nxcl folder_id' EVERYBODY_MACHINE_NAME);
  mret (is_ok create_folder_res && is_ok grant_access_res && is_ok grant_everybody_access).

End Methods.
End Franchise.

(** ** What the properties observe of a directory *)

(** The groups a user can be made a member of, by the call that does it. *)
Inductive group : Type :=
| AnyGroup (name : string)
| TeamGroup (team : string)
| FranchiseGroup (franchise : string)
| DivisionGroup (division : string).

#[export] Instance group_eq_dec : EqDecision group.
Proof. solve_decision. Defined.

#[export] Instance byte_eq_dec : EqDecision byte := Byte.byte_eq_dec.

#[export] Instance pyval_eq_dec : EqDecision pyval.
Proof. solve_decision. Defined.

Record View (D : Type) : Type := {
  has_team : D -> string -> Prop;
  member : D -> string -> group -> Prop
}.
Arguments has_team {D} _ _ _.
Arguments member {D} _ _ _ _.

(** The membership calls among the calls of a log. *)
Definition is_membership_call (c : call) : bool :=
  match c with
  | MakeUidMemberOf _ _ | MakeUserMemberOfTeam _ _
  | MakeUserMemberOfFranchise _ _ | MakeUidMemberOfDivision _ _ => true
  | _ => false
  end.

Definition membership_calls (l : list call) : list call :=
  List.filter is_membership_call l.

(** The team-creation requests of a derivation batch for a franchise
    ([franchise_teams]) and for a division ([division_teams]). *)
Definition franchise_teams {D} (edap : Edap D) (self : entity) (divisions : list entity)
  : list call :=
  map (fun division =>
         CreateTeam (make_team_machine_name edap (machine_name self) (machine_name division))
                    (make_team_display_name edap (display_name self) (display_name division)))
      divisions.

Definition division_teams {D} (edap : Edap D) (self : entity) (franchises : list entity)
  : list call :=
  map (fun franchise =>
         CreateTeam (make_team_machine_name edap (machine_name franchise) (machine_name self))
                    (make_team_display_name edap (display_name franchise) (display_name self)))
      franchises.

(** ** Vocabulary of the reconciliation properties *)

Module Report.
Import Utils.

(** The machine name a directory entry stands for, when line 53 yields one. *)
Definition name_of (e : ldap_entry) : option string :=
  match div_machine_name e with
  | Ok name => Some name
  | Raise _ => None
  end.

Definition names (l : list ldap_entry) : list string := omap name_of l.

(** Entries on which lines 53-54 do not raise: a [cn] with a first value
    that is UTF-8, and a first description (if any) that is UTF-8. *)
Definition well_formed (e : ldap_entry) : bool :=
  match div_machine_name e, div_display_name e with
  | Ok _, Ok _ => true
  | _, _ => false
  end.

(** A display-name field that holds a display name. *)
Definition populated (o : option pyval) : Prop := ∃ s, o = Some (PyStr s).

(** What the report says about machine name [k], given the configuration
    and the directory entries merged so far. *)
Definition describes (cfg : gmap string string) (seen : list ldap_entry)
           (k : string) (o : option info) : Prop :=
  (is_Some o ↔ is_Some (cfg !! k) ∨ k ∈ names seen) ∧
  ∀ e, o = Some e →
    e !! "exists_in_config" = Some (PyBool (bool_decide (is_Some (cfg !! k)))) ∧
    e !! "exists_in_ldap" = Some (PyBool (bool_decide (k ∈ names seen))) ∧
    e !! "config_display_name" = PyStr <$> cfg !! k ∧
    (k ∉ names seen → e !! "ldap_display_name" = None) ∧
    (k ∈ names seen →
     ∃ x v, x ∈ seen ∧ div_machine_name x = Ok k ∧ div_display_name x = Ok v ∧
            e !! "ldap_display_name" = Some v).

(** A configuration and a directory answer used as a running example: [na]
    is in both sources, [eu] only in the configuration, [apac] only in the
    directory (and without a description). *)
Definition example_config : gmap string string :=
  <["na" := "North America"]> (<["eu" := "Europe"]> ∅).

Definition example_ldap : list ldap_entry :=
  [ <["description" := [Utf8.encode "N. America"]]> (<["cn" := [Utf8.encode "na"]]> ∅);
    <["cn" := [Utf8.encode "apac"]]> ∅ ].

End Report.

(** ** Loops of gateway calls *)

(** A loop of gateway calls, seen from the directory: the outcome of the
    calls in sequence ([run_ops]) and the items whose call was issued
    ([attempted]): all of them up to and including the first that raises. *)
Fixpoint run_ops {D A} (op : A → D → result unit * D) (l : list A) (d : D)
  : result unit * D :=
  match l with
  | [] => (Ok tt, d)
  | x :: rest =>
      match op x d with
      | (Ok _, d') => run_ops op rest d'
      | (Raise e, d') => (Raise e, d')
      end
  end.

Fixpoint attempted {D A} (op : A → D → result unit * D) (l : list A) (d : D)
  : list A :=
  match l with
  | [] => []
  | x :: rest =>
      x :: match op x d with
           | (Ok _, d') => attempted op rest d'
           | (Raise _, _) => []
           end
  end.

(** ** What a directory gateway is assumed to do *)

Section DirectoryLaws.
Context {D : Type} (edap : Edap D) (ser : Serializers) (view : View D).


(** An accepted membership call makes the user a member; the calls that
    follow the team call in [add_to_team] keep the memberships there are. *)
Record MembershipLaws : Prop := {
  team_joined :
    ∀ u t d d', make_user_member_of_team edap u t d = (Ok tt, d') →
                member view d' u (TeamGroup t);
  franchise_joined :
    ∀ u f d d', make_user_member_of_franchise edap u f d = (Ok tt, d') →
                member view d' u (FranchiseGroup f);
  division_joined :
    ∀ u v d d', make_uid_member_of_division edap u v d = (Ok tt, d') →
                member view d' u (DivisionGroup v);
  lookup_keeps_members :
    ∀ t d r d', get_team_component_units edap t d = (r, d') →
                ∀ u g, member view d u g → member view d' u g;
  franchise_keeps_members :
    ∀ u f d r d', make_user_member_of_franchise edap u f d = (r, d') →
                  ∀ u' g, member view d u' g → member view d' u' g;
  division_keeps_members :
    ∀ u v d r d', make_uid_member_of_division edap u v d = (r, d') →
                  ∀ u' g, member view d u' g → member view d' u' g
}.

(** The team that [get_team] returns for a name loads as a team of that name. *)
Definition TeamSchemaLaw : Prop :=
  ∀ name d raw d', get_team edap name d = (Ok raw, d') →
                   machine_name (edap_team_schema ser raw) = name.


(** The loop bodies of the two [create_teams], as directory operations. *)
Definition franchise_team_op (self division : entity) : D → result unit * D :=
  create_team edap
    (make_team_machine_name edap (machine_name self) (machine_name division))
    (make_team_display_name edap (display_name self) (display_name division)).

Definition division_team_op (self franchise : entity) : D → result unit * D :=
  create_team edap
    (make_team_machine_name edap (machine_name franchise) (machine_name self))
    (make_team_display_name edap (display_name franchise) (display_name self)).

(** The calls by which [get_everybody_team] fetches the distinguished team:
    one lookup, or a lookup that finds nothing, the creation and a second
    lookup. *)
Definition everybody_fetch (fetch : list call) : Prop :=
  fetch = [GetTeam EVERYBODY_MACHINE_NAME] ∨
  fetch = [GetTeam EVERYBODY_MACHINE_NAME;
           CreateTeam EVERYBODY_MACHINE_NAME (PyStr EVERYBODY_DISPLAY_NAME);
           GetTeam EVERYBODY_MACHINE_NAME].

End DirectoryLaws.

(** ** Vocabulary of the folder properties *)

Section FolderVocabulary.
Context {N : Type} (nxcl : Nextcloud N).

(** The replies logged by the three calls for a franchise folder, and by the
    three calls of [create_main_folder]. *)
Definition sub_events (name : string) (fid : Z) (b1 b2 b3 : bool) : list nxc_event :=
  [(CreateGroupFolder (Franchise.join_path Franchise.GROUP_FOLDER name), Some b1);
   (GrantAccess fid name, Some b2);
   (GrantAccess fid EVERYBODY_MACHINE_NAME, Some b3)].

Definition main_events (mid : Z) (c1 c2 c3 : bool) : list nxc_event :=
  [(CreateGroupFolder Franchise.GROUP_FOLDER, Some c1);
   (GrantAccess mid EVERYBODY_MACHINE_NAME, Some c2);
   (SetPermissions mid EVERYBODY_MACHINE_NAME (READ_value nxcl), Some c3)].

(** The calls that only [create_main_folder] issues. *)
Definition is_container_call (c : nxc_call) : bool :=
  match c with
  | CreateGroupFolder path => bool_decide (path = Franchise.GROUP_FOLDER)
  | SetPermissions _ _ _ => true
  | _ => false
  end.

(** The last event of a run that raised: a call that raised, or a folder
    creation whose reply carried no id. *)
Definition ends_run_early (ev : nxc_event) : bool :=
  match ev with
  | (_, None) => true
  | (CreateGroupFolder _, Some _) => true
  | _ => false
  end.

(** What the groupware gateway is assumed to do about the container:
    [has_main] holds of the states in which the top-level folder exists. *)
Record FolderLaws (has_main : N → Prop) : Prop := {
  container_created :
    ∀ n res n' mid,
      create_group_folder nxcl Franchise.GROUP_FOLDER n = (Ok res, n') →
      data_id res = Ok mid → has_main n';
  create_keeps_container :
    ∀ path n r n', create_group_folder nxcl path n = (r, n') → has_main n → has_main n';
  grant_keeps_container :
    ∀ fid g n r n',
      grant_access_to_group_folder nxcl fid g n = (r, n') → has_main n → has_main n';
  permissions_keep_container :
    ∀ fid g p n r n',
      set_permissions_to_group_folder nxcl fid g p n = (r, n') → has_main n → has_main n';
  container_found :
    ∀ n o n', has_main n →
              get_group_folder nxcl Franchise.GROUP_FOLDER n = (Ok o, n') → is_Some o
}.

(** Lines 86-90 of [create_folder]. *)
Definition create_subfolder (folder_name : string) : M (nworld N) bool :=
  create_folder_res ←
    ninvoke (CreateGroupFolder (Franchise.join_path Franchise.GROUP_FOLDER folder_name)) is_ok
            (create_group_folder nxcl (Franchise.join_path Franchise.GROUP_FOLDER folder_name));
  folder_id ← lift (data_id create_folder_res);
  grant_access_res ←
    ninvoke (GrantAccess folder_id folder_name) is_ok
            (grant_access_to_group_folder nxcl folder_id folder_name);
  folder_id' ← lift (data_id create_folder_res);
  grant_everybody_access ←
    ninvoke (GrantAccess folder_id' EVERYBODY_MACHINE_NAME) is_ok
            (grant_access_to_group_folder nxcl folder_id' EVERYBODY_MACHINE_NAME);
  mret (is_ok create_folder_res && is_ok grant_access_res && is_ok grant_everybody_access).

(** The events that create the container and that set its read permission. *)
Definition creates_container (ev : nxc_event) : bool :=
  match fst ev with
  | CreateGroupFolder path => bool_decide (path = Franchise.GROUP_FOLDER)
  | _ => false
  end.

Definition sets_read_permission (ev : nxc_event) : bool :=
  match fst ev with
  | SetPermissions _ group _ => bool_decide (group = EVERYBODY_MACHINE_NAME)
  | _ => false
  end.

End FolderVocabulary.

(** ** An in-memory directory, as a test double of the gateway *)

Module Mock.

Record directory : Type := Directory {
  users : list string;
  franchises : list (string * string);
  divisions : list (string * pyval);
  teams : list (string * pyval);
  members : list (string * group)
}.

Definition with_users (f : list string -> list string) (d : directory) : directory :=
  Directory (f (users d)) (franchises d) (divisions d) (teams d) (members d).
Definition with_franchises (f : list (string * string) -> list (string * string))
           (d : directory) : directory :=
  Directory (users d) (f (franchises d)) (divisions d) (teams d) (members d).
Definition with_divisions (f : list (string * pyval) -> list (string * pyval))
           (d : directory) : directory :=
  Directory (users d) (franchises d) (f (divisions d)) (teams d) (members d).
Definition with_teams (f : list (string * pyval) -> list (string * pyval))
           (d : directory) : directory :=
  Directory (users d) (franchises d) (divisions d) (f (teams d)) (members d).
Definition with_members (f : list (string * group) -> list (string * group))
           (d : directory) : directory :=
  Directory (users d) (franchises d) (divisions d) (teams d) (f (members d)).

Definition join (u : string) (g : group) (d : directory) : result unit * directory :=
  (Ok tt, with_members (fun l => l ++ [(u, g)]) d).

(** A directory entry: [cn], and [description] when there is a display name. *)
Definition entry (name : string) (display : pyval) : Utils.ldap_entry :=
  match display with
  | PyStr s => <["description" := [Utf8.encode s]]> (<["cn" := [Utf8.encode name]]> ∅)
  | _ => <["cn" := [Utf8.encode name]]> ∅
  end.

Definition team_machine_name (f d : string) : string := f +:+ "-" +:+ d.

Definition team_display_name (f d : pyval) : pyval :=
  match f, d with
  | PyStr a, PyStr b => PyStr (a +:+ " " +:+ b)
  | PyBytes a, PyStr b => PyStr (String.string_of_list_byte a +:+ " " +:+ b)
  | _, _ => PyNone
  end.

Definition lookup_name {V} (name : string) (l : list (string * V)) : option V :=
  snd <$> List.find (fun p => bool_decide (fst p = name)) l.

Definition component_units (team : string) (d : directory)
  : option (Utils.ldap_entry * Utils.ldap_entry) :=
  (fun p : (string * string) * (string * pyval) =>
     (entry (fst (fst p)) (PyStr (snd (fst p))), entry (fst (snd p)) (snd (snd p))))
    <$> List.find (fun p : (string * string) * (string * pyval) =>
                     bool_decide (team_machine_name (fst (fst p)) (fst (snd p)) = team))
                  (list_prod (franchises d) (divisions d)).

Definition edap : Edap directory := {|
  add_user u _ _ _ d :=
    if bool_decide (u ∈ users d) then (Raise (GatewayError "entry exists"), d)
    else (Ok tt, with_users (fun l => l ++ [u]) d);
  make_uid_member_of u g := join u (AnyGroup g);
  make_user_member_of_team u t d :=
    match lookup_name t (teams d) with
    | Some _ => join u (TeamGroup t) d
    | None => (Raise ObjectDoesNotExist, d)
    end;
  make_user_member_of_franchise u f := join u (FranchiseGroup f);
  make_uid_member_of_division u v := join u (DivisionGroup v);
  get_team_component_units t d := (Ok (component_units t d), d);
  create_franchise n d := (Ok tt, with_franchises (fun l => l ++ [(n, n)]) d);
  label_franchise n d :=
    match lookup_name n (franchises d) with
    | Some label => (Ok label, d)
    | None => (Raise ObjectDoesNotExist, d)
    end;
  create_division n v d := (Ok tt, with_divisions (fun l => l ++ [(n, v)]) d);
  get_divisions d := (Ok (map (fun p => entry (fst p) (snd p)) (divisions d)), d);
  get_franchises d := (Ok (map (fun p => entry (fst p) (PyStr (snd p))) (franchises d)), d);
  create_team n v d :=
    match lookup_name n (teams d) with
    | Some _ => (Raise (GatewayError "entry exists"), d)
    | None => (Ok tt, with_teams (fun l => l ++ [(n, v)]) d)
    end;
  get_team n d :=
    match lookup_name n (teams d) with
    | Some v => (Ok (entry n v), d)
    | None => (Raise ObjectDoesNotExist, d)
    end;
  make_team_machine_name := team_machine_name;
  make_team_display_name := team_display_name
|}.

(** Serializers reading [cn] and [description] back. *)
Definition schema (e : Utils.ldap_entry) : entity := {|
  fqdn := None;
  machine_name :=
    match e !! "cn" with
    | Some (b :: _) => String.string_of_list_byte b
    | _ => ""
    end;
  display_name :=
    match e !! "description" with
    | Some (b :: _) => PyStr (String.string_of_list_byte b)
    | _ => PyNone
    end
|}.

Definition ser : Serializers := {|
  edap_team_schema := schema;
  edap_franchise_schema := schema;
  edap_division_schema := schema
|}.

Definition view : View directory := {|
  has_team d n := n ∈ map fst (teams d);
  member d u g := (u, g) ∈ members d
|}.

(** The scenario of the specification: franchise [east], divisions [ops]
    and [sales], and the distinguished team. *)
Definition east_ops_sales : directory := {|
  users := [];
  franchises := [("east", "East")];
  divisions := [("ops", PyStr "Operations"); ("sales", PyStr "Sales")];
  teams := [("everybody", PyStr "Everybody")];
  members := []
|}.

(** The same directory once the teams of [east] have been derived. *)
Definition east_derived : directory := {|
  users := [];
  franchises := [("east", "East")];
  divisions := [("ops", PyStr "Operations"); ("sales", PyStr "Sales")];
  teams := [("everybody", PyStr "Everybody");
            ("east-ops", PyStr "East Operations");
            ("east-sales", PyStr "East Sales")];
  members := []
|}.



(** A directory with the two divisions and nothing else. *)
Definition divisions_only : directory := {|
  users := [];
  franchises := [];
  divisions := [("ops", PyStr "Operations"); ("sales", PyStr "Sales")];
  teams := [];
  members := []
|}.

Definition start (d : directory) : world directory := {| dir := d; log := [] |}.

Definition legal : entity :=
  {| fqdn := None; machine_name := "legal"; display_name := PyStr "Legal" |}.

Definition eastern_region : entity :=
  {| fqdn := None; machine_name := "east"; display_name := PyStr "Eastern Region" |}.

Definition east : entity :=
  {| fqdn := None; machine_name := "east"; display_name := PyStr "East" |}.

Definition alice (gs : option (list string)) : LdapUser := {|
  user_fqdn := None; uid := "alice"; given_name := "Alice"; mail := None;
  surname := Some "Liddell"; groups := gs
|}.

(** An in-memory groupware service: the folders by path, ids in creation
    order. Every request is granted. *)
Definition granted (fid : Z) : response :=
  {| is_ok := true; data := Some (<["id" := fid]> ∅) |}.

Definition nextcloud : Nextcloud (list (string * Z)) := {|
  create_group_folder path n :=
    let fid := Z.of_nat (S (length n)) in
    (Ok (granted fid), n ++ [(path, fid)]);
  grant_access_to_group_folder fid _ n := (Ok (granted fid), n);
  set_permissions_to_group_folder fid _ _ n := (Ok (granted fid), n);
  READ_value := "1";
  get_group_folder name n := (Ok (lookup_name name n), n)
|}.

Definition nstart (n : list (string * Z)) : nworld (list (string * Z)) :=
  {| nxc := n; nlog := [] |}.

(** The states of the in-memory service in which the container exists. *)
Definition has_container (n : list (string * Z)) : Prop :=
  Franchise.GROUP_FOLDER ∈ map fst n.

End Mock.

(** ** Vocabulary of the further reconciliation properties *)

Module Expected.
Import Utils Report.

(** What line 54 computes for the last entry of machine name [k] in a
    directory answer, if there is one. *)
Fixpoint last_label (k : string) (l : list ldap_entry) : option pyval :=
  match l with
  | [] => None
  | e :: rest =>
      match last_label k rest with
      | Some v => Some v
      | None =>
          if bool_decide (name_of e = Some k)
          then match div_display_name e with
               | Ok v => Some v
               | Raise _ => None
               end
          else None
      end
  end.

(** The report entry for machine name [k], told from the two sources. *)
Definition expected (cfg : gmap string string) (l : list ldap_entry) (k : string)
  : option info :=
  match last_label k l with
  | None => config_info <$> cfg !! k
  | Some v =>
      Some match cfg !! k with
           | Some display_name => ldap_update v (config_info display_name)
           | None => ldap_info v
           end
  end.

(** A directory answer that lists [na] twice, with different descriptions,
    and a malformed entry (no [cn]). *)
Definition example_twice : list ldap_entry :=
  [ <["description" := [Utf8.encode "N. America"]]> (<["cn" := [Utf8.encode "na"]]> ∅);
    <["cn" := [Utf8.encode "apac"]]> ∅;
    <["description" := [Utf8.encode "North America"]]> (<["cn" := [Utf8.encode "na"]]> ∅) ].

Definition example_no_cn : ldap_entry :=
  <["description" := [Utf8.encode "Nameless"]]> ∅.

End Expected.

(** ** A directory that rejects chosen calls *)

#[export] Instance call_eq_dec : EqDecision call.
Proof. solve_decision. Defined.

Module MockFaults.
Import Mock.

Definition unavailable {A} (d : directory) : result A * directory :=
  (Raise (GatewayError "unavailable"), d).

(** The in-memory directory with fault injection: a call that [fails]
    selects is answered with an error and changes nothing. *)
Definition faulty (fails : call -> bool) : Edap directory := {|
  add_user u g s p d :=
    if fails (AddUser u g s p) then unavailable d else add_user edap u g s p d;
  make_uid_member_of u g d :=
    if fails (MakeUidMemberOf u g) then unavailable d else make_uid_member_of edap u g d;
  make_user_member_of_team u t d :=
    if fails (MakeUserMemberOfTeam u t) then unavailable d
    else make_user_member_of_team edap u t d;
  make_user_member_of_franchise u f d :=
    if fails (MakeUserMemberOfFranchise u f) then unavailable d
    else make_user_member_of_franchise edap u f d;
  make_uid_member_of_division u v d :=
    if fails (MakeUidMemberOfDivision u v) then unavailable d
    else make_uid_member_of_division edap u v d;
  get_team_component_units t d :=
    if fails (GetTeamComponentUnits t) then unavailable d
    else get_team_component_units edap t d;
  create_franchise n d :=
    if fails (CreateFranchise n) then unavailable d else create_franchise edap n d;
  label_franchise n d :=
    if fails (LabelFranchise n) then unavailable d else label_franchise edap n d;
  create_division n v d :=
    if fails (CreateDivision n v) then unavailable d else create_division edap n v d;
  get_divisions d :=
    if fails GetDivisions then unavailable d else get_divisions edap d;
  get_franchises d :=
    if fails GetFranchises then unavailable d else get_franchises edap d;
  create_team n v d :=
    if fails (CreateTeam n v) then unavailable d else create_team edap n v d;
  get_team n d :=
    if fails (GetTeam n) then unavailable d else get_team edap n d;
  make_team_machine_name := make_team_machine_name edap;
  make_team_display_name := make_team_display_name edap
|}.

(** A directory that is down, and one that accepts no write. *)
Definition down : Edap directory := faulty (fun _ => true).

Definition is_write (c : call) : bool :=
  match c with
  | GetTeamComponentUnits _ | LabelFranchise _ | GetDivisions | GetFranchises
  | GetTeam _ => false
  | _ => true
  end.

Definition read_only : Edap directory := faulty is_write.

Definition rejects (c : call) : Edap directory :=
  faulty (fun c' => bool_decide (c' = c)).

End MockFaults.

(** ** Groupware services that refuse *)

Module MockFolderFaults.
Import Mock.

Definition refused : response := {| is_ok := false; data := None |}.

(** A service on which nothing may be granted on the first folder (the
    container), everything else being granted. *)
Definition locked_container : Nextcloud (list (string * Z)) := {|
  create_group_folder := create_group_folder nextcloud;
  grant_access_to_group_folder fid g n :=
    if bool_decide (fid = 1%Z) then (Ok refused, n)
    else grant_access_to_group_folder nextcloud fid g n;
  set_permissions_to_group_folder fid g p n :=
    if bool_decide (fid = 1%Z) then (Ok refused, n)
    else set_permissions_to_group_folder nextcloud fid g p n;
  READ_value := READ_value nextcloud;
  get_group_folder := get_group_folder nextcloud
|}.

(** A service that refuses to create a folder that exists, with a reply
    that carries no data. *)
Definition strict : Nextcloud (list (string * Z)) := {|
  create_group_folder path n :=
    match lookup_name path n with
    | Some _ => (Ok refused, n)
    | None => create_group_folder nextcloud path n
    end;
  grant_access_to_group_folder := grant_access_to_group_folder nextcloud;
  set_permissions_to_group_folder := set_permissions_to_group_folder nextcloud;
  READ_value := READ_value nextcloud;
  get_group_folder := get_group_folder nextcloud
|}.

End MockFolderFaults.

(** ** The other functions of [utils.py] *)

(** *** [check_consistency] (lines 71-81) *)

Module Consistency.
Section Methods.
Context {D : Type} (edap : Edap D).

(** The directory with its call log, and the warnings logged so far. *)
Record cworld : Type := CWorld { gateway : world D; warnings : list string }.

Definition via_gateway {A} (m : M (world D) A) : M cworld A :=
  fun s =>
    let '(r, w) := m (gateway s) in
    (r, {| gateway := w; warnings := warnings s |}).

(** [logger.warning(msg)] *)
Definition warning (msg : string) : M cworld unit :=
  fun s => (Ok tt, {| gateway := gateway s; warnings := warnings s ++ [msg] |}).

(** [e] is the handle [get_edap()] returns. The value of each lookup is
    dropped. *)
Definition check_consistency : M cworld unit :=
  try_except
    (via_gateway (invoke (GetTeam "everybody") (get_team edap "everybody")) ;; mret tt)
    ObjectDoesNotExist
    (warning "Edap Everybody team is missing") ;;
  try_except
    (via_gateway (invoke (GetTeam "international") (get_team edap "international")) ;;
     mret tt)
    ObjectDoesNotExist
    (warning "Edap International team is missing").

End Methods.

(** The warning a lookup leads to: one when it raised, none when it answered. *)
Definition warned {A} (r : result A) (msg : string) : list string :=
  match r with
  | Ok _ => []
  | Raise _ => [msg]
  end.

(** A lookup that answered, or found nothing. *)
Definition answered_or_missing {A} (r : result A) : Prop :=
  ∀ e, r = Raise e → e = ObjectDoesNotExist.

End Consistency.

(** *** [get_edap] (lines 10-17) *)

Module GetEdap.
Section Methods.

(** The handles of the client library; its constructor
    [edap.Edap(hostname, user, password, domain)], which may raise; and
    [current_app.config]. *)
Context {H : Type}
        (Edap_new : string -> string -> string -> string -> result H)
        (config : gmap string string).

(** The request context [g], and the constructor calls made so far. *)
Record context : Type := Context_ {
  g : gmap string H;
  constructed : list (string * string * string * string)
}.

Definition construct (hostname user password domain : string) : M context H :=
  fun s =>
    (Edap_new hostname user password domain,
     {| g := g s; constructed := constructed s ++ [(hostname, user, password, domain)] |}).

(** [g.edap = handle], and the [g.edap] that is returned. *)
Definition set_edap (handle : H) : M context H :=
  fun s =>
    (Ok handle, {| g := <["edap" := handle]> (g s); constructed := constructed s |}).

Definition get_edap : M context H :=
  fun s =>
    match g s !! "edap" with
    | Some handle => (Ok handle, s)
    | None =>
        (hostname ← lift (Utils.getitem "EDAP_HOSTNAME" config);
         user ← lift (Utils.getitem "EDAP_USER" config);
         password ← lift (Utils.getitem "EDAP_PASSWORD" config);
         domain ← lift (Utils.getitem "EDAP_DOMAIN" config);
         handle ← construct hostname user password domain;
         set_edap handle) s
    end.

End Methods.
End GetEdap.

(** *** The password-reset token (lines 98-118) *)

Module ResetToken.
Section Methods.

(** Payload values [V], clock readings and durations [T], tokens; with the
    library functions the code calls: float addition, [jwt.encode],
    [jwt.decode] as it answers at the time of the verification, [str],
    [repr] and [str] of an exception. *)
Context {V T Token : Type}
        (number : T -> V)
        (plus : T -> T -> T)
        (jwt_encode : gmap string V -> string -> result Token)
        (jwt_decode : Token -> string -> result (gmap string V))
        (str : V -> string)
        (repr : V -> string)
        (str_exc : exn -> string)
        (config : gmap string string).



(** [print(text)] on the standard output, kept as a list of lines. *)
Definition print (text : string) : M (list string) unit :=
  fun out => (Ok tt, out ++ [text]).

Definition verify_reset_password_token (token : Token) (uid : V) : M (list string) bool :=
  fun out =>
    match rbind (Utils.getitem "SECRET_KEY" config) (jwt_decode token) with
    | Raise exc => (print (str_exc exc) ;; mret false) out
    | Ok data =>
        (implied_uid ← lift (Utils.getitem "username" data);
         print ("implied_uid=" +:+ repr implied_uid +:+ " uid=" +:+ repr uid) ;;
         mret (bool_decide (str implied_uid = str uid))) out
    end.

End Methods.
End ResetToken.

(** ** Test doubles for [get_edap] and for the token functions *)

Module MockApp.

(** A constructor that refuses an empty host name; the handle tells whom it
    is bound as. *)
Definition Edap_new (hostname user password domain : string) : result string :=
  if bool_decide (hostname = "") then Raise (GatewayError "cannot connect")
  else Ok (user +:+ "@" +:+ hostname).

Definition config : gmap string string :=
  <["EDAP_HOSTNAME" := "ldap.example.org"]>
    (<["EDAP_USER" := "admin"]>
       (<["EDAP_PASSWORD" := "secret"]>
          (<["EDAP_DOMAIN" := "example.org"]>
             (<["SECRET_KEY" := "k3y"]> ∅)))).

Definition fresh : @GetEdap.context string := {| GetEdap.g := ∅; GetEdap.constructed := [] |}.


Definition reading (s : string) : option N :=
  N.of_uint <$> DecimalString.NilZero.uint_of_string s.

(** The time at which tokens are verified. *)
Definition today : N := 2000.


Definition jwt_decode (token : gmap string string * string) (key : string)
  : result (gmap string string) :=
  if bool_decide (snd token = key) then
    match fst token !! "exp" with
    | None => Ok (fst token)
    | Some s =>
        match reading s with
        | None => Raise (GatewayError "Expiration Time claim (exp) must be an integer")
        | Some t =>
            if (t <=? today)%N then Raise (GatewayError "Signature has expired")
            else Ok (fst token)
        end
    end
  else Raise (GatewayError "Signature verification failed").

Definition quoted (s : string) : string := "'" +:+ s +:+ "'".

Definition str_exc (e : exn) : string :=
  match e with
  | KeyError => "KeyError"
  | GatewayError tag => tag
  | _ => "error"
  end.

End MockApp.

(** ** The views of [nextcloud/api.py] *)

Module Api.

(** The values of a JSON request body. Numbers are the integers. *)
#[warnings="-register-all"]
Inductive json : Type :=
| JNull
| JBool (b : bool)
| JNumber (z : Z)
| JString (s : string)
| JArray (l : list json)
| JObject (l : list (string * json)).

(** Python's truth value of such a value. *)
Definition truthy (v : json) : bool :=
  match v with
  | JNull => false
  | JBool b => b
  | JNumber z => negb (z =? 0)%Z
  | JString s => negb (String.eqb s "")
  | JArray l => negb (bool_decide (l = []))
  | JObject l => negb (bool_decide (l = []))
  end.

(** What a view can end with instead of a response: [abort(status)], an
    [AttributeError], or an exception of the kinds met before. *)
Inductive failure : Type :=
| HTTPException (status : Z)
| AttributeError
| Python (e : exn).

Inductive outcome (A : Type) : Type :=
| Return (a : A)
| Fail (f : failure).
Arguments Return {A} a.
Arguments Fail {A} f.

Definition View (S A : Type) : Type := S -> outcome A * S.

#[export] Instance View_ret {S} : MRet (View S) := fun A a s => (Return a, s).

#[export] Instance View_bind {S} : MBind (View S) := fun A B k m s =>
  match m s with
  | (Return a, s') => k a s'
  | (Fail f, s') => (Fail f, s')
  end.

Definition fail {S A} (f : failure) : View S A := fun s => (Fail f, s).

(** [abort(status)] *)
Definition abort {S A} (status : Z) : View S A := fail (HTTPException status).

Fixpoint each {S A} (l : list A) (body : A -> View S unit) : View S unit :=
  match l with
  | [] => mret tt
  | x :: rest => body x ;; each rest body
  end.

(** What the views read of a response of the client: [is_ok],
    [meta.get('message')] and [data]. *)
Record reply : Type := {
  is_ok : bool;
  meta_message : option json;
  data : json
}.

(** The methods of the [NextCloud] client the views call, with their
    arguments. *)
Inductive api_call : Type :=
| GetUsers
| GetUser (username : json)
| AddUser (username password : json)
| AddToGroup (username group_name : json)
| DeleteUser (username : json)
| EnableUser (username : json)
| DisableUser (username : json)
| EditUser (username param value : json)
| GetGroup (group_name : json)
| RemoveFromGroup (username group_name : json)
| GetGroups
| GetSubadmins (group_name : json)
| CreateSubadmin (username group_name : json)
| AddGroup (group_name : json)
| RemoveSubadmin (username group_name : json)
| DeleteGroup (group_name : json)
| CreateGroupFolder (path : string).

(** What a view returns: the JSON body and the status ([200] when the view
    returns the body alone). *)
Record http : Type := { body : gmap string json; status : Z }.

Definition ALLOWED_GROUP_TYPES : list string := ["divisions"; "countries"; "other"].

Section Views.

(** The groupware service behind the client, as a state [N] and what each
    call does to it; [current_app.config]; and the [str] methods the views
    use: [lower], and the characters a [for] loop over a string runs
    through. *)
Context {N : Type}
        (client : api_call -> N -> result reply * N)
        (config : gmap string (option string))
        (lower : string -> string)
        (chars : string -> list string).

Record aworld : Type := AWorld { remote : N; calls : list api_call }.

(** [current_app.config[key]] *)
Definition setting (key : string) : View aworld (option string) :=
  match config !! key with
  | Some v => mret v
  | None => fail (Python KeyError)
  end.

(** The property [NextCloudMixin.nextcloud] (lines 13-23); the client it
    builds talks to the service. *)
Definition nextcloud : View aworld unit :=
  url ← setting "NEXTCLOUD_HOST";
  username ← setting "NEXTCLOUD_USER";
  password ← setting "NEXTCLOUD_PASSWORD";
  if bool_decide (url = None) || bool_decide (username = None)
     || bool_decide (password = None)
  then abort 400
  else mret tt.

(** A method of the client: the service answers or the call raises; the
    call is recorded. *)
Definition perform (c : api_call) : View aworld reply := fun s =>
  let '(r, n) := client c (remote s) in
  (match r with
   | Ok a => Return a
   | Raise e => Fail (Python e)
   end,
   {| remote := n; calls := calls s ++ [c] |}).

(** [self.nextcloud.method(arguments)] *)
Definition call (c : api_call) : View aworld reply :=
  nextcloud ;; perform c.

(** [request.json.get(key)] and [request.json.get(key, default)] *)
Definition get (request : gmap string json) (key : string) : json :=
  default JNull (request !! key).

Definition get_or (request : gmap string json) (key : string) (d : json) : json :=
  default d (request !! key).

(** [jsonify({...})] *)
Definition message_body (text : string) : gmap string json :=
  <["message" := JString text]> ∅.

(** [nxc_response] (lines 25-30) *)
Definition nxc_response (res : reply) : gmap string json :=
  <["status" := JBool (is_ok res)]>
    (<["message" := default (JString "") (meta_message res)]>
       (<["data" := data res]> ∅)).

(** [for x in v] *)
Definition iterate (v : json) : View aworld (list json) :=
  match v with
  | JArray l => mret l
  | JString s => mret (JString <$> chars s)
  | JObject l => mret ((fun p => JString (fst p)) <$> l)
  | _ => fail (Python TypeError)
  end.

(** [v.lower()] *)
Definition lower_of (v : json) : View aworld string :=
  match v with
  | JString s => mret (lower s)
  | _ => fail AttributeError
  end.

(** ["/".join(items)]: every item has to be a string. *)
Fixpoint texts (items : list json) : option (list string) :=
  match items with
  | [] => Some []
  | JString s :: rest => cons s <$> texts rest
  | _ :: _ => None
  end.

Definition join (items : list json) : View aworld string :=
  match texts items with
  | Some l => mret (String.concat "/" l)
  | None => fail (Python TypeError)
  end.

Definition present (o : option string) : bool :=
  match o with
  | Some s => negb (String.eqb s "")
  | None => false
  end.

(** [UserViewSet] (lines 33-73) *)
Definition UserViewSet_get (username : option string) : View aworld http :=
  match username with
  | None => res ← call GetUsers; mret {| body := nxc_response res; status := 200 |}
  | Some u =>
      res ← call (GetUser (JString u));
      mret {| body := nxc_response res; status := 200 |}
  end.

Definition UserViewSet_post (request : gmap string json) : View aworld http :=
  let username := get request "username" in
  let password := get request "password" in
  let groups := get_or request "groups" (JArray []) in
  if negb (truthy username && truthy password) then abort 400
  else
    res ← call (AddUser username password);
    gs ← iterate groups;
    each gs (fun group => call (AddToGroup username group) ;; mret tt) ;;
    mret {| body := nxc_response res; status := 201 |}.

Definition UserViewSet_delete (username : string) : View aworld http :=
  res ← call (DeleteUser (JString username));
  mret {| body := nxc_response res; status := 200 |}.

Definition UserViewSet_patch (username : string) (action : option string)
           (request : gmap string json) : View aworld http :=
  match action with
  | Some a =>
      if negb (bool_decide (a ∈ ["enable"; "disable"]))
      then mret {| body := ∅; status := 404 |}
      else
        res ← (if bool_decide (a = "enable")
               then call (EnableUser (JString username))
               else call (DisableUser (JString username)));
        mret {| body := nxc_response res; status := 200 |}
  | None =>
      let param := get request "param" in
      let value := get request "value" in
      if negb (truthy param && truthy value)
      then mret {| body := ∅; status := 400 |}
      else
        res ← call (EditUser (JString username) param value);
        mret {| body := nxc_response res; status := 200 |}
  end.

(** [UserGroupViewSet] (lines 76-92) *)
Definition UserGroupViewSet_post (username : string) (request : gmap string json)
  : View aworld http :=
  let group_name := get request "group_name" in
  if negb (truthy group_name) then abort 400
  else
    found ← call (GetGroup group_name);
    if negb (is_ok found)
    then mret {| body := message_body "group not found"; status := 404 |}
    else
      res ← call (AddToGroup (JString username) group_name);
      mret {| body := nxc_response res; status := 200 |}.

Definition UserGroupViewSet_delete (username group_name : string) : View aworld http :=
  res ← call (RemoveFromGroup (JString username) (JString group_name));
  mret {| body := nxc_response res; status := 200 |}.

(** [GroupViewSet] (lines 95-138) *)
Definition GroupViewSet_get (group_name action : option string) : View aworld http :=
  if bool_decide (group_name = None) && bool_decide (action = None)
  then res ← call GetGroups; mret {| body := nxc_response res; status := 200 |}
  else if present group_name && bool_decide (action = None)
  then
    res ← call (GetGroup (JString (default "" group_name)));
    mret {| body := nxc_response res; status := 200 |}
  else if present group_name && bool_decide (action = Some "subadmins")
  then
    res ← call (GetSubadmins (JString (default "" group_name)));
    mret {| body := nxc_response res; status := 200 |}
  else abort 400.

Definition GroupViewSet_post (group_name : option string) (request : gmap string json)
  : View aworld http :=
  if present group_name
  then
    let username := get request "username" in
    if negb (truthy username) then abort 400
    else
      found ← call (GetGroup (JString (default "" group_name)));
      if negb (is_ok found)
      then mret {| body := message_body "group not found"; status := 404 |}
      else
        res ← call (CreateSubadmin username (JString (default "" group_name)));
        mret {| body := nxc_response res; status := 201 |}
  else
    let group_name := get request "group_name" in
    if negb (truthy group_name) then abort 400
    else
      res ← call (AddGroup group_name);
      mret {| body := nxc_response res; status := 201 |}.

Definition GroupViewSet_delete (group_name : string) (username : option string)
  : View aworld http :=
  if present username
  then
    found ← call (GetGroup (JString group_name));
    if negb (is_ok found)
    then mret {| body := message_body "group not found"; status := 404 |}
    else
      res ← call (RemoveSubadmin (JString (default "" username)) (JString group_name));
      mret {| body := nxc_response res; status := 201 |}
  else
    res ← call (DeleteGroup (JString group_name));
    mret {| body := nxc_response res; status := 202 |}.

(** [GroupWithFolderViewSet.post] (lines 143-165) *)
Definition GroupWithFolderViewSet_post (request : gmap string json) : View aworld http :=
  let group_name := get request "group_name" in
  let group_type := get request "group_type" in
  if negb (truthy group_name) || negb (truthy group_type) then abort 400
  else
    lowered ← lower_of group_type;
    if negb (bool_decide (lowered ∈ ALLOWED_GROUP_TYPES))
    then mret {| body := message_body "Not allowed group type"; status := 400 |}
    else
      found ← call (GetGroup group_name);
      if is_ok found
      then mret {| body := message_body "Group with this name already exists";
                   status := 400 |}
      else
        create_group_res ← call (AddGroup group_name);
        if negb (is_ok create_group_res)
        then mret {| body := message_body "Something went wrong during group creation";
                     status := 400 |}
        else
          path ← join [group_type; group_name];
          create_folder_res ← call (CreateGroupFolder path);
          if negb (is_ok create_folder_res)
          then
            call (DeleteGroup group_name) ;;
            mret {| body := message_body
                              "Something went wrong during group folder creation";
                    status := 400 |}
          else mret {| body := message_body "Group with group folder successfully created";
                       status := 201 |}.

(** The service's states after a run of calls that are all answered; [None]
    when one of them raises. *)
Fixpoint answers (cs : list api_call) (n : N) : option N :=
  match cs with
  | [] => Some n
  | c :: rest =>
      match client c n with
      | (Ok _, n') => answers rest n'
      | (Raise _, _) => None
      end
  end.

End Views.

Arguments aworld : clear implicits.

(** The three settings of the client are there and set. *)
Definition configured (config : gmap string (option string)) : Prop :=
  ∃ url username password,
    config !! "NEXTCLOUD_HOST" = Some (Some url) ∧
    config !! "NEXTCLOUD_USER" = Some (Some username) ∧
    config !! "NEXTCLOUD_PASSWORD" = Some (Some password).

End Api.

(** An in-memory groupware service to run the views on: the names of its
    groups, the folder paths it refuses, and the folder paths at which it
    cannot be reached. It keeps the name [admin] to itself. *)
Module MockCloud.
Import Api.

Record cloud : Type := {
  groups : list string;
  refused : list string;
  unreachable : list string
}.

Definition answer (ok : bool) : reply :=
  {| is_ok := ok; meta_message := None; data := JNull |}.

Definition with_groups (gs : list string) (n : cloud) : cloud :=
  {| groups := gs; refused := refused n; unreachable := unreachable n |}.

Definition client (c : api_call) (n : cloud) : result reply * cloud :=
  match c with
  | GetGroup (JString g) => (Ok (answer (bool_decide (g ∈ groups n))), n)
  | AddGroup (JString g) =>
      if bool_decide (g ∈ groups n) || bool_decide (g = "admin")
      then (Ok (answer false), n)
      else (Ok (answer true), with_groups (g :: groups n) n)
  | AddGroup _ => (Ok (answer true), n)
  | DeleteGroup (JString g) =>
      (Ok (answer (bool_decide (g ∈ groups n))),
       with_groups (filter (fun x => x ≠ g) (groups n)) n)
  | CreateGroupFolder path =>
      if bool_decide (path ∈ unreachable n)
      then (Raise (GatewayError "connection timed out"), n)
      else (Ok (answer (negb (bool_decide (path ∈ refused n)))), n)
  | AddUser (JString u) _ => (Ok (answer (negb (bool_decide (u = "admin")))), n)
  | AddToGroup _ (JString g) => (Ok (answer (bool_decide (g ∈ groups n))), n)
  | _ => (Ok (answer false), n)
  end.

Definition config : gmap string (option string) :=
  <["NEXTCLOUD_HOST" := Some "https://cloud.example.org"]>
    (<["NEXTCLOUD_USER" := Some "admin"]>
       (<["NEXTCLOUD_PASSWORD" := Some "s3cret"]> ∅)).

(** [str.lower] and the characters of a string, for ASCII text. *)
Definition lower_ascii (a : Ascii.ascii) : Ascii.ascii :=
  let n := Ascii.nat_of_ascii a in
  if Nat.leb 65 n && Nat.leb n 90 then Ascii.ascii_of_nat (n + 32) else a.

Fixpoint lower (s : string) : string :=
  match s with
  | EmptyString => EmptyString
  | String a rest => String (lower_ascii a) (lower rest)
  end.

Fixpoint chars (s : string) : list string :=
  match s with
  | EmptyString => []
  | String a rest => String a EmptyString :: chars rest
  end.

Definition office : cloud :=
  {| groups := ["staff"];
     refused := ["other/archive"];
     unreachable := ["countries/atlantis"] |}.

Definition start : aworld cloud := {| remote := office; calls := [] |}.

(** Request bodies. *)
Definition group_request (group_name group_type : json) : gmap string json :=
  <["group_name" := group_name]> (<["group_type" := group_type]> ∅).

Definition user_request (username password groups : json) : gmap string json :=
  <["username" := username]> (<["password" := password]> (<["groups" := groups]> ∅)).

(** The settings with the password left unset, and without the host. *)
Definition config_no_password : gmap string (option string) :=
  <["NEXTCLOUD_PASSWORD" := None]> config.

Definition config_no_host : gmap string (option string) :=
  delete "NEXTCLOUD_HOST" config_no_password.

End MockCloud.

(** * Properties *)

(** ** ConsistencyReconciler *)

Module UtilsSpec.
Import Utils Report.

Lemma merge_config_lookup cfg k :
  merge_config cfg !! k = config_info <$> cfg !! k.
Proof.
  unfold merge_config.
  apply (map_fold_weak_ind (fun r m => r !! k = config_info <$> m !! k)).
  - by rewrite !lookup_empty.
  - intros i x m r _ IH. destruct (decide (i = k)) as [->|Hne].
    + by rewrite !lookup_insert_eq.
    + by rewrite !lookup_insert_ne.
Qed.

(** [bytes.decode('utf-8')] on a few byte strings. *)
Example decode_ascii : Utf8.decode (Utf8.encode "na") = Ok "na".
Proof. reflexivity. Qed.

Example decode_two_bytes : Utf8.decode [xc3; xa9] = Ok (String.string_of_list_byte [xc3; xa9]).
Proof. reflexivity. Qed.

Example decode_rejects_overlong : Utf8.decode [xc0; x80] = Raise UnicodeDecodeError.
Proof. reflexivity. Qed.

Example decode_rejects_surrogate : Utf8.decode [xed; xa0; x80] = Raise UnicodeDecodeError.
Proof. reflexivity. Qed.

Example decode_rejects_truncated : Utf8.decode [xe2; x82] = Raise UnicodeDecodeError.
Proof. reflexivity. Qed.

(** The reconciliation examples of the specification. *)
Example merge_config_only :
  ∃ m, merge_divisions (<["na" := "North America"]> ∅) [] = Ok m ∧
       m !! "na" = Some (config_info "North America").
Proof.
  eexists. split; [reflexivity|]. by rewrite merge_config_lookup, lookup_insert_eq.
Qed.

Example merge_ldap_only :
  ∃ m, merge_divisions ∅ [<["cn" := [Utf8.encode "na"]]> ∅] = Ok m ∧
       m !! "na" = Some (ldap_info PyNone).
Proof.
  eexists. split.
  - unfold merge_divisions, merge_ldap_divisions, merge_ldap_division.
    replace (div_machine_name (<["cn" := [Utf8.encode "na"]]> ∅)) with (Ok (A:=string) "na")
      by (vm_compute; reflexivity).
    replace (div_display_name (<["cn" := [Utf8.encode "na"]]> ∅)) with (Ok PyNone)
      by (vm_compute; reflexivity).
    simpl. rewrite merge_config_lookup, lookup_empty. reflexivity.
  - by rewrite lookup_insert_eq.
Qed.

Example merge_missing_cn :
  merge_divisions ∅ [<["description" := [Utf8.encode "North America"]]> ∅] = Raise KeyError.
Proof. vm_compute. reflexivity. Qed.

Lemma merge_config_describes cfg k : describes cfg [] k (merge_config cfg !! k).
Proof.
  rewrite merge_config_lookup. unfold describes, names. simpl. split.
  - rewrite fmap_is_Some. split; [by left|]. intros [?|H]; [done|]. by apply elem_of_nil in H.
  - intros e He. destruct (cfg !! k) as [v|] eqn:Hk; simplify_eq/=.
    unfold config_info. split_and!; try done. by intros ?%elem_of_nil.
Qed.

Lemma names_snoc seen e name :
  name_of e = Some name → names (seen ++ [e]) = names seen ++ [name].
Proof. intros H. unfold names. rewrite omap_app. simpl. by rewrite H. Qed.

Lemma merge_ldap_division_describes cfg seen acc e :
  (∀ k, describes cfg seen k (acc !! k)) →
  well_formed e = true →
  ∃ acc', merge_ldap_division acc e = Ok acc' ∧
          ∀ k, describes cfg (seen ++ [e]) k (acc' !! k).
Proof.
  intros Hacc Hwf. unfold well_formed in Hwf. unfold merge_ldap_division.
  destruct (div_machine_name e) as [name|] eqn:Hname; [|done].
  destruct (div_display_name e) as [display|] eqn:Hdisplay; [|done].
  assert (Hn : name_of e = Some name) by (unfold name_of; by rewrite Hname).
  simpl. pose proof (Hacc name) as [Hdom Hname_ok].
  assert (Hother : ∀ k v, k ≠ name →
            describes cfg seen k v → describes cfg (seen ++ [e]) k v).
  { intros k v Hk [Hd Hv]. unfold describes. rewrite (names_snoc _ _ _ Hn).
    assert (Hin : k ∈ names seen ++ [name] ↔ k ∈ names seen).
    { rewrite elem_of_app, list_elem_of_singleton.
      split; [intros [?|?]; [done|congruence]|by left]. }
    split; [by rewrite Hin|]. intros i Hi. destruct (Hv i Hi) as (?&Hl&?&?&Hw).
    split_and!; try done.
    - rewrite Hl. f_equal. f_equal. by apply bool_decide_ext.
    - rewrite Hin. done.
    - rewrite Hin. intros Hks. destruct (Hw Hks) as (x&v'&?&?&?&?).
      exists x, v'. rewrite elem_of_app. eauto. }
  assert (Hin : name ∈ names (seen ++ [e])).
  { rewrite (names_snoc _ _ _ Hn), elem_of_app, list_elem_of_singleton. by right. }
  destruct (acc !! name) as [d|] eqn:Hd; eexists; (split; [done|]); intros k;
    (destruct (decide (k = name)) as [->|Hk];
     [rewrite lookup_insert_eq | rewrite lookup_insert_ne by done; by apply Hother]).
  - destruct (Hname_ok d eq_refl) as (Hc&_&Hcd&_&_).
    split; [split; [by right|eauto]|]. intros i [= <-]. unfold ldap_update.
    split_and!.
    + by rewrite !lookup_insert_ne.
    + rewrite lookup_insert_ne, lookup_insert_eq by done.
      by rewrite bool_decide_eq_true_2.
    + by rewrite !lookup_insert_ne.
    + done.
    + intros _. exists e, display. rewrite elem_of_app, list_elem_of_singleton.
      rewrite lookup_insert_eq. eauto.
  - assert (Hcfg : cfg !! name = None ∧ name ∉ names seen).
    { destruct Hdom as [_ Hdom]. split.
      - destruct (cfg !! name) eqn:?; [|done].
        destruct Hdom as [? ?]; [left; eauto|done].
      - intros ?. destruct Hdom as [? ?]; [by right|done]. }
    destruct Hcfg as [Hcfg Hnot].
    split; [split; [by right|eauto]|]. intros i [= <-]. unfold ldap_info.
    rewrite Hcfg. split_and!.
    + rewrite !lookup_insert_ne, lookup_insert_eq by done.
      rewrite bool_decide_eq_false_2; [done|]. by intros [? ?].
    + rewrite lookup_insert_ne, lookup_insert_eq by done.
      by rewrite bool_decide_eq_true_2.
    + done.
    + done.
    + intros _. exists e, display. rewrite elem_of_app, list_elem_of_singleton.
      rewrite lookup_insert_eq. eauto.
Qed.

Lemma merge_ldap_divisions_describes cfg rest :
  ∀ seen acc,
    (∀ k, describes cfg seen k (acc !! k)) →
    Forall (fun e => well_formed e = true) rest →
    ∃ m, merge_ldap_divisions rest acc = Ok m ∧
         ∀ k, describes cfg (seen ++ rest) k (m !! k).
Proof.
  induction rest as [|e rest IH]; intros seen acc Hacc Hwf.
  - exists acc. by rewrite app_nil_r.
  - inversion Hwf as [|? ? He Hrest]; subst.
    destruct (merge_ldap_division_describes cfg seen acc e Hacc He) as (acc'&Hstep&Hacc').
    destruct (IH (seen ++ [e]) acc' Hacc' Hrest) as (m&Hm&Hdesc).
    exists m. simpl. rewrite Hstep. simpl. split; [done|].
    intros k. specialize (Hdesc k). by rewrite <-app_assoc in Hdesc.
Qed.

(** C5, as stated, fails: a machine name that is in the configuration and in
    the directory gets both booleans true, but when its directory entry has no
    description line 54 stores [None], so the directory display name is not
    populated. *)
Lemma merge_divisions_directory_name_unpopulated :
  ∃ m e,
    merge_divisions (<["na" := "North America"]> ∅) [<["cn" := [Utf8.encode "na"]]> ∅] = Ok m ∧
    m !! "na" = Some e ∧
    e !! "exists_in_config" = Some (PyBool true) ∧
    e !! "exists_in_ldap" = Some (PyBool true) ∧
    populated (e !! "config_display_name") ∧
    e !! "ldap_display_name" = Some PyNone ∧
    ¬ populated (e !! "ldap_display_name").
Proof.
  eexists _, (ldap_update PyNone (config_info "North America")).
  split.
  { unfold merge_divisions, merge_ldap_divisions, merge_ldap_division.
    replace (div_machine_name (<["cn" := [Utf8.encode "na"]]> ∅)) with (Ok (A:=string) "na")
      by (vm_compute; reflexivity).
    replace (div_display_name (<["cn" := [Utf8.encode "na"]]> ∅)) with (Ok PyNone)
      by (vm_compute; reflexivity).
    simpl. rewrite merge_config_lookup, lookup_insert_eq. simpl. reflexivity. }
  split; [by rewrite lookup_insert_eq|].
  split_and!; try (vm_compute; reflexivity).
  - eexists. vm_compute. reflexivity.
  - intros [s Hs]. vm_compute in Hs. discriminate.
Qed.

(** C5 (amended): [merge_divisions] of empty inputs is the empty mapping;
    for every configuration mapping and every list of directory entries on
    which lines 53-54 do not raise, it returns one mapping whose key set is
    the union of the two sources, and for each key: both existence booleans
    tell the sources the key is in, the configuration display name is there
    exactly when the key is configured, and the directory display-name field
    is absent when the key is not in the directory and otherwise holds what
    line 54 computed for an entry of that key: its decoded description, or
    [None] when the entry has none. *)
Theorem merge_divisions_report :
  merge_divisions ∅ [] = Ok ∅ ∧
  ∀ cfg ldap,
    Forall (fun e => well_formed e = true) ldap →
    ∃ m, merge_divisions cfg ldap = Ok m ∧
         dom m = dom cfg ∪ list_to_set (names ldap) ∧
         ∀ k, describes cfg ldap k (m !! k).
Proof.
  split; [reflexivity|]. intros cfg ldap Hwf. unfold merge_divisions.
  destruct (merge_ldap_divisions_describes cfg ldap [] (merge_config cfg)
              (merge_config_describes cfg) Hwf) as (m&Hm&Hdesc).
  exists m. split; [done|]. split; [|done].
  apply set_eq. intros k. destruct (Hdesc k) as [Hdom _].
  rewrite elem_of_union, !elem_of_dom, elem_of_list_to_set. done.
Qed.

Lemma merge_divisions_report_witness :
  ∃ m, merge_divisions example_config example_ldap = Ok m ∧
       dom m = dom example_config ∪ list_to_set (names example_ldap) ∧
       ∀ k, describes example_config example_ldap k (m !! k).
Proof.
  apply (proj2 merge_divisions_report).
  repeat constructor.
Defined.

End UtilsSpec.

(** ** Running the monad *)

Lemma bind_run {S A B} (m : M S A) (k : A → M S B) (s : S) :
  (m ≫= k) s =
  match m s with
  | (Ok a, s') => k a s'
  | (Raise e, s') => (Raise e, s')
  end.
Proof. reflexivity. Qed.

Lemma bind_ok_inv {S A B} (m : M S A) (k : A → M S B) (s s' : S) (b : B) :
  (m ≫= k) s = (Ok b, s') → ∃ a s1, m s = (Ok a, s1) ∧ k a s1 = (Ok b, s').
Proof.
  rewrite bind_run. destruct (m s) as [[a|e] s1]; [eauto|discriminate].
Qed.

Lemma invoke_run {D A} (c : call) (op : D → result A * D) (w : world D) r d :
  op (dir w) = (r, d) →
  invoke c op w = (r, {| dir := d; log := log w ++ [c] |}).
Proof. intros H. unfold invoke. by rewrite H. Qed.

Lemma invoke_inv {D A} (c : call) (op : D → result A * D) (w w' : world D) r :
  invoke c op w = (r, w') →
  ∃ d, op (dir w) = (r, d) ∧ w' = {| dir := d; log := log w ++ [c] |}.
Proof.
  unfold invoke. destruct (op (dir w)) as [r' d]. intros [= <- <-]. eauto.
Qed.

(** Run the call at the head of the goal's computation, knowing by [H] what
    the gateway answers. *)
Lemma invoke_at {D A} (c : call) (op : D → result A * D) (d : D) lg r d' :
  op d = (r, d') →
  invoke c op {| dir := d; log := lg |} = (r, {| dir := d'; log := lg ++ [c] |}).
Proof. apply (invoke_run c op {| dir := d; log := lg |}). Qed.

Ltac run_call H :=
  rewrite ?bind_run;
  first [rewrite (invoke_run _ _ _ _ _ H) | rewrite (invoke_at _ _ _ _ _ _ H)];
  cbv beta iota.

Lemma for_each_invoke {D A} (c : A → call) (op : A → D → result unit * D)
      (l : list A) (w : world D) :
  for_each l (fun x => invoke (c x) (op x)) w =
  (fst (run_ops op l (dir w)),
   {| dir := snd (run_ops op l (dir w));
      log := log w ++ map c (attempted op l (dir w)) |}).
Proof.
  revert w. induction l as [|x l IH]; intros [d lg]; simpl.
  - by rewrite app_nil_r.
  - rewrite bind_run. unfold invoke at 1. simpl.
    destruct (op x d) as [[[]|e] d']; simpl.
    + rewrite IH. simpl. by rewrite <-app_assoc.
    + done.
Qed.

Lemma run_ops_ok_attempted {D A} (op : A → D → result unit * D) l d d' :
  run_ops op l d = (Ok tt, d') → attempted op l d = l.
Proof.
  revert d. induction l as [|x l IH]; intros d; simpl; [done|].
  destruct (op x d) as [[[]|e] d1]; [|done]. intros H. f_equal. eauto.
Qed.

Lemma run_ops_raise_attempted {D A} (op : A → D → result unit * D) l d e d' :
  run_ops op l d = (Raise e, d') →
  ∃ before rejected after d0,
    l = before ++ rejected :: after ∧
    attempted op l d = before ++ [rejected] ∧
    run_ops op before d = (Ok tt, d0) ∧
    op rejected d0 = (Raise e, d').
Proof.
  revert d. induction l as [|x l IH]; intros d; simpl; [done|].
  destruct (op x d) as [[[]|e1] d1] eqn:Hx.
  - intros (before & rejected & after & d0 & -> & Ha & Hb & Hr)%IH.
    exists (x :: before), rejected, after, d0. simpl. rewrite Hx, Ha. done.
  - intros [= -> ->]. exists [], x, l, d. simpl. by rewrite Hx.
Qed.

Lemma attempted_prefix {D A} (op : A → D → result unit * D) l d :
  attempted op l d `prefix_of` l.
Proof.
  revert d. induction l as [|x l IH]; intros d; simpl; [done|].
  apply prefix_cons. destruct (op x d) as [[[]|e] d1]; [apply IH|apply prefix_nil].
Qed.

Lemma run_ops_first_rejection {D A} (op : A → D → result unit * D)
      before rejected after d d0 e d' :
  run_ops op before d = (Ok tt, d0) →
  op rejected d0 = (Raise e, d') →
  run_ops op (before ++ rejected :: after) d = (Raise e, d') ∧
  attempted op (before ++ rejected :: after) d = before ++ [rejected].
Proof.
  revert d. induction before as [|x before IH]; intros d; simpl.
  - intros [= <-] Hr. by rewrite Hr.
  - destruct (op x d) as [[[]|e1] d1]; [|done]. intros Hb Hr.
    by destruct (IH _ Hb Hr) as [-> ->].
Qed.

(** ** TeamDerivationEngine *)

Section TeamDerivation.
Context {D : Type} (edap : Edap D) (ser : Serializers) (view : View D).

Lemma franchise_create_teams_run self w raw d1 :
  get_divisions edap (dir w) = (Ok raw, d1) →
  let divisions := edap_divisions_schema ser raw in
  LdapFranchise.create_teams edap ser self w =
  (fst (run_ops (franchise_team_op edap self) divisions d1),
   {| dir := snd (run_ops (franchise_team_op edap self) divisions d1);
      log := log w ++ GetDivisions ::
               franchise_teams edap self (attempted (franchise_team_op edap self) divisions d1) |}).
Proof.
  intros Hget divisions. unfold LdapFranchise.create_teams.
  rewrite bind_run, (invoke_run _ _ _ _ _ Hget).
  fold divisions.
  rewrite (for_each_invoke
             (fun division =>
                CreateTeam (make_team_machine_name edap (machine_name self) (machine_name division))
                           (make_team_display_name edap (display_name self) (display_name division)))
             (franchise_team_op edap self)).
  simpl. by rewrite <-app_assoc.
Qed.

Lemma division_create_teams_run self w raw d1 :
  get_franchises edap (dir w) = (Ok raw, d1) →
  let franchises := edap_franchises_schema ser raw in
  Division.create_teams edap ser self w =
  (fst (run_ops (division_team_op edap self) franchises d1),
   {| dir := snd (run_ops (division_team_op edap self) franchises d1);
      log := log w ++ GetFranchises ::
               division_teams edap self (attempted (division_team_op edap self) franchises d1) |}).
Proof.
  intros Hget franchises. unfold Division.create_teams.
  rewrite bind_run, (invoke_run _ _ _ _ _ Hget).
  fold franchises.
  rewrite (for_each_invoke
             (fun franchise =>
                CreateTeam (make_team_machine_name edap (machine_name franchise) (machine_name self))
                           (make_team_display_name edap (display_name franchise) (display_name self)))
             (division_team_op edap self)).
  simpl. by rewrite <-app_assoc.
Qed.




End TeamDerivation.

(** ** MembershipCascade *)

Section MembershipCascade.
Context {D : Type} (edap : Edap D) (ser : Serializers) (view : View D).

Lemma get_everybody_team_ok w team w' :
  TeamSchemaLaw edap ser →
  LdapTeam.get_everybody_team edap ser w = (Ok team, w') →
  machine_name team = EVERYBODY_MACHINE_NAME ∧
  ∃ fetch, everybody_fetch fetch ∧ log w' = log w ++ fetch.
Proof.
  intros Hschema. unfold LdapTeam.get_everybody_team.
  intros (raw & w1 & Htry & [= <- <-])%bind_ok_inv.
  unfold try_except in Htry.
  destruct (invoke (GetTeam EVERYBODY_MACHINE_NAME) _ w) as [[raw0|e] w0] eqn:Hget.
  - injection Htry as -> ->.
    apply invoke_inv in Hget as (d0 & Hget & ->).
    split; [by eapply Hschema|]. eexists. split; [by left|done].
  - destruct (decide (e = ObjectDoesNotExist)) as [->|]; [|discriminate].
    apply invoke_inv in Hget as (d0 & _ & ->).
    apply bind_ok_inv in Htry as ([] & w2 & Hcreate & Hget2).
    apply invoke_inv in Hcreate as (d2 & _ & ->).
    apply invoke_inv in Hget2 as (d3 & Hget2 & ->).
    split; [by eapply Hschema|]. eexists. split; [by right|].
    simpl. by rewrite <-!app_assoc.
Qed.

(** C4: for a user whose [groups] is a list (the empty one included), a
    [create] that returns has issued, in this order: the creation of the user
    record, one membership call per group of the list, the fetch of the
    distinguished team, and last the membership call for ["everybody"]; the
    user is then a member of that team. *)
Theorem create_adds_everybody_last self password gs w w' :
  TeamSchemaLaw edap ser →
  MembershipLaws edap view →
  groups self = Some gs →
  LdapUser.create edap ser self password w = (Ok tt, w') →
  (∃ fetch,
     everybody_fetch fetch ∧
     log w' = log w ++
       AddUser (uid self) (given_name self) (surname self) password ::
       map (MakeUidMemberOf (uid self)) gs ++ fetch ++
       [MakeUserMemberOfTeam (uid self) EVERYBODY_MACHINE_NAME]) ∧
  member view (dir w') (uid self) (TeamGroup EVERYBODY_MACHINE_NAME).
Proof.
  intros Hschema laws Hgs. unfold LdapUser.create. rewrite Hgs.
  intros ([] & w1 & Hadd & Hrest)%bind_ok_inv.
  apply invoke_inv in Hadd as (d1 & _ & ->).
  apply bind_ok_inv in Hrest as (gs' & w1' & [= <- <-] & Hrest).
  apply bind_ok_inv in Hrest as ([] & w2 & Hloop & Hrest).
  rewrite (for_each_invoke (MakeUidMemberOf (uid self))
             (make_uid_member_of edap (uid self))) in Hloop.
  simpl in Hloop.
  destruct (run_ops (make_uid_member_of edap (uid self)) gs d1) as [r d2] eqn:Hops.
  simpl in Hloop. injection Hloop as -> <-.
  rewrite (run_ops_ok_attempted _ _ _ _ Hops) in Hrest.
  apply bind_ok_inv in Hrest as (team & w3 & Hteam & Hlast).
  apply (get_everybody_team_ok _ _ _ Hschema) in Hteam as (Hname & fetch & Hfetch & Hlog).
  rewrite Hname in Hlast. apply invoke_inv in Hlast as (d4 & Hjoin & ->). simpl.
  split.
  - exists fetch. split; [done|]. rewrite Hlog. simpl.
    by rewrite <-!app_assoc.
  - by eapply team_joined.
Qed.

(** C9: for a user built without [groups] (so [None]), once the directory
    has created the user record [create] raises [TypeError] at the loop
    header: the only call issued is the user creation, no membership call at
    all, and the directory is left as that creation left it. *)
Theorem create_without_groups self password w d1 :
  groups self = None →
  add_user edap (uid self) (given_name self) (surname self) password (dir w) = (Ok tt, d1) →
  LdapUser.create edap ser self password w =
    (Raise TypeError,
     {| dir := d1;
        log := log w ++ [AddUser (uid self) (given_name self) (surname self) password] |}) ∧
  membership_calls [AddUser (uid self) (given_name self) (surname self) password] = [].
Proof.
  intros Hgs Hadd. split; [|done]. unfold LdapUser.create.
  rewrite bind_run, (invoke_run _ _ _ _ _ Hadd), Hgs. done.
Qed.


(** C6 (amended): [add_to_team] makes no existence check. Its first action
    is the team membership call; when the directory rejects that call (with
    [ObjectDoesNotExist] for a team that is not there, or anything else) the
    rejection is raised as it is and no other call is issued. *)
Theorem add_to_team_rejected self t w e d1 :
  make_user_member_of_team edap (uid self) t (dir w) = (Raise e, d1) →
  LdapUser.add_to_team edap ser self t w =
    (Raise e, {| dir := d1; log := log w ++ [MakeUserMemberOfTeam (uid self) t] |}).
Proof.
  intros Hteam. unfold LdapUser.add_to_team.
  by rewrite bind_run, (invoke_run _ _ _ _ _ Hteam).
Qed.

(** C7: when the directory accepts the team call and then names no owning
    pair for the team (it answers [None], or the lookup raises), the team
    call stays the only membership call: [add_to_team] ends there by raising
    ([TypeError] from the unpacking of [None]) and issues no franchise or
    division call. *)
Theorem add_to_team_unpaired self t w d1 r d2 :
  make_user_member_of_team edap (uid self) t (dir w) = (Ok tt, d1) →
  get_team_component_units edap t d1 = (r, d2) →
  (∀ pair, r ≠ Ok (Some pair)) →
  ∃ e w',
    LdapUser.add_to_team edap ser self t w = (Raise e, w') ∧
    (r = Ok None → e = TypeError) ∧
    dir w' = d2 ∧
    log w' = log w ++ [MakeUserMemberOfTeam (uid self) t; GetTeamComponentUnits t] ∧
    membership_calls (drop (length (log w)) (log w')) =
      [MakeUserMemberOfTeam (uid self) t].
Proof.
  intros Hteam Hunits Hnone. unfold LdapUser.add_to_team.
  run_call Hteam. run_call Hunits.
  destruct r as [[pair|]|e].
  - by destruct (Hnone pair).
  - exists TypeError. eexists. split; [reflexivity|]. simpl.
    rewrite <-!app_assoc. simpl. split_and!; try done.
    by rewrite drop_app_length.
  - exists e. eexists. split; [reflexivity|]. simpl.
    rewrite <-!app_assoc. simpl. split_and!; try done.
    by rewrite drop_app_length.
Qed.

(** C10: [LdapFranchise.create] does not read the display name it is given:
    run on two objects that differ in nothing else it does the same. When the
    directory has created the franchise and answered with a label, the
    object's [display_name] is set to the UTF-8 bytes of that label before
    the teams are derived: the run goes on with the listing of the divisions
    and one team-creation request per listed division, each carrying the
    display name computed from those bytes and the display name of its
    division; when the directory accepts them all, the object is returned
    with that [display_name], and when it rejects one, the run ends there
    with that rejection. *)
Theorem create_overwrites_display_name :
  (∀ v self w,
     LdapFranchise.create edap ser (set_display_name v self) w =
     LdapFranchise.create edap ser self w) ∧
  (∀ self w d1 label d2 raw d3,
     create_franchise edap (machine_name self) (dir w) = (Ok tt, d1) →
     label_franchise edap (machine_name self) d1 = (Ok label, d2) →
     get_divisions edap d2 = (Ok raw, d3) →
     let labelled := set_display_name (PyBytes (Utf8.encode label)) self in
     (∀ d4,
        run_ops (franchise_team_op edap labelled) (edap_divisions_schema ser raw) d3
          = (Ok tt, d4) →
        display_name labelled = PyBytes (Utf8.encode label) ∧
        LdapFranchise.create edap ser self w
          = (Ok labelled,
             {| dir := d4;
                log := log w ++
                  [CreateFranchise (machine_name self); LabelFranchise (machine_name self);
                   GetDivisions] ++
                  map (fun division =>
                         CreateTeam
                           (make_team_machine_name edap (machine_name self)
                              (machine_name division))
                           (make_team_display_name edap (PyBytes (Utf8.encode label))
                              (display_name division)))
                      (edap_divisions_schema ser raw) |})) ∧
     (∀ before rejected after e d0 d4,
        edap_divisions_schema ser raw = before ++ rejected :: after →
        run_ops (franchise_team_op edap labelled) before d3 = (Ok tt, d0) →
        franchise_team_op edap labelled rejected d0 = (Raise e, d4) →
        LdapFranchise.create edap ser self w
          = (Raise e,
             {| dir := d4;
                log := log w ++
                  [CreateFranchise (machine_name self); LabelFranchise (machine_name self);
                   GetDivisions] ++
                  map (fun division =>
                         CreateTeam
                           (make_team_machine_name edap (machine_name self)
                              (machine_name division))
                           (make_team_display_name edap (PyBytes (Utf8.encode label))
                              (display_name division)))
                      (before ++ [rejected]) |}))).
Proof.
  split.
  - intros v self w. unfold LdapFranchise.create. simpl. reflexivity.
  - intros self w d1 label d2 raw d3 Hcreate Hlabel Hget labelled.
    assert (Hrun : LdapFranchise.create edap ser self w
              = (match fst (run_ops (franchise_team_op edap labelled)
                              (edap_divisions_schema ser raw) d3) with
                 | Ok _ => Ok labelled
                 | Raise e => Raise e
                 end,
                 {| dir := snd (run_ops (franchise_team_op edap labelled)
                                  (edap_divisions_schema ser raw) d3);
                    log := log w ++
                      [CreateFranchise (machine_name self);
                       LabelFranchise (machine_name self); GetDivisions] ++
                      franchise_teams edap labelled
                        (attempted (franchise_team_op edap labelled)
                           (edap_divisions_schema ser raw) d3) |})).
    { unfold LdapFranchise.create.
      run_call Hcreate. run_call Hlabel. cbv zeta. rewrite bind_run.
      rewrite (franchise_create_teams_run edap ser _ _ raw d3) by done.
      cbv zeta. simpl. fold labelled.
      destruct (run_ops _ _ d3) as [[[]|e] d4]; simpl; by rewrite <-!app_assoc. }
    split.
    + intros d4 Hops. split; [done|]. rewrite Hrun, Hops. simpl.
      by rewrite (run_ops_ok_attempted _ _ _ _ Hops).
    + intros before rejected after e d0 d4 Hl Hbefore Hrejected. rewrite Hrun, Hl.
      by destruct (run_ops_first_rejection _ _ _ after _ _ _ _ Hbefore Hrejected)
        as [-> ->].
Qed.

End MembershipCascade.

(** ** The in-memory directory obeys the gateway laws *)

Module MockFacts.
Import Mock.




Lemma join_member u g d r d' :
  join u g d = (r, d') → r = Ok tt ∧ members d' = members d ++ [(u, g)].
Proof. by intros [= <- <-]. Qed.

Lemma membership_laws : MembershipLaws edap view.
Proof.
  constructor; simpl.
  - intros u t d d'. destruct (lookup_name t (teams d)); [|done].
    intros [_ ->]%join_member. apply elem_of_app. right. by left.
  - intros u f d d' [_ ->]%join_member. apply elem_of_app. right. by left.
  - intros u v d d' [_ ->]%join_member. apply elem_of_app. right. by left.
  - by intros t d r d' [= <- <-] u g.
  - intros u f d r d' [_ ->]%join_member u' g ?. apply elem_of_app. by left.
  - intros u v d r d' [_ ->]%join_member u' g ?. apply elem_of_app. by left.
Qed.

Lemma schema_entry_name name v : machine_name (schema (entry name v)) = name.
Proof.
  unfold schema, entry. cbn [machine_name].
  destruct v; rewrite ?lookup_insert_ne by done; rewrite lookup_insert_eq;
    apply String.string_of_list_byte_of_string.
Qed.

Lemma team_schema_law : TeamSchemaLaw edap ser.
Proof.
  intros name d raw d'. simpl. destruct (lookup_name name (teams d)) as [v|]; [|done].
  intros [= <- <-]. apply schema_entry_name.
Qed.

End MockFacts.

(** ** The properties on the in-memory directory *)

Module Scenarios.
Import Mock.

(** The scenario of the specification: the derivation for [east] requests
    [east-ops] and [east-sales] only, and a division [legal] added afterwards
    gives one more team. *)
Example derivation_scenario :
  LdapFranchise.create_teams edap ser east (start east_ops_sales)
    = (Ok tt, {| dir := east_derived;
                 log := [GetDivisions;
                         CreateTeam "east-ops" (PyStr "East Operations");
                         CreateTeam "east-sales" (PyStr "East Sales")] |}) ∧
  log (snd (Division.create_teams edap ser legal (start east_derived)))
    = [GetFranchises; CreateTeam "east-legal" (PyStr "East Legal")].
Proof. split; vm_compute; reflexivity. Qed.

(** Provisioning with an empty list of groups on a directory that has no
    ["everybody"] team yet: the team is created on the way. *)
Example provisioning_creates_everybody :
  log (snd (LdapUser.create edap ser (alice (Some [])) "secret" (start divisions_only)))
    = [AddUser "alice" "Alice" (Some "Liddell") "secret";
       GetTeam "everybody";
       CreateTeam "everybody" (PyStr "Everybody");
       GetTeam "everybody";
       MakeUserMemberOfTeam "alice" "everybody"] ∧
  members (dir (snd (LdapUser.create edap ser (alice (Some [])) "secret"
                       (start divisions_only))))
    = [("alice", TeamGroup "everybody")].
Proof. split; vm_compute; reflexivity. Qed.





(** Provisioning [alice] with one initial group, the distinguished team
    being there already. *)
Lemma create_adds_everybody_last_witness :
  ∃ w',
    LdapUser.create edap ser (alice (Some ["staff"])) "secret" (start east_ops_sales)
      = (Ok tt, w') ∧
    (∃ fetch,
       everybody_fetch fetch ∧
       log w' = [] ++
         AddUser "alice" "Alice" (Some "Liddell") "secret" ::
         map (MakeUidMemberOf "alice") ["staff"] ++ fetch ++
         [MakeUserMemberOfTeam "alice" EVERYBODY_MACHINE_NAME]) ∧
    member view (dir w') "alice" (TeamGroup EVERYBODY_MACHINE_NAME).
Proof.
  eexists. split; [vm_compute; reflexivity|].
  eapply (create_adds_everybody_last edap ser view (alice (Some ["staff"])) "secret"
            ["staff"] (start east_ops_sales));
    [apply MockFacts.team_schema_law | apply MockFacts.membership_laws
    | reflexivity | vm_compute; reflexivity].
Defined.

Lemma create_without_groups_witness :
  LdapUser.create edap ser (alice None) "secret" (start east_ops_sales) =
    (Raise TypeError,
     {| dir := with_users (fun l => l ++ ["alice"]) east_ops_sales;
        log := [] ++ [AddUser "alice" "Alice" (Some "Liddell") "secret"] |}) ∧
  membership_calls [AddUser "alice" "Alice" (Some "Liddell") "secret"] = [].
Proof.
  apply (create_without_groups edap ser (alice None) "secret" (start east_ops_sales));
    reflexivity.
Defined.


(** C6, as stated, fails: for a team that is not in the directory the
    membership call for that team is issued all the same; it is the call the
    directory answers with [ObjectDoesNotExist]. *)
Lemma add_to_team_missing_team_calls :
  lookup_name "ghost" (teams east_ops_sales) = None ∧
  LdapUser.add_to_team edap ser (alice None) "ghost" (start east_ops_sales)
    = (Raise ObjectDoesNotExist,
       {| dir := east_ops_sales; log := [MakeUserMemberOfTeam "alice" "ghost"] |}) ∧
  membership_calls
    (log (snd (LdapUser.add_to_team edap ser (alice None) "ghost" (start east_ops_sales))))
    ≠ [].
Proof. split_and!; try (vm_compute; reflexivity). vm_compute. discriminate. Qed.

Lemma add_to_team_rejected_witness :
  LdapUser.add_to_team edap ser (alice None) "ghost" (start east_ops_sales) =
    (Raise ObjectDoesNotExist,
     {| dir := east_ops_sales; log := [] ++ [MakeUserMemberOfTeam "alice" "ghost"] |}).
Proof.
  apply (add_to_team_rejected edap ser (alice None) "ghost" (start east_ops_sales)).
  reflexivity.
Defined.

(** Joining the distinguished team, which has no owning pair. *)
Lemma add_to_team_unpaired_witness :
  ∃ e w',
    LdapUser.add_to_team edap ser (alice None) "everybody" (start east_ops_sales)
      = (Raise e, w') ∧
    (@Ok (option (Utils.ldap_entry * Utils.ldap_entry)) None = Ok None → e = TypeError) ∧
    dir w' = with_members (fun _ => [("alice", TeamGroup "everybody")]) east_ops_sales ∧
    log w' = [] ++ [MakeUserMemberOfTeam "alice" "everybody";
                    GetTeamComponentUnits "everybody"] ∧
    membership_calls (drop (length ([] : list call)) (log w')) =
      [MakeUserMemberOfTeam "alice" "everybody"].
Proof.
  apply (add_to_team_unpaired edap ser (alice None) "everybody" (start east_ops_sales)
           (with_members (fun _ => [("alice", TeamGroup "everybody")]) east_ops_sales)
           (Ok None)
           (with_members (fun _ => [("alice", TeamGroup "everybody")]) east_ops_sales));
    [vm_compute; reflexivity | vm_compute; reflexivity | discriminate].
Defined.

(** Creating franchise [east] with a display name of the caller's: the
    directory labels it ["east"], and that is what the teams are named from. *)
Lemma create_overwrites_display_name_witness :
  display_name (set_display_name (PyBytes (Utf8.encode "east")) eastern_region)
    = PyBytes (Utf8.encode "east") ∧
  LdapFranchise.create edap ser eastern_region (start divisions_only)
    = (Ok (set_display_name (PyBytes (Utf8.encode "east")) eastern_region),
       {| dir := with_teams (fun _ => [("east-ops", PyStr "east Operations");
                                       ("east-sales", PyStr "east Sales")])
                   (with_franchises (fun _ => [("east", "east")]) divisions_only);
          log := [] ++
            [CreateFranchise (machine_name eastern_region);
             LabelFranchise (machine_name eastern_region); GetDivisions] ++
            map (fun division =>
                   CreateTeam
                     (make_team_machine_name edap (machine_name eastern_region)
                        (machine_name division))
                     (make_team_display_name edap (PyBytes (Utf8.encode "east"))
                        (display_name division)))
                (edap_divisions_schema ser
                   (map (fun p => entry (fst p) (snd p)) (divisions divisions_only))) |}).
Proof.
  apply (proj1 (proj2 (create_overwrites_display_name edap ser)
                  eastern_region (start divisions_only)
                  (with_franchises (fun _ => [("east", "east")]) divisions_only)
                  "east"
                  (with_franchises (fun _ => [("east", "east")]) divisions_only)
                  _
                  (with_franchises (fun _ => [("east", "east")]) divisions_only)
                  eq_refl eq_refl eq_refl));
    vm_compute; reflexivity.
Defined.

End Scenarios.

(** ** FolderProvisioner *)

Section FolderProperties.
Context {N : Type} (nxcl : Nextcloud N).

Lemma create_folder_unfold name :
  Franchise.create_folder nxcl name =
  (main_franchises_folder ←
     ninvoke (GetGroupFolder Franchise.GROUP_FOLDER)
             (fun o : option Z => bool_decide (is_Some o))
             (get_group_folder nxcl Franchise.GROUP_FOLDER);
   (if decide (main_franchises_folder = None)
    then Franchise.create_main_folder nxcl else mret tt) ;;
   create_subfolder nxcl name).
Proof. reflexivity. Qed.

Lemma ninvoke_at {A} (c : nxc_call) (truthy : A → bool) (op : N → result A * N)
      (n : N) l r n' :
  op n = (r, n') →
  ninvoke c truthy op {| nxc := n; nlog := l |} =
  (r, {| nxc := n';
         nlog := l ++ [(c, match r with Ok a => Some (truthy a) | Raise _ => None end)] |}).
Proof. intros H. unfold ninvoke. simpl. by rewrite H. Qed.

Ltac ncall H :=
  rewrite ?bind_run; rewrite (ninvoke_at _ _ _ _ _ _ _ H); cbv beta iota.

Lemma join_path_not_container name :
  Franchise.join_path Franchise.GROUP_FOLDER name ≠ Franchise.GROUP_FOLDER.
Proof. unfold Franchise.join_path, Franchise.GROUP_FOLDER. simpl. discriminate. Qed.

Lemma create_subfolder_run name n l r w' :
  create_subfolder nxcl name {| nxc := n; nlog := l |} = (r, w') →
  ∃ evs,
    nlog w' = l ++ evs ∧
    Forall (fun ev => is_container_call (fst ev) = false) evs ∧
    match r with
    | Raise _ => ∃ ev, last evs = Some ev ∧ ends_run_early ev = true
    | Ok b =>
        ∃ res1 n1 fid res2 n2 res3,
          create_group_folder nxcl (Franchise.join_path Franchise.GROUP_FOLDER name) n
            = (Ok res1, n1) ∧
          data_id res1 = Ok fid ∧
          grant_access_to_group_folder nxcl fid name n1 = (Ok res2, n2) ∧
          grant_access_to_group_folder nxcl fid EVERYBODY_MACHINE_NAME n2
            = (Ok res3, nxc w') ∧
          evs = sub_events name fid (is_ok res1) (is_ok res2) (is_ok res3) ∧
          b = is_ok res1 && is_ok res2 && is_ok res3
    end.
Proof.
  assert (Hpath : bool_decide (Franchise.join_path Franchise.GROUP_FOLDER name
                               = Franchise.GROUP_FOLDER) = false)
    by (apply bool_decide_eq_false_2, join_path_not_container).
  unfold create_subfolder.
  destruct (create_group_folder nxcl _ n) as [[res1|e] n1] eqn:H1; ncall H1.
  2: { intros [= <- <-]. eexists [_]. simpl. split; [done|].
       split; [by repeat constructor|]. by eexists. }
  rewrite bind_run. unfold lift at 1. destruct (data_id res1) as [fid|e] eqn:Hid.
  2: { intros [= <- <-]. eexists [_]. simpl. split; [done|].
       split; [by repeat constructor|]. by eexists. }
  destruct (grant_access_to_group_folder nxcl fid name n1) as [[res2|e] n2] eqn:H2; ncall H2.
  2: { intros [= <- <-]. eexists [_; _]. simpl. rewrite <-app_assoc. split; [done|].
       split; [by repeat constructor|]. by eexists. }
  rewrite bind_run. unfold lift at 1. cbv beta iota.
  destruct (grant_access_to_group_folder nxcl fid EVERYBODY_MACHINE_NAME n2)
    as [[res3|e] n3] eqn:H3; ncall H3.
  2: { intros [= <- <-]. eexists [_; _; _]. simpl. rewrite <-!app_assoc. split; [done|].
       split; [by repeat constructor|]. by eexists. }
  intros [= <- <-]. eexists. simpl. rewrite <-!app_assoc. split; [done|].
  split; [by repeat constructor|].
  exists res1, n1, fid, res2, n2, res3. done.
Qed.

Lemma create_main_folder_run n l r w' :
  Franchise.create_main_folder nxcl {| nxc := n; nlog := l |} = (r, w') →
  ∃ evs,
    nlog w' = l ++ evs ∧
    match r with
    | Raise _ => ∃ ev, last evs = Some ev ∧ ends_run_early ev = true
    | Ok _ =>
        ∃ res1 n1 mid res2 n2 res3,
          create_group_folder nxcl Franchise.GROUP_FOLDER n = (Ok res1, n1) ∧
          data_id res1 = Ok mid ∧
          grant_access_to_group_folder nxcl mid EVERYBODY_MACHINE_NAME n1 = (Ok res2, n2) ∧
          set_permissions_to_group_folder nxcl mid EVERYBODY_MACHINE_NAME
            (READ_value nxcl) n2 = (Ok res3, nxc w') ∧
          evs = main_events nxcl mid (is_ok res1) (is_ok res2) (is_ok res3)
    end.
Proof.
  unfold Franchise.create_main_folder.
  destruct (create_group_folder nxcl Franchise.GROUP_FOLDER n) as [[res1|e] n1] eqn:H1;
    ncall H1.
  2: { intros [= <- <-]. eexists [_]. simpl. split; [done|]. by eexists. }
  rewrite bind_run. unfold lift at 1. destruct (data_id res1) as [mid|e] eqn:Hid.
  2: { intros [= <- <-]. eexists [_]. simpl. split; [done|]. by eexists. }
  destruct (grant_access_to_group_folder nxcl mid EVERYBODY_MACHINE_NAME n1)
    as [[res2|e] n2] eqn:H2; ncall H2.
  2: { intros [= <- <-]. eexists [_; _]. simpl. rewrite <-app_assoc. split; [done|].
       by eexists. }
  destruct (set_permissions_to_group_folder nxcl mid EVERYBODY_MACHINE_NAME
              (READ_value nxcl) n2) as [[res3|e] n3] eqn:H3; ncall H3.
  2: { intros [= <- <-]. eexists [_; _; _]. simpl. rewrite <-!app_assoc. split; [done|].
       by eexists. }
  intros [= <- <-]. eexists. simpl. rewrite <-!app_assoc. split; [done|].
  exists res1, n1, mid, res2, n2, res3. done.
Qed.

Lemma last_app_early (evs evs' : list nxc_event) :
  (∃ ev, last evs' = Some ev ∧ ends_run_early ev = true) →
  ∃ ev, last (evs ++ evs') = Some ev ∧ ends_run_early ev = true.
Proof. intros (ev & Hlast & Hev). exists ev. by rewrite last_app, Hlast. Qed.

Lemma create_folder_run name w r w' :
  Franchise.create_folder nxcl name w = (r, w') →
  ∃ lookup n0 evs,
    get_group_folder nxcl Franchise.GROUP_FOLDER (nxc w) = (lookup, n0) ∧
    nlog w' = nlog w ++ evs ∧
    (∀ f, lookup = Ok (Some f) →
          Forall (fun ev => is_container_call (fst ev) = false) evs) ∧
    match r with
    | Raise _ => ∃ ev, last evs = Some ev ∧ ends_run_early ev = true
    | Ok b =>
        ∃ o main fid b1 b2 b3,
          lookup = Ok o ∧
          evs = (GetGroupFolder Franchise.GROUP_FOLDER, Some (bool_decide (is_Some o)))
                  :: main ++ sub_events name fid b1 b2 b3 ∧
          b = b1 && b2 && b3 ∧
          match o with
          | Some _ => main = []
          | None => ∃ mid c1 c2 c3, main = main_events nxcl mid c1 c2 c3
          end
    end.
Proof.
  rewrite create_folder_unfold. destruct w as [n l].
  destruct (get_group_folder nxcl Franchise.GROUP_FOLDER n) as [[o|e] n0] eqn:Hget;
    ncall Hget; simpl.
  2: { intros [= <- <-]. eexists _, _, [_]. simpl. split; [done|]. split; [done|].
       split; [done|]. by eexists. }
  destruct o as [f|].
  - destruct (decide (Some f = None)) as [|_]; [done|].
    rewrite bind_run. cbn [mret M_ret].
    intros (evs & Hlog & Hcalls & Hr)%create_subfolder_run.
    eexists _, _, (_ :: evs). split; [done|]. rewrite Hlog, <-app_assoc.
    split; [done|]. split; [intros _ _; by constructor|].
    destruct r as [b|e].
    + destruct Hr as (res1 & n1 & fid & res2 & n2 & res3 & _ & _ & _ & _ & -> & ->).
      exists (Some f), [], fid, (is_ok res1), (is_ok res2), (is_ok res3). done.
    + by apply (last_app_early [_]).
  - destruct (decide (@None Z = None)) as [_|]; [|done].
    rewrite bind_run.
    destruct (Franchise.create_main_folder nxcl _) as [[[]|e] [nm lm]] eqn:Hmain;
      apply create_main_folder_run in Hmain as (mevs & Hmlog & Hm); simpl in Hmlog.
    + intros (evs & Hlog & Hcalls & Hr)%create_subfolder_run.
      eexists _, _, (_ :: mevs ++ evs). split; [done|].
      rewrite Hlog, Hmlog, <-!app_assoc. split; [done|]. split; [done|].
      destruct r as [b|e].
      * destruct Hr as (res1 & n1 & fid & res2 & n2 & res3 & _ & _ & _ & _ & -> & ->).
        destruct Hm as (r1 & m1 & mid & r2 & m2 & r3 & _ & _ & _ & _ & ->).
        exists None, (main_events nxcl mid (is_ok r1) (is_ok r2) (is_ok r3)), fid,
          (is_ok res1), (is_ok res2), (is_ok res3).
        split_and!; try done. by eexists _, _, _, _.
      * apply (last_app_early (_ :: mevs)). done.
    + intros [= <- <-]. simpl. eexists _, _, (_ :: mevs). split; [done|].
      rewrite Hmlog, <-!app_assoc. split; [done|]. split; [done|].
      by apply (last_app_early [_]).
Qed.

End FolderProperties.

Section FolderPolicy.
Context {N : Type} (nxcl : Nextcloud N).

Lemma create_folder_creates_container has_main name w b w' n0 :
  FolderLaws nxcl has_main →
  get_group_folder nxcl Franchise.GROUP_FOLDER (nxc w) = (Ok None, n0) →
  Franchise.create_folder nxcl name w = (Ok b, w') →
  has_main (nxc w') ∧
  ∃ mid c1 c2 c3 fid b1 b2 b3,
    nlog w' = nlog w ++
      (GetGroupFolder Franchise.GROUP_FOLDER, Some false) ::
      main_events nxcl mid c1 c2 c3 ++ sub_events name fid b1 b2 b3.
Proof.
  intros laws Hget. rewrite create_folder_unfold. destruct w as [n l]. simpl in Hget.
  rewrite bind_run, (ninvoke_at _ _ _ _ _ _ _ Hget). cbv beta iota.
  destruct (decide (@None Z = None)) as [_|]; [|done].
  rewrite bind_run.
  destruct (Franchise.create_main_folder nxcl _) as [[[]|e] [nm lm]] eqn:Hmain; [|done].
  apply create_main_folder_run in Hmain
    as (mevs & Hmlog & r1 & m1 & mid & r2 & m2 & r3 & Hc & Hid & Hg & Hp & ->).
  simpl in Hmlog, Hp.
  intros (evs & Hlog & _ & res1 & n1 & fid & res2 & n2 & res3
          & Hc' & _ & Hg1 & Hg2 & -> & _)%create_subfolder_run.
  split.
  - eapply grant_keeps_container; [done..|].
    eapply grant_keeps_container; [done..|].
    eapply create_keeps_container; [done..|].
    eapply permissions_keep_container; [done..|].
    eapply grant_keeps_container; [done..|].
    by eapply container_created.
  - eexists mid, _, _, _, fid, _, _, _. rewrite Hlog, Hmlog, <-!app_assoc. done.
Qed.

Lemma create_folder_finds_container has_main name w b w' :
  FolderLaws nxcl has_main →
  has_main (nxc w) →
  Franchise.create_folder nxcl name w = (Ok b, w') →
  ∃ fid b1 b2 b3,
    nlog w' = nlog w ++
      (GetGroupFolder Franchise.GROUP_FOLDER, Some true) :: sub_events name fid b1 b2 b3.
Proof.
  intros laws Hmain
    (lookup & n0 & evs & Hget & Hlog & _ & o & main & fid & b1 & b2 & b3
     & -> & -> & _ & Ho)%create_folder_run.
  destruct (container_found _ _ laws _ _ _ Hmain Hget) as [f ->].
  subst main. exists fid, b1, b2, b3. done.
Qed.

(** C8: [create_folder] returns [True] exactly when its run ends with the
    creation of the franchise folder and the two access grants on it (to the
    franchise group and to ["everybody"]), each answered with [is_ok]; when
    the lookup finds the top-level container, the run neither creates it nor
    sets a permission; and, with a gateway on which a created container is
    found again, two runs that return, started without a container, create it
    and set its read permission in the first run only, so exactly once. *)
Theorem create_folder_policy (has_main : N → Prop) :
  (∀ name w r w',
     Franchise.create_folder nxcl name w = (r, w') →
     (r = Ok true ↔ ∃ pre fid, nlog w' = pre ++ sub_events name fid true true true)) ∧
  (∀ name w r w' f n0,
     get_group_folder nxcl Franchise.GROUP_FOLDER (nxc w) = (Ok (Some f), n0) →
     Franchise.create_folder nxcl name w = (r, w') →
     ∃ evs, nlog w' = nlog w ++ evs ∧
            Forall (fun ev => is_container_call (fst ev) = false) evs) ∧
  (FolderLaws nxcl has_main →
   ∀ a b w n0 ra w1 rb w2,
     get_group_folder nxcl Franchise.GROUP_FOLDER (nxc w) = (Ok None, n0) →
     Franchise.create_folder nxcl a w = (Ok ra, w1) →
     Franchise.create_folder nxcl b w1 = (Ok rb, w2) →
     ∃ evs,
       nlog w2 = nlog w ++ evs ∧
       (∃ mid c1 c2 c3 fa a1 a2 a3 fb b1 b2 b3,
          evs = (GetGroupFolder Franchise.GROUP_FOLDER, Some false) ::
                main_events nxcl mid c1 c2 c3 ++ sub_events a fa a1 a2 a3 ++
                (GetGroupFolder Franchise.GROUP_FOLDER, Some true) ::
                sub_events b fb b1 b2 b3) ∧
       length (List.filter creates_container evs) = 1 ∧
       length (List.filter sets_read_permission evs) = 1).
Proof.
  split_and!.
  - intros name w r w'
      (lookup & n0 & evs & _ & Hlog & _ & Hr)%create_folder_run. split.
    + intros ->. destruct Hr as (o & main & fid & b1 & b2 & b3 & _ & -> & Hb & _).
      symmetry in Hb. apply andb_true_iff in Hb as [[-> ->]%andb_true_iff ->].
      exists (nlog w ++ (GetGroupFolder Franchise.GROUP_FOLDER,
                         Some (bool_decide (is_Some o))) :: main), fid.
      rewrite Hlog, <-app_assoc. done.
    + intros (pre & fid & Hpre). destruct r as [b|e].
      * destruct Hr as (o & main & fid' & b1 & b2 & b3 & _ & -> & -> & _).
        rewrite Hpre in Hlog.
        change (?x :: main ++ ?s) with ((x :: main) ++ s) in Hlog.
        rewrite app_assoc in Hlog.
        apply app_inj_2 in Hlog as [_ Hsub]; [|done].
        unfold sub_events in Hsub. by simplify_eq.
      * destruct Hr as (ev & Hlast & Hev).
        assert (Hl : last (nlog w') = Some ev) by (by rewrite Hlog, last_app, Hlast).
        rewrite Hpre, last_app in Hl. simpl in Hl. injection Hl as <-. done.
  - intros name w r w' f n0 Hget
      (lookup & n0' & evs & Hget' & Hlog & Hcalls & _)%create_folder_run.
    exists evs. split; [done|]. rewrite Hget in Hget'. injection Hget' as <- _.
    by eapply Hcalls.
  - intros laws a b w n0 ra w1 rb w2 Hget Ha Hb.
    destruct (create_folder_creates_container _ _ _ _ _ _ laws Hget Ha)
      as (Hmain & mid & c1 & c2 & c3 & fa & a1 & a2 & a3 & Hlog1).
    destruct (create_folder_finds_container _ _ _ _ _ laws Hmain Hb)
      as (fb & b1 & b2 & b3 & Hlog2).
    eexists. split; [rewrite Hlog2, Hlog1, <-app_assoc; reflexivity|].
    split; [by eexists mid, c1, c2, c3, fa, a1, a2, a3, fb, b1, b2, b3|].
    unfold creates_container, sets_read_permission. simpl. done.
Qed.

End FolderPolicy.

(** ** The in-memory groupware service obeys the gateway laws *)

Module MockFolders.
Import Mock.

Lemma lookup_name_is_Some {V} name (l : list (string * V)) :
  name ∈ map fst l → is_Some (lookup_name name l).
Proof.
  unfold lookup_name. induction l as [|[k v] l IH]; simpl.
  - by intros ?%elem_of_nil.
  - intros [->|Hin]%elem_of_cons.
    + rewrite bool_decide_eq_true_2 by done. by eexists.
    + destruct (bool_decide (k = name)); [by eexists|by apply IH].
Qed.

Lemma folder_laws : FolderLaws nextcloud has_container.
Proof.
  constructor; unfold has_container; simpl.
  - intros n res n' mid [= _ <-] _. rewrite map_app, elem_of_app. right. by left.
  - intros path n r n' [= _ <-] ?. rewrite map_app, elem_of_app. by left.
  - by intros fid g n r n' [= _ <-].
  - by intros fid g p n r n' [= _ <-].
  - intros n o n' Hin [= <- _]. by apply lookup_name_is_Some.
Qed.

(** Two franchise folders, [east] and [west], on a service without any
    folder; and a third run, for which the container is there. *)
Lemma create_folder_policy_witness :
  ∃ ra w1 rb w2,
    Franchise.create_folder nextcloud "east" (nstart []) = (Ok ra, w1) ∧
    Franchise.create_folder nextcloud "west" w1 = (Ok rb, w2) ∧
    (Ok ra = Ok true ↔
     ∃ pre fid, nlog w1 = pre ++ sub_events "east" fid true true true) ∧
    (∃ evs, nlog w2 = nlog w1 ++ evs ∧
            Forall (fun ev => is_container_call (fst ev) = false) evs) ∧
    (∃ evs,
       nlog w2 = [] ++ evs ∧
       (∃ mid c1 c2 c3 fa a1 a2 a3 fb b1 b2 b3,
          evs = (GetGroupFolder Franchise.GROUP_FOLDER, Some false) ::
                main_events nextcloud mid c1 c2 c3 ++ sub_events "east" fa a1 a2 a3 ++
                (GetGroupFolder Franchise.GROUP_FOLDER, Some true) ::
                sub_events "west" fb b1 b2 b3) ∧
       length (List.filter creates_container evs) = 1 ∧
       length (List.filter sets_read_permission evs) = 1).
Proof.
  eexists _, _, _, _.
  split; [vm_compute; reflexivity|]. split; [vm_compute; reflexivity|].
  split_and!.
  - eapply (proj1 (create_folder_policy nextcloud has_container) "east" (nstart [])).
    vm_compute; reflexivity.
  - eapply (proj1 (proj2 (create_folder_policy nextcloud has_container)) "west");
      vm_compute; reflexivity.
  - eapply (proj2 (proj2 (create_folder_policy nextcloud has_container))
              folder_laws "east" "west" (nstart []));
      vm_compute; reflexivity.
Defined.

End MockFolders.

(** * Further properties *)

(** ** ConsistencyReconciler: what [merge_divisions] does beyond the report *)

Module UtilsMore.
Import Utils Report Expected.

Lemma last_label_app k l1 l2 :
  last_label k (l1 ++ l2) =
  match last_label k l2 with
  | Some v => Some v
  | None => last_label k l1
  end.
Proof.
  induction l1 as [|e l1 IH]; simpl.
  - by destruct (last_label k l2).
  - rewrite IH. by destruct (last_label k l2).
Qed.

Lemma ldap_update_twice v v0 (d : info) :
  ldap_update v (ldap_update v0 d) = ldap_update v d.
Proof.
  unfold ldap_update. apply map_eq. intros i.
  rewrite !lookup_insert. repeat case_decide; done.
Qed.

Lemma ldap_update_info v v0 : ldap_update v (ldap_info v0) = ldap_info v.
Proof.
  unfold ldap_update, ldap_info. apply map_eq. intros i.
  rewrite !lookup_insert. repeat case_decide; done.
Qed.

Lemma merge_ldap_division_expected cfg seen acc e :
  (∀ k, acc !! k = expected cfg seen k) →
  well_formed e = true →
  ∃ acc', merge_ldap_division acc e = Ok acc' ∧
          ∀ k, acc' !! k = expected cfg (seen ++ [e]) k.
Proof.
  intros Hacc Hwf. unfold well_formed in Hwf. unfold merge_ldap_division.
  destruct (div_machine_name e) as [name|] eqn:Hname; [|done].
  destruct (div_display_name e) as [display|] eqn:Hdisplay; [|done].
  assert (Hn : name_of e = Some name) by (unfold name_of; by rewrite Hname).
  simpl.
  assert (Hlast : ∀ k, last_label k (seen ++ [e]) =
                       if bool_decide (k = name) then Some display else last_label k seen).
  { intros k. rewrite last_label_app. simpl. rewrite Hn, Hdisplay.
    destruct (decide (k = name)) as [->|Hk].
    - by rewrite !bool_decide_eq_true_2.
    - rewrite !bool_decide_eq_false_2; [done|done|]. by intros [= ->]. }
  pose proof (Hacc name) as Hd. unfold expected in Hd.
  destruct (acc !! name) as [d|] eqn:Hlookup; eexists; (split; [done|]); intros k;
    unfold expected; rewrite Hlast;
    (destruct (decide (k = name)) as [->|Hk];
     [rewrite bool_decide_eq_true_2 by done; rewrite lookup_insert_eq
     |rewrite bool_decide_eq_false_2 by done; rewrite lookup_insert_ne by done;
      by rewrite Hacc]).
  - f_equal. destruct (last_label name seen) as [v0|].
    + injection Hd as ->. destruct (cfg !! name).
      * apply ldap_update_twice.
      * apply ldap_update_info.
    + destruct (cfg !! name); [by injection Hd as ->|done].
  - destruct (last_label name seen); [done|]. by destruct (cfg !! name).
Qed.

Lemma merge_ldap_divisions_expected cfg rest :
  ∀ seen acc,
    (∀ k, acc !! k = expected cfg seen k) →
    Forall (fun e => well_formed e = true) rest →
    ∃ m, merge_ldap_divisions rest acc = Ok m ∧
         ∀ k, m !! k = expected cfg (seen ++ rest) k.
Proof.
  induction rest as [|e rest IH]; intros seen acc Hacc Hwf.
  - exists acc. by rewrite app_nil_r.
  - inversion Hwf as [|? ? He Hrest]; subst.
    destruct (merge_ldap_division_expected cfg seen acc e Hacc He) as (acc'&Hstep&Hacc').
    destruct (IH (seen ++ [e]) acc' Hacc' Hrest) as (m&Hm&Hdesc).
    exists m. simpl. rewrite Hstep. simpl. split; [done|].
    intros k. specialize (Hdesc k). by rewrite <-app_assoc in Hdesc.
Qed.

Lemma merge_divisions_expected cfg l :
  Forall (fun e => well_formed e = true) l →
  ∃ m, merge_divisions cfg l = Ok m ∧ ∀ k, m !! k = expected cfg l k.
Proof.
  intros Hwf. unfold merge_divisions.
  apply (merge_ldap_divisions_expected cfg l [] (merge_config cfg)); [|done].
  intros k. by rewrite UtilsSpec.merge_config_lookup.
Qed.

Lemma last_label_absent k l : k ∉ names l → last_label k l = None.
Proof.
  induction l as [|e l IH]; simpl; [done|]. unfold names. simpl. intros Hk.
  destruct (name_of e) as [name|] eqn:Hname.
  - apply not_elem_of_cons in Hk as [Hne Hk]. rewrite (IH Hk).
    rewrite bool_decide_eq_false_2; [done|]. by intros [= ->].
  - rewrite (IH Hk). by rewrite bool_decide_eq_false_2.
Qed.

(** X1: on a directory answer whose entries all pass lines 53-54,
    [merge_divisions] leaves a machine name that no entry carries with the
    three fields of the first loop, and gives a machine name that entries
    carry the display name of the last of them: for a configured name the
    first loop's fields updated by lines 57-60, otherwise exactly the three
    fields of lines 62-66. *)
Theorem merge_divisions_entries cfg :
  (∀ l k,
     Forall (fun e => well_formed e = true) l →
     k ∉ names l →
     ∃ m, merge_divisions cfg l = Ok m ∧ m !! k = config_info <$> cfg !! k) ∧
  (∀ before e after k v,
     Forall (fun e => well_formed e = true) (before ++ e :: after) →
     div_machine_name e = Ok k →
     div_display_name e = Ok v →
     k ∉ names after →
     ∃ m, merge_divisions cfg (before ++ e :: after) = Ok m ∧
          m !! k = Some match cfg !! k with
                        | Some display_name => ldap_update v (config_info display_name)
                        | None => ldap_info v
                        end).
Proof.
  split.
  - intros l k Hwf Hk. destruct (merge_divisions_expected cfg l Hwf) as (m & Hm & Hexp).
    exists m. split; [done|]. rewrite Hexp. unfold expected.
    by rewrite (last_label_absent _ _ Hk).
  - intros before e after k v Hwf Hname Hdisplay Hk.
    destruct (merge_divisions_expected cfg _ Hwf) as (m & Hm & Hexp).
    exists m. split; [done|]. rewrite Hexp. unfold expected.
    rewrite last_label_app. simpl. rewrite (last_label_absent _ _ Hk).
    unfold name_of. rewrite Hname, Hdisplay. by rewrite bool_decide_eq_true_2.
Qed.

Lemma merge_divisions_entries_witness :
  ∃ m, merge_divisions example_config example_twice = Ok m ∧
       m !! "na" = Some match example_config !! "na" with
                        | Some display_name =>
                            ldap_update (PyStr "North America") (config_info display_name)
                        | None => ldap_info (PyStr "North America")
                        end.
Proof.
  apply (proj2 (merge_divisions_entries example_config)
           [ <["description" := [Utf8.encode "N. America"]]> (<["cn" := [Utf8.encode "na"]]> ∅);
             <["cn" := [Utf8.encode "apac"]]> ∅ ]
           (<["description" := [Utf8.encode "North America"]]> (<["cn" := [Utf8.encode "na"]]> ∅))
           [] "na" (PyStr "North America")).
  - repeat constructor.
  - vm_compute. reflexivity.
  - vm_compute. reflexivity.
  - by intros ?%elem_of_nil.
Defined.

(** X2: listing the same directory entries a second time changes nothing:
    [merge_divisions] of a well-formed answer followed by itself is
    [merge_divisions] of the answer. *)
Theorem merge_divisions_repeated cfg l :
  Forall (fun e => well_formed e = true) l →
  merge_divisions cfg (l ++ l) = merge_divisions cfg l.
Proof.
  intros Hwf.
  destruct (merge_divisions_expected cfg l Hwf) as (m & -> & Hexp).
  destruct (merge_divisions_expected cfg (l ++ l)) as (m2 & -> & Hexp2).
  { by apply Forall_app. }
  f_equal. apply map_eq. intros k. rewrite Hexp, Hexp2. unfold expected.
  rewrite last_label_app. by destruct (last_label k l).
Qed.

Lemma merge_divisions_repeated_witness :
  merge_divisions example_config (example_ldap ++ example_ldap)
  = merge_divisions example_config example_ldap.
Proof. apply merge_divisions_repeated. repeat constructor. Defined.

Lemma last_label_Some k l v :
  last_label k l = Some v →
  ∃ e, e ∈ l ∧ name_of e = Some k ∧ div_display_name e = Ok v.
Proof.
  induction l as [|e l IH]; simpl; [done|].
  destruct (last_label k l) as [v'|].
  - intros [= ->]. destruct (IH eq_refl) as (x & ? & ? & ?).
    exists x. split; [by right|done].
  - case_bool_decide as Hname; [|done].
    destruct (div_display_name e) as [v'|] eqn:Hd; [|done]. intros [= ->].
    exists e. split; [by left|done].
Qed.

Lemma last_label_unique k l e v :
  NoDup (names l) →
  e ∈ l → name_of e = Some k → div_display_name e = Ok v →
  last_label k l = Some v.
Proof.
  induction l as [|e0 l IH]; simpl; [by intros _ ?%elem_of_nil|].
  unfold names. simpl. intros Hnd [->|Hin]%elem_of_cons Hname Hd.
  - rewrite Hname in Hnd. apply NoDup_cons in Hnd as [Hk _].
    rewrite (last_label_absent _ _ Hk), Hd. by rewrite bool_decide_eq_true_2.
  - assert (Hnd' : NoDup (names l)).
    { destruct (name_of e0); [by apply NoDup_cons in Hnd as [_ ?]|done]. }
    by rewrite (IH Hnd' Hin Hname Hd).
Qed.

(** X3: when the machine names of a well-formed directory answer are all
    different, the order of its entries does not matter to
    [merge_divisions]. *)
Theorem merge_divisions_order cfg l l' :
  Forall (fun e => well_formed e = true) l →
  NoDup (names l) →
  l ≡ₚ l' →
  merge_divisions cfg l' = merge_divisions cfg l.
Proof.
  intros Hwf Hnd Hperm.
  assert (Hwf' : Forall (fun e => well_formed e = true) l') by (by rewrite <-Hperm).
  assert (Hnd' : NoDup (names l')) by (unfold names; by rewrite <-Hperm).
  destruct (merge_divisions_expected cfg l Hwf) as (m & -> & Hexp).
  destruct (merge_divisions_expected cfg l' Hwf') as (m' & -> & Hexp').
  f_equal. apply map_eq. intros k. rewrite Hexp, Hexp'. unfold expected.
  assert (Heq : last_label k l' = last_label k l); [|by rewrite Heq].
  destruct (last_label k l) as [v|] eqn:Hl.
  - apply last_label_Some in Hl as (e & Hin & Hname & Hd).
    apply (last_label_unique k l' e v); [done| |done..]. by rewrite <-Hperm.
  - destruct (last_label k l') as [v|] eqn:Hl'; [|done].
    apply last_label_Some in Hl' as (e & Hin & Hname & Hd).
    rewrite <-Hperm in Hin.
    by rewrite (last_label_unique k l e v Hnd Hin Hname Hd) in Hl.
Qed.

Lemma merge_divisions_order_witness :
  merge_divisions example_config (reverse example_ldap)
  = merge_divisions example_config example_ldap.
Proof.
  apply merge_divisions_order.
  - repeat constructor.
  - vm_compute. repeat constructor; intros H;
      repeat (apply elem_of_cons in H as [H|H]; [discriminate|]);
      by apply elem_of_nil in H.
  - by rewrite reverse_Permutation.
Defined.


Lemma merge_ldap_divisions_app l1 l2 acc :
  merge_ldap_divisions (l1 ++ l2) acc =
  rbind (merge_ldap_divisions l1 acc) (merge_ldap_divisions l2).
Proof.
  revert acc. induction l1 as [|e l1 IH]; intros acc; simpl; [done|].
  destruct (merge_ldap_division acc e); simpl; [apply IH|done].
Qed.

Lemma merge_divisions_raise cfg good bad rest e :
  Forall (fun e => well_formed e = true) good →
  (∀ acc, merge_ldap_division acc bad = Raise e) →
  merge_divisions cfg (good ++ bad :: rest) = Raise e.
Proof.
  intros Hwf Hbad. unfold merge_divisions. rewrite merge_ldap_divisions_app.
  destruct (merge_divisions_expected cfg good Hwf) as (m & Hm & _).
  unfold merge_divisions in Hm. rewrite Hm. simpl. by rewrite Hbad.
Qed.

(** X4: [merge_divisions] raises at the first directory entry on which lines
    53-54 raise, whatever follows it: [KeyError] for an entry without [cn],
    [IndexError] for an empty [cn], [UnicodeDecodeError] for a first [cn]
    value that is not UTF-8, and, the [cn] being fine, for a first
    description that is not UTF-8. *)
Theorem merge_divisions_malformed cfg good bad rest :
  Forall (fun e => well_formed e = true) good →
  (bad !! "cn" = None →
   merge_divisions cfg (good ++ bad :: rest) = Raise KeyError) ∧
  (bad !! "cn" = Some [] →
   merge_divisions cfg (good ++ bad :: rest) = Raise IndexError) ∧
  (∀ b bs, bad !! "cn" = Some (b :: bs) → Utf8.valid b = false →
           merge_divisions cfg (good ++ bad :: rest) = Raise UnicodeDecodeError) ∧
  (∀ b bs d ds,
     bad !! "cn" = Some (b :: bs) → Utf8.valid b = true →
     bad !! "description" = Some (d :: ds) → Utf8.valid d = false →
     merge_divisions cfg (good ++ bad :: rest) = Raise UnicodeDecodeError).
Proof.
  intros Hwf. split_and!.
  - intros Hcn. apply merge_divisions_raise; [done|]. intros acc.
    unfold merge_ldap_division, div_machine_name, getitem. by rewrite Hcn.
  - intros Hcn. apply merge_divisions_raise; [done|]. intros acc.
    unfold merge_ldap_division, div_machine_name, getitem. by rewrite Hcn.
  - intros b bs Hcn Hb. apply merge_divisions_raise; [done|]. intros acc.
    unfold merge_ldap_division, div_machine_name, getitem, Utf8.decode.
    rewrite Hcn. simpl. by rewrite Hb.
  - intros b bs d ds Hcn Hb Hdesc Hd. apply merge_divisions_raise; [done|]. intros acc.
    unfold merge_ldap_division, div_machine_name, div_display_name, getitem, Utf8.decode.
    rewrite Hcn, Hdesc. simpl. by rewrite Hb, Hd.
Qed.

Lemma merge_divisions_malformed_witness :
  merge_divisions example_config (example_ldap ++ example_no_cn :: example_twice)
  = Raise KeyError.
Proof.
  apply (proj1 (merge_divisions_malformed example_config example_ldap example_no_cn
                  example_twice ltac:(repeat constructor))).
  vm_compute. reflexivity.
Defined.

End UtilsMore.

(** ** MembershipCascade and TeamDerivationEngine: failures on the way *)

Section DirectoryFailures.
Context {D : Type} (edap : Edap D) (ser : Serializers) (view : View D).

(** X5: [get_everybody_team] creates the team only when its lookup raises
    [ObjectDoesNotExist]. A lookup that answers is the only call; any other
    exception of the lookup is raised as it is, after that one call; and once
    the team is being created nothing is caught any more: an exception of
    the creation, or of the second lookup, is raised. *)
Theorem get_everybody_team_cases w :
  (∀ raw d1,
     get_team edap EVERYBODY_MACHINE_NAME (dir w) = (Ok raw, d1) →
     LdapTeam.get_everybody_team edap ser w =
       (Ok (edap_team_schema ser raw),
        {| dir := d1; log := log w ++ [GetTeam EVERYBODY_MACHINE_NAME] |})) ∧
  (∀ e d1,
     get_team edap EVERYBODY_MACHINE_NAME (dir w) = (Raise e, d1) →
     e ≠ ObjectDoesNotExist →
     LdapTeam.get_everybody_team edap ser w =
       (Raise e, {| dir := d1; log := log w ++ [GetTeam EVERYBODY_MACHINE_NAME] |})) ∧
  (∀ d1 e d2,
     get_team edap EVERYBODY_MACHINE_NAME (dir w) = (Raise ObjectDoesNotExist, d1) →
     create_team edap EVERYBODY_MACHINE_NAME (PyStr EVERYBODY_DISPLAY_NAME) d1
       = (Raise e, d2) →
     LdapTeam.get_everybody_team edap ser w =
       (Raise e,
        {| dir := d2;
           log := log w ++ [GetTeam EVERYBODY_MACHINE_NAME;
                            CreateTeam EVERYBODY_MACHINE_NAME
                                       (PyStr EVERYBODY_DISPLAY_NAME)] |})) ∧
  (∀ d1 d2 r d3,
     get_team edap EVERYBODY_MACHINE_NAME (dir w) = (Raise ObjectDoesNotExist, d1) →
     create_team edap EVERYBODY_MACHINE_NAME (PyStr EVERYBODY_DISPLAY_NAME) d1
       = (Ok tt, d2) →
     get_team edap EVERYBODY_MACHINE_NAME d2 = (r, d3) →
     LdapTeam.get_everybody_team edap ser w =
       (match r with
        | Ok raw => Ok (edap_team_schema ser raw)
        | Raise e => Raise e
        end,
        {| dir := d3;
           log := log w ++ [GetTeam EVERYBODY_MACHINE_NAME;
                            CreateTeam EVERYBODY_MACHINE_NAME
                                       (PyStr EVERYBODY_DISPLAY_NAME);
                            GetTeam EVERYBODY_MACHINE_NAME] |})).
Proof.
  unfold LdapTeam.get_everybody_team. split_and!.
  - intros raw d1 Hget. rewrite bind_run. unfold try_except.
    by rewrite (invoke_run _ _ _ _ _ Hget).
  - intros e d1 Hget He. rewrite bind_run. unfold try_except.
    rewrite (invoke_run _ _ _ _ _ Hget). by rewrite decide_False.
  - intros d1 e d2 Hget Hcreate. rewrite bind_run. unfold try_except.
    rewrite (invoke_run _ _ _ _ _ Hget). rewrite decide_True by done.
    run_call Hcreate. by rewrite <-app_assoc.
  - intros d1 d2 r d3 Hget Hcreate Hget2. rewrite bind_run. unfold try_except.
    rewrite (invoke_run _ _ _ _ _ Hget). rewrite decide_True by done.
    run_call Hcreate. rewrite (invoke_at _ _ _ _ _ _ Hget2).
    rewrite <-!app_assoc. by destruct r.
Qed.

(** X6: a [create] that fails on the way leaves the user partly provisioned.
    When the directory rejects the user record, nothing else is called. When
    it rejects the membership call for one of the groups, that rejection is
    raised: the groups before it have been joined, the groups after it are
    not attempted, and neither the fetch of the ["everybody"] team nor the
    membership call for it is issued. *)
Theorem create_partial self password w :
  (∀ e d1,
     add_user edap (uid self) (given_name self) (surname self) password (dir w)
       = (Raise e, d1) →
     LdapUser.create edap ser self password w =
       (Raise e,
        {| dir := d1;
           log := log w ++
                  [AddUser (uid self) (given_name self) (surname self) password] |})) ∧
  (∀ gs d1 e d2,
     groups self = Some gs →
     add_user edap (uid self) (given_name self) (surname self) password (dir w)
       = (Ok tt, d1) →
     run_ops (make_uid_member_of edap (uid self)) gs d1 = (Raise e, d2) →
     ∃ before rejected after,
       gs = before ++ rejected :: after ∧
       LdapUser.create edap ser self password w =
         (Raise e,
          {| dir := d2;
             log := log w ++
                    AddUser (uid self) (given_name self) (surname self) password ::
                    map (MakeUidMemberOf (uid self)) (before ++ [rejected]) |})).
Proof.
  unfold LdapUser.create. split.
  - intros e d1 Hadd. by run_call Hadd.
  - intros gs d1 e d2 Hgs Hadd Hops. run_call Hadd. rewrite Hgs.
    rewrite bind_run. cbn [iter mret M_ret]. cbv beta iota.
    rewrite bind_run.
    rewrite (for_each_invoke (MakeUidMemberOf (uid self))
               (make_uid_member_of edap (uid self))).
    cbn [dir log]. rewrite Hops. cbn [fst snd].
    apply run_ops_raise_attempted in Hops
      as (before & rejected & after & d0 & -> & Ha & _ & _).
    exists before, rejected, after. split; [done|].
    by rewrite Ha, <-app_assoc.
Qed.

(** X7: [add_to_team] does not undo what it has done. When the directory
    has accepted the team call and named the owning pair, and then rejects
    the franchise call, that rejection is raised, the division call is not
    issued, and the user stays a member of the team. *)
Theorem add_to_team_franchise_rejected self t w d1 rf rd d2 e d3 :
  let u := uid self in
  let f := machine_name (edap_franchise_schema ser rf) in
  MembershipLaws edap view →
  make_user_member_of_team edap u t (dir w) = (Ok tt, d1) →
  get_team_component_units edap t d1 = (Ok (Some (rf, rd)), d2) →
  make_user_member_of_franchise edap u f d2 = (Raise e, d3) →
  LdapUser.add_to_team edap ser self t w =
    (Raise e,
     {| dir := d3;
        log := log w ++ [MakeUserMemberOfTeam u t; GetTeamComponentUnits t;
                         MakeUserMemberOfFranchise u f] |}) ∧
  member view d3 u (TeamGroup t).
Proof.
  intros u f laws Hteam Hunits Hfranchise. split.
  - unfold LdapUser.add_to_team.
    run_call Hteam. run_call Hunits. rewrite bind_run. cbn [unpack mret M_ret].
    cbv beta iota. run_call Hfranchise. by rewrite <-!app_assoc.
  - eapply franchise_keeps_members; [done..|].
    eapply lookup_keeps_members; [done..|].
    by eapply team_joined.
Qed.

(** X8: [Division.create] registers the division, with its display name,
    before it derives any team: a rejected registration is raised with no
    other call issued, and an accepted one is followed by exactly what
    [create_teams] does on the directory so reached. *)
Theorem division_create_order self w :
  (∀ e d1,
     create_division edap (machine_name self) (display_name self) (dir w) = (Raise e, d1) →
     Division.create edap ser self w =
       (Raise e,
        {| dir := d1;
           log := log w ++ [CreateDivision (machine_name self) (display_name self)] |})) ∧
  (∀ d1 raw d2,
     create_division edap (machine_name self) (display_name self) (dir w) = (Ok tt, d1) →
     get_franchises edap d1 = (Ok raw, d2) →
     ∃ r w',
       Division.create edap ser self w = (r, w') ∧
       ∃ requested,
         requested `prefix_of` edap_franchises_schema ser raw ∧
         (r = Ok tt → requested = edap_franchises_schema ser raw) ∧
         log w' = log w ++
                  [CreateDivision (machine_name self) (display_name self); GetFranchises] ++
                  division_teams edap self requested).
Proof.
  unfold Division.create. split.
  - intros e d1 Hcreate. by run_call Hcreate.
  - intros d1 raw d2 Hcreate Hget. run_call Hcreate.
    rewrite (division_create_teams_run edap ser self _ raw d2) by done.
    cbv zeta. cbn [dir log]. eexists _, _. split; [reflexivity|].
    exists (attempted (division_team_op edap self) (edap_franchises_schema ser raw) d2).
    split; [apply attempted_prefix|]. split.
    + destruct (run_ops _ _ d2) as [[[]|e] d3] eqn:Hops; [|done].
      intros _. by eapply run_ops_ok_attempted.
    + by rewrite <-!app_assoc.
Qed.

(** X9: [LdapFranchise.create] stops at the first call the directory
    rejects: a rejected franchise is followed by no other call; a franchise
    that was created but whose label cannot be read leaves the franchise in
    the directory without any team having been requested. *)
Theorem franchise_create_failures self w :
  (∀ e d1,
     create_franchise edap (machine_name self) (dir w) = (Raise e, d1) →
     LdapFranchise.create edap ser self w =
       (Raise e,
        {| dir := d1; log := log w ++ [CreateFranchise (machine_name self)] |})) ∧
  (∀ d1 e d2,
     create_franchise edap (machine_name self) (dir w) = (Ok tt, d1) →
     label_franchise edap (machine_name self) d1 = (Raise e, d2) →
     LdapFranchise.create edap ser self w =
       (Raise e,
        {| dir := d2;
           log := log w ++ [CreateFranchise (machine_name self);
                            LabelFranchise (machine_name self)] |})).
Proof.
  unfold LdapFranchise.create. split.
  - intros e d1 Hcreate. by run_call Hcreate.
  - intros d1 e d2 Hcreate Hlabel. run_call Hcreate. run_call Hlabel.
    by rewrite <-app_assoc.
Qed.

End DirectoryFailures.

Module FailureScenarios.
Import Mock MockFaults.

Lemma faulty_membership_laws fails : MembershipLaws (faulty fails) view.
Proof.
  pose proof MockFacts.membership_laws as laws.
  constructor; simpl.
  - intros u t d d'. destruct (fails _); [done|]. apply (team_joined _ _ laws).
  - intros u f d d'. destruct (fails _); [done|]. apply (franchise_joined _ _ laws).
  - intros u v d d'. destruct (fails _); [done|]. apply (division_joined _ _ laws).
  - intros t d r d'. destruct (fails _); [by intros [= <- <-]|].
    apply (lookup_keeps_members _ _ laws).
  - intros u f d r d'. destruct (fails _); [by intros [= <- <-]|].
    apply (franchise_keeps_members _ _ laws).
  - intros u v d r d'. destruct (fails _); [by intros [= <- <-]|].
    apply (division_keeps_members _ _ laws).
Qed.

(** The four ways of [get_everybody_team]: the team is there; the directory
    is down; the team is missing and the directory accepts no write; the team
    is missing and gets created. *)
Lemma get_everybody_team_cases_witness :
  LdapTeam.get_everybody_team edap ser (start east_ops_sales) =
    (Ok (edap_team_schema ser (entry "everybody" (PyStr "Everybody"))),
     {| dir := east_ops_sales; log := [] ++ [GetTeam EVERYBODY_MACHINE_NAME] |}) ∧
  LdapTeam.get_everybody_team down ser (start east_ops_sales) =
    (Raise (GatewayError "unavailable"),
     {| dir := east_ops_sales; log := [] ++ [GetTeam EVERYBODY_MACHINE_NAME] |}) ∧
  LdapTeam.get_everybody_team read_only ser (start divisions_only) =
    (Raise (GatewayError "unavailable"),
     {| dir := divisions_only;
        log := [] ++ [GetTeam EVERYBODY_MACHINE_NAME;
                      CreateTeam EVERYBODY_MACHINE_NAME (PyStr EVERYBODY_DISPLAY_NAME)] |}) ∧
  LdapTeam.get_everybody_team edap ser (start divisions_only) =
    (Ok (edap_team_schema ser (entry "everybody" (PyStr "Everybody"))),
     {| dir := with_teams (fun _ => [("everybody", PyStr "Everybody")]) divisions_only;
        log := [] ++ [GetTeam EVERYBODY_MACHINE_NAME;
                      CreateTeam EVERYBODY_MACHINE_NAME (PyStr EVERYBODY_DISPLAY_NAME);
                      GetTeam EVERYBODY_MACHINE_NAME] |}).
Proof.
  split_and!.
  - apply (proj1 (get_everybody_team_cases edap ser (start east_ops_sales))).
    vm_compute. reflexivity.
  - apply (proj1 (proj2 (get_everybody_team_cases down ser (start east_ops_sales))));
      [vm_compute; reflexivity | discriminate].
  - apply (proj1 (proj2 (proj2
             (get_everybody_team_cases read_only ser (start divisions_only))))
             divisions_only);
      vm_compute; reflexivity.
  - apply (proj2 (proj2 (proj2
             (get_everybody_team_cases edap ser (start divisions_only))))
             divisions_only
             (with_teams (fun _ => [("everybody", PyStr "Everybody")]) divisions_only)
             (Ok (entry "everybody" (PyStr "Everybody"))));
      vm_compute; reflexivity.
Defined.

(** Provisioning [alice] for three groups when the directory is down, and
    when it rejects the second group. *)
Lemma create_partial_witness :
  LdapUser.create down ser (alice (Some ["staff"])) "secret" (start east_ops_sales) =
    (Raise (GatewayError "unavailable"),
     {| dir := east_ops_sales;
        log := [] ++ [AddUser "alice" "Alice" (Some "Liddell") "secret"] |}) ∧
  ∃ before rejected after,
    ["staff"; "board"; "press"] = before ++ rejected :: after ∧
    LdapUser.create (rejects (MakeUidMemberOf "alice" "board")) ser
      (alice (Some ["staff"; "board"; "press"])) "secret" (start east_ops_sales) =
      (Raise (GatewayError "unavailable"),
       {| dir := Directory ["alice"] (franchises east_ops_sales) (divisions east_ops_sales)
                   (teams east_ops_sales) [("alice", AnyGroup "staff")];
          log := [] ++ AddUser "alice" "Alice" (Some "Liddell") "secret" ::
                 map (MakeUidMemberOf "alice") (before ++ [rejected]) |}).
Proof.
  split.
  - apply (proj1 (create_partial down ser (alice (Some ["staff"])) "secret"
                    (start east_ops_sales))).
    vm_compute. reflexivity.
  - apply (proj2 (create_partial (rejects (MakeUidMemberOf "alice" "board")) ser
                    (alice (Some ["staff"; "board"; "press"])) "secret"
                    (start east_ops_sales))
             ["staff"; "board"; "press"]
             (with_users (fun _ => ["alice"]) east_ops_sales)
             (GatewayError "unavailable")
             (Directory ["alice"] (franchises east_ops_sales) (divisions east_ops_sales)
                (teams east_ops_sales) [("alice", AnyGroup "staff")]));
      vm_compute; reflexivity.
Defined.

Lemma add_to_team_franchise_rejected_witness :
  LdapUser.add_to_team (rejects (MakeUserMemberOfFranchise "alice" "east")) ser
    (alice None) "east-ops" (start east_derived) =
    (Raise (GatewayError "unavailable"),
     {| dir := with_members (fun _ => [("alice", TeamGroup "east-ops")]) east_derived;
        log := [] ++ [MakeUserMemberOfTeam "alice" "east-ops";
                      GetTeamComponentUnits "east-ops";
                      MakeUserMemberOfFranchise "alice" "east"] |}) ∧
  member view (with_members (fun _ => [("alice", TeamGroup "east-ops")]) east_derived)
    "alice" (TeamGroup "east-ops").
Proof.
  apply (add_to_team_franchise_rejected
           (rejects (MakeUserMemberOfFranchise "alice" "east")) ser view
           (alice None) "east-ops" (start east_derived)
           (with_members (fun _ => [("alice", TeamGroup "east-ops")]) east_derived)
           (entry "east" (PyStr "East")) (entry "ops" (PyStr "Operations"))
           (with_members (fun _ => [("alice", TeamGroup "east-ops")]) east_derived));
    [apply faulty_membership_laws | vm_compute; reflexivity ..].
Defined.

(** Creating division [legal] when the directory is down, and when it is up. *)
Lemma division_create_order_witness :
  Division.create down ser legal (start east_derived) =
    (Raise (GatewayError "unavailable"),
     {| dir := east_derived;
        log := [] ++ [CreateDivision "legal" (PyStr "Legal")] |}) ∧
  ∃ r w',
    Division.create edap ser legal (start east_derived) = (r, w') ∧
    ∃ requested,
      requested `prefix_of`
        edap_franchises_schema ser
          (map (fun p => entry (fst p) (PyStr (snd p))) (franchises east_derived)) ∧
      (r = Ok tt →
       requested = edap_franchises_schema ser
                     (map (fun p => entry (fst p) (PyStr (snd p))) (franchises east_derived))) ∧
      log w' = [] ++ [CreateDivision "legal" (PyStr "Legal"); GetFranchises] ++
               division_teams edap legal requested.
Proof.
  split.
  - apply (proj1 (division_create_order down ser legal (start east_derived))).
    vm_compute. reflexivity.
  - eapply (proj2 (division_create_order edap ser legal (start east_derived))
              (with_divisions (fun l => l ++ [("legal", PyStr "Legal")]) east_derived));
      vm_compute; reflexivity.
Defined.

(** Creating franchise [east] when the directory is down, and when the label
    cannot be read. *)
Lemma franchise_create_failures_witness :
  LdapFranchise.create down ser eastern_region (start divisions_only) =
    (Raise (GatewayError "unavailable"),
     {| dir := divisions_only; log := [] ++ [CreateFranchise "east"] |}) ∧
  LdapFranchise.create (rejects (LabelFranchise "east")) ser eastern_region
    (start divisions_only) =
    (Raise (GatewayError "unavailable"),
     {| dir := with_franchises (fun _ => [("east", "east")]) divisions_only;
        log := [] ++ [CreateFranchise "east"; LabelFranchise "east"] |}).
Proof.
  split.
  - apply (proj1 (franchise_create_failures down ser eastern_region (start divisions_only))).
    vm_compute. reflexivity.
  - apply (proj2 (franchise_create_failures (rejects (LabelFranchise "east")) ser
                    eastern_region (start divisions_only))
             (with_franchises (fun _ => [("east", "east")]) divisions_only));
      vm_compute; reflexivity.
Defined.

End FailureScenarios.

(** ** FolderProvisioner: replies that are not looked at, and replies without an id *)

Section FolderFailures.
Context {N : Type} (nxcl : Nextcloud N).

Ltac fcall H :=
  rewrite ?bind_run; rewrite (ninvoke_at _ _ _ _ _ _ _ H); cbv beta iota.

(** X10: the replies to the three calls of [create_main_folder] are not
    looked at. When the container has to be created and all calls answer
    (the two creations with an id), [create_folder] returns the conjunction
    of the [is_ok] of the franchise folder's creation and of its two grants,
    whatever the [is_ok] of the container's creation, grant and permission. *)
Theorem create_folder_ignores_container_replies
        name n l n0 m1 n1 mid m2 n2 m3 n3 s1 n4 fid s2 n5 s3 n6 :
  get_group_folder nxcl Franchise.GROUP_FOLDER n = (Ok None, n0) →
  create_group_folder nxcl Franchise.GROUP_FOLDER n0 = (Ok m1, n1) →
  data_id m1 = Ok mid →
  grant_access_to_group_folder nxcl mid EVERYBODY_MACHINE_NAME n1 = (Ok m2, n2) →
  set_permissions_to_group_folder nxcl mid EVERYBODY_MACHINE_NAME (READ_value nxcl) n2
    = (Ok m3, n3) →
  create_group_folder nxcl (Franchise.join_path Franchise.GROUP_FOLDER name) n3
    = (Ok s1, n4) →
  data_id s1 = Ok fid →
  grant_access_to_group_folder nxcl fid name n4 = (Ok s2, n5) →
  grant_access_to_group_folder nxcl fid EVERYBODY_MACHINE_NAME n5 = (Ok s3, n6) →
  Franchise.create_folder nxcl name {| nxc := n; nlog := l |} =
    (Ok (is_ok s1 && is_ok s2 && is_ok s3),
     {| nxc := n6;
        nlog := l ++ (GetGroupFolder Franchise.GROUP_FOLDER, Some false) ::
                main_events nxcl mid (is_ok m1) (is_ok m2) (is_ok m3) ++
                sub_events name fid (is_ok s1) (is_ok s2) (is_ok s3) |}).
Proof.
  intros Hget Hm1 Hmid Hm2 Hm3 Hs1 Hfid Hs2 Hs3.
  unfold Franchise.create_folder, Franchise.create_main_folder.
  fcall Hget. cbn [bool_decide decide_rel]. rewrite decide_True by done.
  fcall Hm1. rewrite ?bind_run. unfold lift at 1. rewrite Hmid. cbv beta iota.
  fcall Hm2. fcall Hm3. rewrite ?bind_run. cbn [mret M_ret]. cbv beta iota.
  fcall Hs1. rewrite ?bind_run. unfold lift at 1. rewrite Hfid. cbv beta iota.
  fcall Hs2. rewrite ?bind_run. unfold lift at 1. cbv beta iota.
  fcall Hs3. cbn [mret M_ret]. rewrite <-!app_assoc. reflexivity.
Qed.

(** X11: a folder creation whose reply carries no id makes [create_folder]
    raise instead of reporting failure. With the container found, the run
    ends after the creation call: [TypeError] when the reply has no data,
    [KeyError] when its data has no ["id"], and no grant is issued. *)
Theorem create_folder_reply_without_id name n l f n0 s1 n1 :
  get_group_folder nxcl Franchise.GROUP_FOLDER n = (Ok (Some f), n0) →
  create_group_folder nxcl (Franchise.join_path Franchise.GROUP_FOLDER name) n0
    = (Ok s1, n1) →
  (∀ d, data s1 = Some d → d !! "id" = None) →
  Franchise.create_folder nxcl name {| nxc := n; nlog := l |} =
    (Raise (match data s1 with Some _ => KeyError | None => TypeError end),
     {| nxc := n1;
        nlog := l ++ [(GetGroupFolder Franchise.GROUP_FOLDER, Some true);
                      (CreateGroupFolder (Franchise.join_path Franchise.GROUP_FOLDER name),
                       Some (is_ok s1))] |}).
Proof.
  intros Hget Hs1 Hid.
  assert (Hraise : data_id s1 = Raise (match data s1 with Some _ => KeyError | None => TypeError end)).
  { unfold data_id, Utils.getitem. destruct (data s1) as [d|]; [|done].
    by rewrite (Hid d eq_refl). }
  unfold Franchise.create_folder.
  fcall Hget. rewrite decide_False by done.
  rewrite ?bind_run. cbn [mret M_ret]. cbv beta iota.
  fcall Hs1. rewrite ?bind_run. unfold lift at 1. rewrite Hraise.
  rewrite <-!app_assoc. reflexivity.
Qed.

End FolderFailures.

Module FolderFailureScenarios.
Import Mock MockFolderFaults.

(** The first franchise folder on a service that grants nothing on the
    container: the call reports success. *)
Lemma create_folder_ignores_container_replies_witness :
  Franchise.create_folder locked_container "east" (nstart []) =
    (Ok (true && true && true),
     {| nxc := [("Franchises", 1%Z); ("Franchises/east", 2%Z)];
        nlog := [] ++ (GetGroupFolder Franchise.GROUP_FOLDER, Some false) ::
                main_events locked_container 1 true false false ++
                sub_events "east" 2 true true true |}).
Proof.
  apply (create_folder_ignores_container_replies locked_container "east" [] [] []
           (granted 1) [("Franchises", 1%Z)] 1 refused [("Franchises", 1%Z)]
           refused [("Franchises", 1%Z)]
           (granted 2) [("Franchises", 1%Z); ("Franchises/east", 2%Z)] 2
           (granted 2) [("Franchises", 1%Z); ("Franchises/east", 2%Z)]
           (granted 2));
    vm_compute; reflexivity.
Defined.

(** A franchise folder asked for a second time on the strict service. *)
Lemma create_folder_reply_without_id_witness :
  Franchise.create_folder strict "east"
    (nstart [("Franchises", 1%Z); ("Franchises/east", 2%Z)]) =
    (Raise TypeError,
     {| nxc := [("Franchises", 1%Z); ("Franchises/east", 2%Z)];
        nlog := [] ++ [(GetGroupFolder Franchise.GROUP_FOLDER, Some true);
                       (CreateGroupFolder
                          (Franchise.join_path Franchise.GROUP_FOLDER "east"),
                        Some false)] |}).
Proof.
  apply (create_folder_reply_without_id strict "east"
           [("Franchises", 1%Z); ("Franchises/east", 2%Z)] [] 1%Z
           [("Franchises", 1%Z); ("Franchises/east", 2%Z)] refused
           [("Franchises", 1%Z); ("Franchises/east", 2%Z)]);
    [vm_compute; reflexivity | vm_compute; reflexivity | by intros d [=]].
Defined.

End FolderFailureScenarios.

(** ** [utils.check_consistency] *)

Section ConsistencyProperties.
Import Consistency.
Context {D : Type} (edap : Edap D).

Lemma lookup_run name msg (w : world D) ws r d1 :
  get_team edap name (dir w) = (r, d1) →
  try_except
    (via_gateway (invoke (GetTeam name) (get_team edap name)) ;; mret tt)
    ObjectDoesNotExist (warning msg) {| gateway := w; warnings := ws |} =
  let reached := {| dir := d1; log := log w ++ [GetTeam name] |} in
  match r with
  | Ok _ => (Ok tt, {| gateway := reached; warnings := ws |})
  | Raise e =>
      if decide (e = ObjectDoesNotExist)
      then (Ok tt, {| gateway := reached; warnings := ws ++ [msg] |})
      else (Raise e, {| gateway := reached; warnings := ws |})
  end.
Proof.
  intros Hget. unfold try_except. rewrite bind_run. unfold via_gateway at 1.
  cbn [gateway warnings].
  rewrite (invoke_run _ _ _ _ _ Hget). destruct r as [raw|e]; [done|].
  by destruct (decide (e = ObjectDoesNotExist)).
Qed.

(** X12: [check_consistency] looks both distinguished teams up, in the order
    ["everybody"], ["international"], and issues no other call. When each
    lookup answers or raises [ObjectDoesNotExist] it returns, having logged
    one warning per missing team, in that order: a missing ["everybody"]
    does not keep ["international"] from being checked. Any other exception
    is raised at once: of the first lookup before the second is made, of the
    second after the warning for the first. *)
Theorem check_consistency_report w ws r1 d1 :
  get_team edap "everybody" (dir w) = (r1, d1) →
  (∀ r2 d2,
     get_team edap "international" d1 = (r2, d2) →
     answered_or_missing r1 → answered_or_missing r2 →
     check_consistency edap {| gateway := w; warnings := ws |} =
       (Ok tt,
        {| gateway := {| dir := d2;
                         log := log w ++ [GetTeam "everybody"; GetTeam "international"] |};
           warnings := ws ++ warned r1 "Edap Everybody team is missing" ++
                       warned r2 "Edap International team is missing" |})) ∧
  (∀ e, r1 = Raise e → e ≠ ObjectDoesNotExist →
        check_consistency edap {| gateway := w; warnings := ws |} =
          (Raise e,
           {| gateway := {| dir := d1; log := log w ++ [GetTeam "everybody"] |};
              warnings := ws |})) ∧
  (∀ e d2,
     get_team edap "international" d1 = (Raise e, d2) →
     answered_or_missing r1 → e ≠ ObjectDoesNotExist →
     check_consistency edap {| gateway := w; warnings := ws |} =
       (Raise e,
        {| gateway := {| dir := d2;
                         log := log w ++ [GetTeam "everybody"; GetTeam "international"] |};
           warnings := ws ++ warned r1 "Edap Everybody team is missing" |})).
Proof.
  intros Hget1. unfold check_consistency.
  rewrite bind_run, (lookup_run _ _ _ _ _ _ Hget1). cbv zeta.
  split_and!.
  - intros r2 d2 Hget2 H1 H2.
    assert (Hstep : ∀ ws',
      (try_except
         (via_gateway (invoke (GetTeam "international") (get_team edap "international")) ;;
          mret tt)
         ObjectDoesNotExist (warning "Edap International team is missing"))
        {| gateway := {| dir := d1; log := log w ++ [GetTeam "everybody"] |};
           warnings := ws' |} =
      (Ok tt,
       {| gateway := {| dir := d2;
                        log := log w ++ [GetTeam "everybody"; GetTeam "international"] |};
          warnings := ws' ++ warned r2 "Edap International team is missing" |})).
    { intros ws'. rewrite (lookup_run _ _ _ _ r2 d2) by done. cbv zeta.
      cbn [gateway warnings dir log]. rewrite <-app_assoc.
      destruct r2 as [raw|e]; simpl; [by rewrite app_nil_r|].
      by rewrite (H2 e eq_refl), decide_True. }
    destruct r1 as [raw|e]; simpl.
    + rewrite Hstep. done.
    + rewrite (H1 e eq_refl), decide_True by done. rewrite Hstep. by rewrite <-app_assoc.
  - intros e -> He. by rewrite decide_False.
  - intros e d2 Hget2 H1 He.
    assert (Hstep : ∀ ws',
      (try_except
         (via_gateway (invoke (GetTeam "international") (get_team edap "international")) ;;
          mret tt)
         ObjectDoesNotExist (warning "Edap International team is missing"))
        {| gateway := {| dir := d1; log := log w ++ [GetTeam "everybody"] |};
           warnings := ws' |} =
      (Raise e,
       {| gateway := {| dir := d2;
                        log := log w ++ [GetTeam "everybody"; GetTeam "international"] |};
          warnings := ws' |})).
    { intros ws'. rewrite (lookup_run _ _ _ _ (Raise e) d2) by done. cbv zeta.
      cbn [gateway warnings dir log]. rewrite <-app_assoc. by rewrite decide_False. }
    destruct r1 as [raw|e1]; simpl.
    + rewrite Hstep. by rewrite app_nil_r.
    + rewrite (H1 e1 eq_refl), decide_True by done. by rewrite Hstep.
Qed.

End ConsistencyProperties.

Module ConsistencyScenarios.
Import Mock MockFaults Consistency.

(** On the directory of the running example ["everybody"] is there and
    ["international"] is not; and a directory that is down. *)
Lemma check_consistency_report_witness :
  check_consistency edap {| gateway := start east_ops_sales; warnings := [] |} =
    (Ok tt,
     {| gateway := {| dir := east_ops_sales;
                      log := [] ++ [GetTeam "everybody"; GetTeam "international"] |};
        warnings := [] ++ warned (Ok (entry "everybody" (PyStr "Everybody")))
                             "Edap Everybody team is missing" ++
                    warned (@Raise Utils.ldap_entry ObjectDoesNotExist)
                           "Edap International team is missing" |}) ∧
  check_consistency down {| gateway := start east_ops_sales; warnings := [] |} =
    (Raise (GatewayError "unavailable"),
     {| gateway := {| dir := east_ops_sales; log := [] ++ [GetTeam "everybody"] |};
        warnings := [] |}) ∧
  check_consistency (rejects (GetTeam "international"))
    {| gateway := start divisions_only; warnings := [] |} =
    (Raise (GatewayError "unavailable"),
     {| gateway := {| dir := divisions_only;
                      log := [] ++ [GetTeam "everybody"; GetTeam "international"] |};
        warnings := [] ++ warned (@Raise Utils.ldap_entry ObjectDoesNotExist)
                             "Edap Everybody team is missing" |}).
Proof.
  split_and!.
  - apply (proj1 (check_consistency_report edap (start east_ops_sales) []
                    (Ok (entry "everybody" (PyStr "Everybody"))) east_ops_sales
                    ltac:(vm_compute; reflexivity))).
    + vm_compute. reflexivity.
    + intros e. discriminate.
    + by intros e [= <-].
  - apply (proj1 (proj2 (check_consistency_report down (start east_ops_sales) []
                           (Raise (GatewayError "unavailable")) east_ops_sales
                           ltac:(vm_compute; reflexivity)))).
    + reflexivity.
    + discriminate.
  - apply (proj2 (proj2 (check_consistency_report (rejects (GetTeam "international"))
                           (start divisions_only) []
                           (Raise ObjectDoesNotExist) divisions_only
                           ltac:(vm_compute; reflexivity)))).
    + vm_compute. reflexivity.
    + by intros e [= <-].
    + discriminate.
Defined.

End ConsistencyScenarios.

(** ** [utils.get_edap] *)

Section GetEdapProperties.
Import GetEdap.
Context {H : Type}
        (Edap_new : string → string → string → string → result H)
        (config : gmap string string).

Lemma lift_ok_inv {S A} (r : result A) (s s' : S) a :
  lift r s = (Ok a, s') → r = Ok a ∧ s' = s.
Proof. unfold lift. by intros [= -> ->]. Qed.

(** X13: [get_edap] keeps the handle in the request context. A call that
    returns has left its handle in [g] and has run the constructor at most
    once; when [g] held a handle already, that handle is returned and nothing
    changes; and a second call returns the very same handle without
    constructing anything. *)
Theorem get_edap_memo s handle s' :
  get_edap Edap_new config s = (Ok handle, s') →
  g s' !! "edap" = Some handle ∧
  get_edap Edap_new config s' = (Ok handle, s') ∧
  (∀ held, g s !! "edap" = Some held → held = handle ∧ s' = s) ∧
  (g s !! "edap" = None →
   ∃ hostname user password domain,
     constructed s' = constructed s ++ [(hostname, user, password, domain)] ∧
     Edap_new hostname user password domain = Ok handle).
Proof.
  unfold get_edap at 1. destruct (g s !! "edap") as [held|] eqn:Hg.
  - intros [= -> ->]. split; [done|]. split.
    + unfold get_edap. by rewrite Hg.
    + split; [by intros ? [= ->]|done].
  - intros (hostname & s1 & [_ ->]%lift_ok_inv & Hrun)%bind_ok_inv.
    apply bind_ok_inv in Hrun as (user & s1 & [_ ->]%lift_ok_inv & Hrun).
    apply bind_ok_inv in Hrun as (password & s1 & [_ ->]%lift_ok_inv & Hrun).
    apply bind_ok_inv in Hrun as (domain & s1 & [_ ->]%lift_ok_inv & Hrun).
    apply bind_ok_inv in Hrun as (h & s1 & Hnew & Hset).
    unfold construct in Hnew. injection Hnew as Hnew <-.
    unfold set_edap in Hset. simpl in Hset. injection Hset as -> <-.
    simpl. split; [by rewrite lookup_insert_eq|]. split.
    + unfold get_edap. simpl. by rewrite lookup_insert_eq.
    + split; [done|]. intros _. by exists hostname, user, password, domain.
Qed.

(** X14: a [get_edap] that fails leaves [g] without a handle, so that the
    next call tries again. When one of the four settings is missing it
    raises [KeyError] before the constructor is run; when the settings are
    there and the constructor raises, that exception is raised, after this
    one constructor call. *)
Theorem get_edap_failures s :
  g s !! "edap" = None →
  (∀ key,
     key ∈ ["EDAP_HOSTNAME"; "EDAP_USER"; "EDAP_PASSWORD"; "EDAP_DOMAIN"] →
     config !! key = None →
     get_edap Edap_new config s = (Raise KeyError, s)) ∧
  (∀ hostname user password domain e,
     config !! "EDAP_HOSTNAME" = Some hostname →
     config !! "EDAP_USER" = Some user →
     config !! "EDAP_PASSWORD" = Some password →
     config !! "EDAP_DOMAIN" = Some domain →
     Edap_new hostname user password domain = Raise e →
     get_edap Edap_new config s =
       (Raise e,
        {| g := g s;
           constructed := constructed s ++ [(hostname, user, password, domain)] |})).
Proof.
  intros Hg. unfold get_edap. rewrite Hg. split.
  - intros key Hkey Hmissing. unfold lift, Utils.getitem.
    destruct (config !! "EDAP_HOSTNAME") eqn:H1; [|done].
    destruct (config !! "EDAP_USER") eqn:H2; [|done].
    destruct (config !! "EDAP_PASSWORD") eqn:H3; [|done].
    destruct (config !! "EDAP_DOMAIN") eqn:H4; [|done].
    repeat (apply elem_of_cons in Hkey as [->|Hkey]; [congruence|]).
    by apply elem_of_nil in Hkey.
  - intros hostname user password domain e H1 H2 H3 H4 Hnew.
    unfold lift, Utils.getitem, construct. rewrite H1, H2, H3, H4.
    repeat (rewrite bind_run; cbv beta iota). by rewrite Hnew.
Qed.

End GetEdapProperties.

Module GetEdapScenarios.
Import GetEdap MockApp.

Lemma get_edap_memo_witness :
  let s' := {| g := <["edap" := "admin@ldap.example.org"]> ∅;
               constructed := [("ldap.example.org", "admin", "secret", "example.org")] |} in
  g s' !! "edap" = Some "admin@ldap.example.org" ∧
  get_edap Edap_new config s' = (Ok "admin@ldap.example.org", s') ∧
  (∀ held, g fresh !! "edap" = Some held → held = "admin@ldap.example.org" ∧ s' = fresh) ∧
  (g fresh !! "edap" = None →
   ∃ hostname user password domain,
     constructed s' = constructed fresh ++ [(hostname, user, password, domain)] ∧
     Edap_new hostname user password domain = Ok "admin@ldap.example.org").
Proof.
  apply (get_edap_memo Edap_new config fresh). vm_compute. reflexivity.
Defined.

(** Without [EDAP_USER] in the settings; and with an empty host name. *)
Lemma get_edap_failures_witness :
  get_edap Edap_new (delete "EDAP_USER" config) fresh = (Raise KeyError, fresh) ∧
  get_edap Edap_new (<["EDAP_HOSTNAME" := ""]> config) fresh =
    (Raise (GatewayError "cannot connect"),
     {| g := g fresh;
        constructed := constructed fresh ++ [("", "admin", "secret", "example.org")] |}).
Proof.
  split.
  - apply (proj1 (get_edap_failures Edap_new (delete "EDAP_USER" config) fresh eq_refl)
             "EDAP_USER").
    + set_solver.
    + vm_compute. reflexivity.
  - apply (proj2 (get_edap_failures Edap_new (<["EDAP_HOSTNAME" := ""]> config) fresh
                    eq_refl));
      vm_compute; reflexivity.
Defined.

End GetEdapScenarios.

(** ** The password-reset token *)

Section ResetTokenProperties.
Import ResetToken.
Context {V T Token : Type}
        (number : T → V)
        (plus : T → T → T)
        (jwt_encode : gmap string V → string → result Token)
        (jwt_decode : Token → string → result (gmap string V))
        (str : V → string)
        (repr : V → string)
        (str_exc : exn → string)
        (config : gmap string string).

(** X15: [verify_reset_password_token] answers [False], after printing the
    exception, whenever the token cannot be decoded: for any exception of
    [jwt.decode], and also when [SECRET_KEY] is not set, the lookup being
    inside the [try]. The [username] lookup is outside it: a token that
    decodes to a payload without [username] raises [KeyError]. Otherwise the
    answer tells whether [str] of the token's [username] is [str] of the
    [uid] asked for. *)
Theorem verify_reset_password_token_cases token uid out :
  (config !! "SECRET_KEY" = None →
   verify_reset_password_token jwt_decode str repr str_exc config token uid out
     = (Ok false, out ++ [str_exc KeyError])) ∧
  (∀ key exc,
     config !! "SECRET_KEY" = Some key →
     jwt_decode token key = Raise exc →
     verify_reset_password_token jwt_decode str repr str_exc config token uid out
       = (Ok false, out ++ [str_exc exc])) ∧
  (∀ key data,
     config !! "SECRET_KEY" = Some key →
     jwt_decode token key = Ok data →
     data !! "username" = None →
     verify_reset_password_token jwt_decode str repr str_exc config token uid out
       = (Raise KeyError, out)) ∧
  (∀ key data implied_uid,
     config !! "SECRET_KEY" = Some key →
     jwt_decode token key = Ok data →
     data !! "username" = Some implied_uid →
     verify_reset_password_token jwt_decode str repr str_exc config token uid out
       = (Ok (bool_decide (str implied_uid = str uid)),
          out ++ ["implied_uid=" +:+ repr implied_uid +:+ " uid=" +:+ repr uid])).
Proof.
  unfold verify_reset_password_token, Utils.getitem. split_and!.
  - intros Hkey. by rewrite Hkey.
  - intros key exc Hkey Hdecode. rewrite Hkey. simpl. by rewrite Hdecode.
  - intros key data Hkey Hdecode Huser. rewrite Hkey. simpl. rewrite Hdecode.
    rewrite bind_run. unfold lift. by rewrite Huser.
  - intros key data implied_uid Hkey Hdecode Huser. rewrite Hkey. simpl.
    rewrite Hdecode. rewrite bind_run. unfold lift. by rewrite Huser.
Qed.


End ResetTokenProperties.

Module ResetTokenScenarios.
Import ResetToken MockApp.

(** A token made with another key; a token without [username]; and the
    lookup of a key that is not set. *)
Lemma verify_reset_password_token_cases_witness :
  verify_reset_password_token jwt_decode id quoted str_exc (delete "SECRET_KEY" config)
    (<["username" := "alice"]> ∅, "k3y") "alice" []
    = (Ok false, [] ++ [str_exc KeyError]) ∧
  verify_reset_password_token jwt_decode id quoted str_exc config
    (<["username" := "alice"]> ∅, "forged") "alice" []
    = (Ok false, [] ++ [str_exc (GatewayError "Signature verification failed")]) ∧
  verify_reset_password_token jwt_decode id quoted str_exc config
    (<["user" := "alice"]> ∅, "k3y") "alice" []
    = (Raise KeyError, []) ∧
  verify_reset_password_token jwt_decode id quoted str_exc config
    (<["username" := "alice"]> ∅, "k3y") "bob" []
    = (Ok (bool_decide (id "alice" = id "bob")),
       [] ++ ["implied_uid=" +:+ quoted "alice" +:+ " uid=" +:+ quoted "bob"]).
Proof.
  split_and!.
  - apply (proj1 (verify_reset_password_token_cases jwt_decode id quoted str_exc
                    (delete "SECRET_KEY" config) _ "alice" [])).
    vm_compute. reflexivity.
  - apply (proj1 (proj2 (verify_reset_password_token_cases jwt_decode id quoted str_exc
                           config (<["username" := "alice"]> ∅, "forged") "alice" []))
             "k3y");
      vm_compute; reflexivity.
  - apply (proj1 (proj2 (proj2 (verify_reset_password_token_cases jwt_decode id quoted
                                  str_exc config (<["user" := "alice"]> ∅, "k3y")
                                  "alice" [])))
             "k3y" (<["user" := "alice"]> ∅));
      vm_compute; reflexivity.
  - apply (proj2 (proj2 (proj2 (verify_reset_password_token_cases jwt_decode id quoted
                                  str_exc config (<["username" := "alice"]> ∅, "k3y")
                                  "bob" [])))
             "k3y" (<["username" := "alice"]> ∅) "alice");
      vm_compute; reflexivity.
Defined.





End ResetTokenScenarios.

(** ** The views of [nextcloud/api.py] *)

Module ApiFacts.
Import Api.

Lemma vbind_run {S A B} (m : View S A) (k : A → View S B) s :
  (m ≫= k) s = match m s with
               | (Return a, s') => k a s'
               | (Fail f, s') => (Fail f, s')
               end.
Proof. reflexivity. Qed.

Section ViewProperties.
Context {N : Type}
        (client : api_call → N → result reply * N)
        (config : gmap string (option string))
        (lower : string → string)
        (chars : string → list string).

Lemma nextcloud_ready (s : aworld N) :
  configured config → nextcloud config s = (Return tt, s).
Proof.
  intros (url & username & password & Hurl & Huser & Hpassword).
  unfold nextcloud, setting, mbind, View_bind. by rewrite Hurl, Huser, Hpassword.
Qed.


Lemma call_run c n l r n' :
  configured config →
  client c n = (r, n') →
  call client config c (AWorld n l)
    = (match r with Ok a => Return a | Raise e => Fail (Python e) end,
       AWorld n' (l ++ [c])).
Proof.
  intros Hready Hc. unfold call. rewrite vbind_run, (nextcloud_ready _ Hready).
  unfold perform. simpl. by rewrite Hc.
Qed.


Lemma each_calls (f : json → api_call) gs n l n' :
  configured config →
  answers client (f <$> gs) n = Some n' →
  each gs (λ g, call client config (f g) ;; mret tt) (AWorld n l)
    = (Return tt, AWorld n' (l ++ (f <$> gs))).
Proof.
  intros Hready. revert n l. induction gs as [|g gs IH]; intros n l Hrun; simpl in *.
  - injection Hrun as <-. by rewrite app_nil_r.
  - destruct (client (f g) n) as [[a|e] n1] eqn:Hc; [|done].
    rewrite !vbind_run, (call_run _ _ _ _ _ Hready Hc). simpl.
    rewrite (IH _ _ Hrun). by rewrite <- app_assoc.
Qed.

(** X17: [GroupWithFolderViewSet.post] checks the request before anything
    else. Without a [group_name] or a [group_type] (absent, null, empty) it
    aborts with 400; with a [group_type] that is not a string it raises
    [AttributeError]; with one whose lower-case form is not an allowed type
    it answers 400. In all three cases the configuration is not read and
    the groupware service is not called. *)
Theorem group_with_folder_validation (request : gmap string json) (s : aworld N) :
  (truthy (get request "group_name") = false ∨
   truthy (get request "group_type") = false →
   GroupWithFolderViewSet_post client config lower request s
     = (Fail (HTTPException 400), s)) ∧
  (truthy (get request "group_name") = true →
   truthy (get request "group_type") = true →
   (∀ t, get request "group_type" ≠ JString t) →
   GroupWithFolderViewSet_post client config lower request s
     = (Fail AttributeError, s)) ∧
  (∀ t,
     truthy (get request "group_name") = true →
     get request "group_type" = JString t →
     t ≠ "" →
     lower t ∉ ALLOWED_GROUP_TYPES →
     GroupWithFolderViewSet_post client config lower request s
       = (Return {| body := message_body "Not allowed group type"; status := 400 |},
          s)).
Proof.
  unfold GroupWithFolderViewSet_post. split_and!.
  - intros [-> | ->]; [done|]. by rewrite orb_true_r.
  - intros -> -> Htype. simpl. rewrite vbind_run.
    destruct (get request "group_type") as [| | |t| |]; try done. by destruct (Htype t).
  - intros t -> -> Ht Hnot. simpl.
    destruct (String.eqb_spec t ""); [done|]. simpl.
    rewrite vbind_run. simpl. by rewrite bool_decide_eq_false_2.
Qed.

Section ValidRequest.
(** A request that passes the checks: a [group_name], and a [group_type]
    whose lower-case form is allowed. *)
Context (request : gmap string json) (group_name : json) (t : string)
        (Hready : configured config)
        (Hname : get request "group_name" = group_name)
        (Htruthy : truthy group_name = true)
        (Htype : get request "group_type" = JString t)
        (Ht : t ≠ "")
        (Hallowed : lower t ∈ ALLOWED_GROUP_TYPES).

Lemma group_with_folder_unfold s :
  GroupWithFolderViewSet_post client config lower request s
  = (found ← call client config (GetGroup group_name);
     if is_ok found
     then mret {| body := message_body "Group with this name already exists";
                  status := 400 |}
     else
       create_group_res ← call client config (AddGroup group_name);
       if negb (is_ok create_group_res)
       then mret {| body := message_body "Something went wrong during group creation";
                    status := 400 |}
       else
         path ← join [JString t; group_name];
         create_folder_res ← call client config (CreateGroupFolder path);
         if negb (is_ok create_folder_res)
         then
           call client config (DeleteGroup group_name) ;;
           mret {| body := message_body
                             "Something went wrong during group folder creation";
                   status := 400 |}
         else mret {| body := message_body "Group with group folder successfully created";
                      status := 201 |}) s.
Proof.
  unfold GroupWithFolderViewSet_post. rewrite Hname, Htype, Htruthy. simpl.
  destruct (String.eqb_spec t ""); [done|]. simpl.
  rewrite vbind_run. simpl. by rewrite bool_decide_eq_true_2.
Qed.

(** X18: what [GroupWithFolderViewSet.post] answers to a request that passes
    the checks. When the group is found it answers 400 after that one
    lookup; when the service does not accept the new group, 400 after lookup
    and creation; when the folder is made as well, 201. The folder path is
    the [group_type] as it was sent, not its lower-case form, then [/] and
    the [group_name]. *)
Theorem group_with_folder_outcomes n l :
  (∀ found n0,
     client (GetGroup group_name) n = (Ok found, n0) →
     is_ok found = true →
     GroupWithFolderViewSet_post client config lower request (AWorld n l)
       = (Return {| body := message_body "Group with this name already exists";
                    status := 400 |},
          AWorld n0 (l ++ [GetGroup group_name]))) ∧
  (∀ found n0 created n1,
     client (GetGroup group_name) n = (Ok found, n0) →
     is_ok found = false →
     client (AddGroup group_name) n0 = (Ok created, n1) →
     is_ok created = false →
     GroupWithFolderViewSet_post client config lower request (AWorld n l)
       = (Return {| body := message_body "Something went wrong during group creation";
                    status := 400 |},
          AWorld n1 (l ++ [GetGroup group_name; AddGroup group_name]))) ∧
  (∀ name found n0 created n1 folder n2,
     group_name = JString name →
     client (GetGroup group_name) n = (Ok found, n0) →
     is_ok found = false →
     client (AddGroup group_name) n0 = (Ok created, n1) →
     is_ok created = true →
     client (CreateGroupFolder (t +:+ "/" +:+ name)) n1 = (Ok folder, n2) →
     is_ok folder = true →
     GroupWithFolderViewSet_post client config lower request (AWorld n l)
       = (Return {| body := message_body "Group with group folder successfully created";
                    status := 201 |},
          AWorld n2 (l ++ [GetGroup group_name; AddGroup group_name;
                           CreateGroupFolder (t +:+ "/" +:+ name)]))).
Proof.
  split_and!.
  - intros found n0 Hget Hfound.
    rewrite group_with_folder_unfold, vbind_run, (call_run _ _ _ _ _ Hready Hget).
    simpl. by rewrite Hfound.
  - intros found n0 created n1 Hget Hfound Hadd Hcreated.
    rewrite group_with_folder_unfold, vbind_run, (call_run _ _ _ _ _ Hready Hget).
    simpl. rewrite Hfound.
    rewrite vbind_run, (call_run _ _ _ _ _ Hready Hadd). simpl. rewrite Hcreated.
    simpl. by rewrite <- app_assoc.
  - intros name found n0 created n1 folder n2 Hstr Hget Hfound Hadd Hcreated
      Hfolder Hmade.
    rewrite group_with_folder_unfold, vbind_run, (call_run _ _ _ _ _ Hready Hget).
    simpl. rewrite Hfound.
    rewrite vbind_run, (call_run _ _ _ _ _ Hready Hadd). simpl. rewrite Hcreated.
    simpl. rewrite vbind_run. unfold join. rewrite Hstr. simpl.
    rewrite vbind_run, (call_run _ _ _ _ _ Hready Hfolder). simpl. rewrite Hmade.
    simpl. by rewrite <- !app_assoc.
Qed.

(** X19: the group that [GroupWithFolderViewSet.post] has just created is
    deleted again exactly when the service answers the folder creation with
    a reply that is not ok; the answer is then 400 whatever the reply to the
    deletion. When the folder creation raises, or the [group_name] is not a
    string so that the path cannot be joined, the exception leaves the view
    and the new group stays. *)
Theorem group_with_folder_rollback n l found n0 created n1 :
  client (GetGroup group_name) n = (Ok found, n0) →
  is_ok found = false →
  client (AddGroup group_name) n0 = (Ok created, n1) →
  is_ok created = true →
  (∀ name folder n2 deleted n3,
     group_name = JString name →
     client (CreateGroupFolder (t +:+ "/" +:+ name)) n1 = (Ok folder, n2) →
     is_ok folder = false →
     client (DeleteGroup group_name) n2 = (Ok deleted, n3) →
     GroupWithFolderViewSet_post client config lower request (AWorld n l)
       = (Return {| body := message_body
                              "Something went wrong during group folder creation";
                    status := 400 |},
          AWorld n3 (l ++ [GetGroup group_name; AddGroup group_name;
                           CreateGroupFolder (t +:+ "/" +:+ name);
                           DeleteGroup group_name]))) ∧
  (∀ name e n2,
     group_name = JString name →
     client (CreateGroupFolder (t +:+ "/" +:+ name)) n1 = (Raise e, n2) →
     GroupWithFolderViewSet_post client config lower request (AWorld n l)
       = (Fail (Python e),
          AWorld n2 (l ++ [GetGroup group_name; AddGroup group_name;
                           CreateGroupFolder (t +:+ "/" +:+ name)]))) ∧
  ((∀ name, group_name ≠ JString name) →
   GroupWithFolderViewSet_post client config lower request (AWorld n l)
     = (Fail (Python TypeError),
        AWorld n1 (l ++ [GetGroup group_name; AddGroup group_name]))).
Proof.
  intros Hget Hfound Hadd Hcreated.
  rewrite group_with_folder_unfold, vbind_run, (call_run _ _ _ _ _ Hready Hget).
  simpl. rewrite Hfound.
  rewrite vbind_run, (call_run _ _ _ _ _ Hready Hadd). simpl. rewrite Hcreated.
  simpl. rewrite <- app_assoc. simpl. rewrite vbind_run. unfold join.
  split_and!.
  - intros name folder n2 deleted n3 Hstr Hfolder Hrefused Hdelete. rewrite Hstr in *.
    simpl. rewrite vbind_run, (call_run _ _ _ _ _ Hready Hfolder). simpl.
    rewrite Hrefused. simpl.
    rewrite vbind_run, (call_run _ _ _ _ _ Hready Hdelete). simpl.
    by rewrite <- !app_assoc.
  - intros name e n2 Hstr Hfolder. rewrite Hstr in *. simpl.
    rewrite vbind_run, (call_run _ _ _ _ _ Hready Hfolder). simpl.
    by rewrite <- !app_assoc.
  - intros Hnot. destruct group_name as [| | |name| |]; try done.
    by destruct (Hnot name).
Qed.

End ValidRequest.


(** X21: [UserViewSet.post] answers 201 with the reply to the user's
    creation as its body, also when that reply is not ok; and it adds the
    user to every group of the request, in the order of the request,
    whatever the replies to the creation and to the additions. A request
    whose [groups] is null raises [TypeError] after the user's creation. *)
Theorem user_post_adds_groups request n l created n1 :
  configured config →
  truthy (get request "username") = true →
  truthy (get request "password") = true →
  client (AddUser (get request "username") (get request "password")) n
    = (Ok created, n1) →
  (∀ gs n2,
     get_or request "groups" (JArray []) = JArray gs →
     answers client (AddToGroup (get request "username") <$> gs) n1 = Some n2 →
     UserViewSet_post client config chars request (AWorld n l)
       = (Return {| body := nxc_response created; status := 201 |},
          AWorld n2 (l ++ AddUser (get request "username") (get request "password")
                          :: (AddToGroup (get request "username") <$> gs)))) ∧
  (request !! "groups" = Some JNull →
   UserViewSet_post client config chars request (AWorld n l)
     = (Fail (Python TypeError),
        AWorld n1 (l ++ [AddUser (get request "username") (get request "password")]))).
Proof.
  intros Hready Huser Hpassword Hadd. unfold UserViewSet_post.
  rewrite Huser, Hpassword. simpl.
  rewrite vbind_run, (call_run _ _ _ _ _ Hready Hadd). simpl. split.
  - intros gs n2 -> Hgroups. rewrite vbind_run. simpl. rewrite vbind_run.
    rewrite (each_calls (AddToGroup (get request "username")) _ _ _ _ Hready Hgroups).
    simpl. by rewrite <- app_assoc.
  - intros Hnull. unfold get_or. by rewrite Hnull.
Qed.

(** X22: the three operations that look the group up first write nothing
    when the lookup's reply is not ok: adding a user to a group, making a
    user subadmin of a group and removing a subadmin answer 404 after that
    one lookup. *)
Theorem writes_need_the_group n l found n0 :
  configured config →
  is_ok found = false →
  (∀ username request,
     truthy (get request "group_name") = true →
     client (GetGroup (get request "group_name")) n = (Ok found, n0) →
     UserGroupViewSet_post client config username request (AWorld n l)
       = (Return {| body := message_body "group not found"; status := 404 |},
          AWorld n0 (l ++ [GetGroup (get request "group_name")]))) ∧
  (∀ group_name request,
     group_name ≠ "" →
     truthy (get request "username") = true →
     client (GetGroup (JString group_name)) n = (Ok found, n0) →
     GroupViewSet_post client config (Some group_name) request (AWorld n l)
       = (Return {| body := message_body "group not found"; status := 404 |},
          AWorld n0 (l ++ [GetGroup (JString group_name)]))) ∧
  (∀ group_name username,
     username ≠ "" →
     client (GetGroup (JString group_name)) n = (Ok found, n0) →
     GroupViewSet_delete client config group_name (Some username) (AWorld n l)
       = (Return {| body := message_body "group not found"; status := 404 |},
          AWorld n0 (l ++ [GetGroup (JString group_name)]))).
Proof.
  intros Hready Hfound. split_and!.
  - intros username request Hname Hget. unfold UserGroupViewSet_post.
    rewrite Hname. simpl.
    rewrite vbind_run, (call_run _ _ _ _ _ Hready Hget). simpl. by rewrite Hfound.
  - intros group_name request Hname Huser Hget. unfold GroupViewSet_post, present.
    destruct (String.eqb_spec group_name ""); [done|]. simpl. rewrite Huser. simpl.
    rewrite vbind_run, (call_run _ _ _ _ _ Hready Hget). simpl. by rewrite Hfound.
  - intros group_name username Hname Hget. unfold GroupViewSet_delete, present.
    destruct (String.eqb_spec username ""); [done|]. simpl.
    rewrite vbind_run, (call_run _ _ _ _ _ Hready Hget). simpl. by rewrite Hfound.
Qed.

Lemma call_unconfigured c (s : aworld N) :
  ¬ configured config → ∃ f, call client config c s = (Fail f, s).
Proof.
  intros Hnot. unfold call, nextcloud, setting, mbind, View_bind.
  destruct (config !! "NEXTCLOUD_HOST") as [[url|]|] eqn:Hurl;
    destruct (config !! "NEXTCLOUD_USER") as [[username|]|] eqn:Huser;
    destruct (config !! "NEXTCLOUD_PASSWORD") as [[password|]|] eqn:Hpassword;
    simpl; eauto.
  destruct Hnot. by exists url, username, password.
Qed.

(** X23: the client is built from three settings. When all three are there
    and one of them is [None], a call of the service aborts with 400; when
    one is not there at all, it raises [KeyError], whatever the others are.
    In both cases, and in any view, the service is not called. *)
Theorem unconfigured_views (s : aworld N) :
  (∀ url username password c,
     config !! "NEXTCLOUD_HOST" = Some url →
     config !! "NEXTCLOUD_USER" = Some username →
     config !! "NEXTCLOUD_PASSWORD" = Some password →
     url = None ∨ username = None ∨ password = None →
     call client config c s = (Fail (HTTPException 400), s)) ∧
  (∀ key c,
     key ∈ ["NEXTCLOUD_HOST"; "NEXTCLOUD_USER"; "NEXTCLOUD_PASSWORD"] →
     config !! key = None →
     call client config c s = (Fail (Python KeyError), s)) ∧
  (¬ configured config →
   (∀ username, (UserViewSet_get client config username s).2 = s) ∧
   (∀ request, (UserViewSet_post client config chars request s).2 = s) ∧
   (∀ username, (UserViewSet_delete client config username s).2 = s) ∧
   (∀ username action request,
      (UserViewSet_patch client config username action request s).2 = s) ∧
   (∀ username request, (UserGroupViewSet_post client config username request s).2 = s) ∧
   (∀ username group_name,
      (UserGroupViewSet_delete client config username group_name s).2 = s) ∧
   (∀ group_name action, (GroupViewSet_get client config group_name action s).2 = s) ∧
   (∀ group_name request, (GroupViewSet_post client config group_name request s).2 = s) ∧
   (∀ group_name username,
      (GroupViewSet_delete client config group_name username s).2 = s) ∧
   (∀ request, (GroupWithFolderViewSet_post client config lower request s).2 = s)).
Proof.
  split_and!.
  - intros url username password c Hurl Huser Hpassword Hnone.
    unfold call, nextcloud, setting, mbind, View_bind.
    rewrite Hurl, Huser, Hpassword. simpl.
    destruct Hnone as [-> | [-> | ->]]; simpl; [done| |].
    + by rewrite orb_true_r.
    + by rewrite orb_true_r.
  - intros key c Hkey Hmissing.
    unfold call, nextcloud, setting, mbind, View_bind.
    apply elem_of_cons in Hkey as [-> | Hkey]; [by rewrite Hmissing|].
    apply elem_of_cons in Hkey as [-> | Hkey].
    { rewrite Hmissing. by destruct (config !! "NEXTCLOUD_HOST"). }
    apply elem_of_cons in Hkey as [-> | Hkey]; [|by apply elem_of_nil in Hkey].
    rewrite Hmissing.
    destruct (config !! "NEXTCLOUD_HOST"); [|done].
    by destruct (config !! "NEXTCLOUD_USER").
  - intros Hnot.
    assert (Hcall : ∀ A c (k : reply → View (aworld N) A),
              ((call client config c ≫= k) s).2 = s).
    { intros A c k. rewrite vbind_run.
      by destruct (call_unconfigured c s Hnot) as [f ->]. }
    split_and!.
    + intros [u|]; apply Hcall.
    + intros request. unfold UserViewSet_post.
      destruct (negb _); [done|apply Hcall].
    + intros username. apply Hcall.
    + intros username [a|] request; unfold UserViewSet_patch.
      * destruct (negb _); [done|].
        destruct (bool_decide (a = "enable")); apply Hcall.
      * destruct (negb _); [done|apply Hcall].
    + intros username request. unfold UserGroupViewSet_post.
      destruct (negb _); [done|apply Hcall].
    + intros username group_name. apply Hcall.
    + intros group_name action. unfold GroupViewSet_get.
      repeat (destruct (_ && _); [apply Hcall|]). done.
    + intros group_name request. unfold GroupViewSet_post.
      destruct (present group_name); (destruct (negb _); [done|apply Hcall]).
    + intros group_name username. unfold GroupViewSet_delete.
      destruct (present username); apply Hcall.
    + intros request. unfold GroupWithFolderViewSet_post.
      destruct (_ || _); [done|]. rewrite vbind_run.
      destruct (get request "group_type"); simpl; try done.
      destruct (negb _); [done|apply Hcall].
Qed.

(** X24: a request without a field the view needs is turned down before
    the configuration is read or the service called: the creation of a
    user, the addition to a group, the creation of a subadmin and of a group
    abort with 400. [UserViewSet.patch] answers an empty body instead: 400
    when [param] or [value] is missing, 404 for an action that is neither
    [enable] nor [disable]. *)
Theorem missing_fields_rejected request (s : aworld N) :
  (truthy (get request "username") = false ∨
   truthy (get request "password") = false →
   UserViewSet_post client config chars request s = (Fail (HTTPException 400), s)) ∧
  (∀ username,
     truthy (get request "group_name") = false →
     UserGroupViewSet_post client config username request s
       = (Fail (HTTPException 400), s)) ∧
  (∀ group_name,
     group_name ≠ "" →
     truthy (get request "username") = false →
     GroupViewSet_post client config (Some group_name) request s
       = (Fail (HTTPException 400), s)) ∧
  (∀ group_name,
     group_name = None ∨ group_name = Some "" →
     truthy (get request "group_name") = false →
     GroupViewSet_post client config group_name request s
       = (Fail (HTTPException 400), s)) ∧
  (∀ username,
     truthy (get request "param") = false ∨ truthy (get request "value") = false →
     UserViewSet_patch client config username None request s
       = (Return {| body := ∅; status := 400 |}, s)) ∧
  (∀ username action,
     action ≠ "enable" →
     action ≠ "disable" →
     UserViewSet_patch client config username (Some action) request s
       = (Return {| body := ∅; status := 404 |}, s)).
Proof.
  split_and!.
  - intros [Hmissing | Hmissing]; unfold UserViewSet_post; rewrite Hmissing;
      [done|by rewrite andb_false_r].
  - intros username Hmissing. unfold UserGroupViewSet_post. by rewrite Hmissing.
  - intros group_name Hname Hmissing. unfold GroupViewSet_post, present.
    destruct (String.eqb_spec group_name ""); [done|]. simpl. by rewrite Hmissing.
  - intros group_name [-> | ->] Hmissing; unfold GroupViewSet_post; simpl;
      by rewrite Hmissing.
  - intros username [Hmissing | Hmissing]; unfold UserViewSet_patch; rewrite Hmissing;
      [done|by rewrite andb_false_r].
  - intros username action Henable Hdisable. unfold UserViewSet_patch.
    rewrite bool_decide_eq_false_2; [done|]. intros Hin.
    apply elem_of_cons in Hin as [-> | Hin]; [done|].
    apply elem_of_cons in Hin as [-> | Hin]; [done|].
    by apply elem_of_nil in Hin.
Qed.

End ViewProperties.
End ApiFacts.

Module ApiScenarios.
Import Api MockCloud.

Lemma config_ready : configured config.
Proof. exists "https://cloud.example.org", "admin", "s3cret". by vm_compute. Qed.

(** An empty request; a [group_type] that is a number; and a type that is
    not allowed. *)
Lemma group_with_folder_validation_witness :
  GroupWithFolderViewSet_post client config lower ∅ start
    = (Fail (HTTPException 400), start) ∧
  GroupWithFolderViewSet_post client config lower
    (group_request (JString "ops") (JNumber 7)) start
    = (Fail AttributeError, start) ∧
  GroupWithFolderViewSet_post client config lower
    (group_request (JString "ops") (JString "Teams")) start
    = (Return {| body := message_body "Not allowed group type"; status := 400 |},
       start).
Proof.
  split_and!.
  - apply (proj1 (ApiFacts.group_with_folder_validation client config lower ∅ start)).
    left. reflexivity.
  - apply (proj1 (proj2 (ApiFacts.group_with_folder_validation client config lower
                           (group_request (JString "ops") (JNumber 7)) start)));
      [vm_compute; reflexivity..|].
    intros t. vm_compute. discriminate.
  - apply (proj2 (proj2 (ApiFacts.group_with_folder_validation client config lower
                           (group_request (JString "ops") (JString "Teams")) start))
             "Teams");
      [vm_compute; reflexivity..|discriminate|].
    apply (bool_decide_unpack _). vm_compute. exact I.
Defined.

(** A group that exists, a name the service keeps to itself, and a new
    group of type [Divisions]. *)
Lemma group_with_folder_outcomes_witness :
  GroupWithFolderViewSet_post client config lower
    (group_request (JString "staff") (JString "Other")) (AWorld office [])
    = (Return {| body := message_body "Group with this name already exists";
                 status := 400 |},
       AWorld office ([] ++ [GetGroup (JString "staff")])) ∧
  GroupWithFolderViewSet_post client config lower
    (group_request (JString "admin") (JString "other")) (AWorld office [])
    = (Return {| body := message_body "Something went wrong during group creation";
                 status := 400 |},
       AWorld office ([] ++ [GetGroup (JString "admin"); AddGroup (JString "admin")])) ∧
  GroupWithFolderViewSet_post client config lower
    (group_request (JString "ops") (JString "Divisions")) (AWorld office [])
    = (Return {| body := message_body "Group with group folder successfully created";
                 status := 201 |},
       AWorld (with_groups ["ops"; "staff"] office)
         ([] ++ [GetGroup (JString "ops"); AddGroup (JString "ops");
                 CreateGroupFolder ("Divisions" +:+ "/" +:+ "ops")])).
Proof.
  split_and!.
  - apply (proj1 (ApiFacts.group_with_folder_outcomes client config lower
                    (group_request (JString "staff") (JString "Other"))
                    (JString "staff") "Other" config_ready eq_refl eq_refl eq_refl
                    ltac:(discriminate) ltac:(apply (bool_decide_unpack _); vm_compute; exact I)
                    office [])
             (answer true));
      vm_compute; reflexivity.
  - apply (proj1 (proj2 (ApiFacts.group_with_folder_outcomes client config lower
                    (group_request (JString "admin") (JString "other"))
                    (JString "admin") "other" config_ready eq_refl eq_refl eq_refl
                    ltac:(discriminate) ltac:(apply (bool_decide_unpack _); vm_compute; exact I)
                    office []))
             (answer false) office (answer false));
      vm_compute; reflexivity.
  - apply (proj2 (proj2 (ApiFacts.group_with_folder_outcomes client config lower
                    (group_request (JString "ops") (JString "Divisions"))
                    (JString "ops") "Divisions" config_ready eq_refl eq_refl eq_refl
                    ltac:(discriminate) ltac:(apply (bool_decide_unpack _); vm_compute; exact I)
                    office []))
             "ops" (answer false) office (answer true)
             (with_groups ["ops"; "staff"] office) (answer true));
      vm_compute; reflexivity.
Defined.

(** A folder the service refuses, a folder at which it cannot be reached,
    and a [group_name] that is a number. *)
Lemma group_with_folder_rollback_witness :
  GroupWithFolderViewSet_post client config lower
    (group_request (JString "archive") (JString "other")) (AWorld office [])
    = (Return {| body := message_body
                           "Something went wrong during group folder creation";
                 status := 400 |},
       AWorld (with_groups ["staff"] office)
         ([] ++ [GetGroup (JString "archive"); AddGroup (JString "archive");
                 CreateGroupFolder ("other" +:+ "/" +:+ "archive");
                 DeleteGroup (JString "archive")])) ∧
  GroupWithFolderViewSet_post client config lower
    (group_request (JString "atlantis") (JString "countries")) (AWorld office [])
    = (Fail (Python (GatewayError "connection timed out")),
       AWorld (with_groups ["atlantis"; "staff"] office)
         ([] ++ [GetGroup (JString "atlantis"); AddGroup (JString "atlantis");
                 CreateGroupFolder ("countries" +:+ "/" +:+ "atlantis")])) ∧
  GroupWithFolderViewSet_post client config lower
    (group_request (JNumber 7) (JString "other")) (AWorld office [])
    = (Fail (Python TypeError),
       AWorld office ([] ++ [GetGroup (JNumber 7); AddGroup (JNumber 7)])).
Proof.
  split_and!.
  - apply (proj1 (ApiFacts.group_with_folder_rollback client config lower
                    (group_request (JString "archive") (JString "other"))
                    (JString "archive") "other" config_ready eq_refl eq_refl eq_refl
                    ltac:(discriminate) ltac:(apply (bool_decide_unpack _); vm_compute; exact I)
                    office [] (answer false) office (answer true)
                    (with_groups ["archive"; "staff"] office)
                    eq_refl eq_refl eq_refl eq_refl)
             "archive" (answer false) (with_groups ["archive"; "staff"] office)
             (answer true));
      vm_compute; reflexivity.
  - apply (proj1 (proj2 (ApiFacts.group_with_folder_rollback client config lower
                    (group_request (JString "atlantis") (JString "countries"))
                    (JString "atlantis") "countries" config_ready eq_refl eq_refl eq_refl
                    ltac:(discriminate) ltac:(apply (bool_decide_unpack _); vm_compute; exact I)
                    office [] (answer false) office (answer true)
                    (with_groups ["atlantis"; "staff"] office)
                    eq_refl eq_refl eq_refl eq_refl))
             "atlantis");
      vm_compute; reflexivity.
  - apply (proj2 (proj2 (ApiFacts.group_with_folder_rollback client config lower
                    (group_request (JNumber 7) (JString "other"))
                    (JNumber 7) "other" config_ready eq_refl eq_refl eq_refl
                    ltac:(discriminate) ltac:(apply (bool_decide_unpack _); vm_compute; exact I)
                    office [] (answer false) office (answer true) office
                    eq_refl eq_refl eq_refl eq_refl))).
    discriminate.
Defined.


(** A user with a group that exists and one that does not; the same with
    [admin], whose creation is not ok; and a request whose [groups] is
    null. *)
Lemma user_post_adds_groups_witness :
  UserViewSet_post client config chars
    (user_request (JString "alice") (JString "pw")
       (JArray [JString "staff"; JString "ghosts"])) (AWorld office [])
    = (Return {| body := nxc_response (answer true); status := 201 |},
       AWorld office
         ([] ++ AddUser (get (user_request (JString "alice") (JString "pw")
                                (JArray [JString "staff"; JString "ghosts"])) "username")
                  (get (user_request (JString "alice") (JString "pw")
                          (JArray [JString "staff"; JString "ghosts"])) "password")
               :: (AddToGroup
                     (get (user_request (JString "alice") (JString "pw")
                             (JArray [JString "staff"; JString "ghosts"])) "username")
                     <$> [JString "staff"; JString "ghosts"]))) ∧
  UserViewSet_post client config chars
    (user_request (JString "admin") (JString "pw") (JArray [JString "staff"]))
    (AWorld office [])
    = (Return {| body := nxc_response (answer false); status := 201 |},
       AWorld office
         ([] ++ AddUser (get (user_request (JString "admin") (JString "pw")
                                (JArray [JString "staff"])) "username")
                  (get (user_request (JString "admin") (JString "pw")
                          (JArray [JString "staff"])) "password")
               :: (AddToGroup
                     (get (user_request (JString "admin") (JString "pw")
                             (JArray [JString "staff"])) "username")
                     <$> [JString "staff"]))) ∧
  UserViewSet_post client config chars
    (user_request (JString "alice") (JString "pw") JNull) (AWorld office [])
    = (Fail (Python TypeError),
       AWorld office
         ([] ++ [AddUser (get (user_request (JString "alice") (JString "pw") JNull)
                            "username")
                   (get (user_request (JString "alice") (JString "pw") JNull)
                      "password")])).
Proof.
  split_and!.
  - apply (proj1 (ApiFacts.user_post_adds_groups client config chars
                    (user_request (JString "alice") (JString "pw")
                       (JArray [JString "staff"; JString "ghosts"]))
                    office [] (answer true) office
                    config_ready eq_refl eq_refl eq_refl));
      vm_compute; reflexivity.
  - apply (proj1 (ApiFacts.user_post_adds_groups client config chars
                    (user_request (JString "admin") (JString "pw")
                       (JArray [JString "staff"]))
                    office [] (answer false) office
                    config_ready eq_refl eq_refl eq_refl));
      vm_compute; reflexivity.
  - apply (proj2 (ApiFacts.user_post_adds_groups client config chars
                    (user_request (JString "alice") (JString "pw") JNull)
                    office [] (answer true) office
                    config_ready eq_refl eq_refl eq_refl)).
    vm_compute. reflexivity.
Defined.

(** A group the service does not have. *)
Lemma writes_need_the_group_witness :
  UserGroupViewSet_post client config "alice" (group_request (JString "ghosts") JNull)
    (AWorld office [])
    = (Return {| body := message_body "group not found"; status := 404 |},
       AWorld office
         ([] ++ [GetGroup (get (group_request (JString "ghosts") JNull) "group_name")])) ∧
  GroupViewSet_post client config (Some "ghosts")
    (user_request (JString "alice") JNull JNull) (AWorld office [])
    = (Return {| body := message_body "group not found"; status := 404 |},
       AWorld office ([] ++ [GetGroup (JString "ghosts")])) ∧
  GroupViewSet_delete client config "ghosts" (Some "alice") (AWorld office [])
    = (Return {| body := message_body "group not found"; status := 404 |},
       AWorld office ([] ++ [GetGroup (JString "ghosts")])).
Proof.
  split_and!.
  - apply (proj1 (ApiFacts.writes_need_the_group client config office [] (answer false)
                    office config_ready eq_refl));
      vm_compute; reflexivity.
  - apply (proj1 (proj2 (ApiFacts.writes_need_the_group client config office []
                           (answer false) office config_ready eq_refl)));
      [discriminate|vm_compute; reflexivity..].
  - apply (proj2 (proj2 (ApiFacts.writes_need_the_group client config office []
                           (answer false) office config_ready eq_refl)));
      [discriminate|vm_compute; reflexivity].
Defined.

Lemma config_no_password_unready : ¬ configured config_no_password.
Proof. intros (url & username & password & _ & _ & Hpassword). by vm_compute in Hpassword. Qed.

(** The password left unset; the host not there; and the views with the
    password left unset. *)
Lemma unconfigured_views_witness :
  call client config_no_password GetGroups start = (Fail (HTTPException 400), start) ∧
  call client config_no_host GetGroups start = (Fail (Python KeyError), start) ∧
  (UserViewSet_post client config_no_password chars
     (user_request (JString "alice") (JString "pw") (JArray [])) start).2 = start ∧
  (GroupWithFolderViewSet_post client config_no_password lower
     (group_request (JString "ops") (JString "other")) start).2 = start.
Proof.
  split_and!.
  - apply (proj1 (ApiFacts.unconfigured_views client config_no_password lower chars start)
             (Some "https://cloud.example.org") (Some "admin") None);
      [vm_compute; reflexivity..|].
    right. right. reflexivity.
  - apply (proj1 (proj2 (ApiFacts.unconfigured_views client config_no_host lower chars
                           start))
             "NEXTCLOUD_HOST");
      [|vm_compute; reflexivity].
    apply (bool_decide_unpack _). vm_compute. exact I.
  - apply (proj2 (proj2 (ApiFacts.unconfigured_views client config_no_password lower chars
                           start))
             config_no_password_unready).
  - apply (proj2 (proj2 (ApiFacts.unconfigured_views client config_no_password lower chars
                           start))
             config_no_password_unready).
Defined.

(** Requests without the fields, and an action that is not known. *)
Lemma missing_fields_rejected_witness :
  UserViewSet_post client config chars (group_request (JString "ops") JNull) start
    = (Fail (HTTPException 400), start) ∧
  UserGroupViewSet_post client config "alice" (∅ : gmap string json) start
    = (Fail (HTTPException 400), start) ∧
  GroupViewSet_post client config (Some "staff") (∅ : gmap string json) start
    = (Fail (HTTPException 400), start) ∧
  GroupViewSet_post client config None (group_request (JString "") JNull) start
    = (Fail (HTTPException 400), start) ∧
  UserViewSet_patch client config "alice" None
    (<["param" := JString "email"]> (∅ : gmap string json)) start
    = (Return {| body := ∅; status := 400 |}, start) ∧
  UserViewSet_patch client config "alice" (Some "Enable") (∅ : gmap string json) start
    = (Return {| body := ∅; status := 404 |}, start).
Proof.
  split_and!.
  - apply (proj1 (ApiFacts.missing_fields_rejected client config chars
                    (group_request (JString "ops") JNull) start)).
    left. vm_compute. reflexivity.
  - apply (proj1 (proj2 (ApiFacts.missing_fields_rejected client config chars ∅ start))).
    vm_compute. reflexivity.
  - apply (proj1 (proj2 (proj2 (ApiFacts.missing_fields_rejected client config chars ∅
                                  start))));
      [discriminate|vm_compute; reflexivity].
  - apply (proj1 (proj2 (proj2 (proj2 (ApiFacts.missing_fields_rejected client config
                                         chars (group_request (JString "") JNull)
                                         start)))));
      [by left|vm_compute; reflexivity].
  - apply (proj1 (proj2 (proj2 (proj2 (proj2
             (ApiFacts.missing_fields_rejected client config chars
                (<["param" := JString "email"]> ∅) start)))))).
    right. vm_compute. reflexivity.
  - apply (proj2 (proj2 (proj2 (proj2 (proj2
             (ApiFacts.missing_fields_rejected client config chars ∅ start))))));
      discriminate.
Defined.

End ApiScenarios.
